(** * AI-Voice-Agent, data-integration service: chunker, ingestion pipeline,
      vector search and MCP protocol server.

    A shallow embedding of

      - app/services/file_processor.py  (module [file_processor]),
      - app/services/vector_service.py  (module [vector_service]),
      - app/services/mcp_server.py      (module [mcp_server]),

    followed by the properties established about them.

    Conventions.  Python [str] values are Rocq strings whose characters are
    taken in the ASCII range; integers are [Z]; a Python [dict] whose
    iteration order matters (a JSON object, a response under construction)
    is an association list in insertion order; the server's registries,
    which are only looked up by key, are [gmap]s.  A call that may raise
    returns a [result]. *)

From Stdlib Require Import ZArith Ascii String List Lia.
From stdpp Require Import base option list gmap strings pretty.

Set Warnings "-register-all".
Local Open Scope string_scope.
Local Open Scope Z_scope.

(** ** Outcomes of fallible and of possibly non-terminating code *)

(** [Raise msg] is a Python exception whose [str(e)] is [msg];
    [OutOfFuel] is only produced by the bounded unfolding of a [while]
    loop. *)
Inductive result (A : Type) : Type :=
| Ok (a : A)
| Raise (msg : string)
| OutOfFuel.
Arguments Ok {A} a.
Arguments Raise {A} msg.
Arguments OutOfFuel {A}.

#[global] Instance result_ret : MRet result := fun A a => Ok a.

#[global] Instance result_bind : MBind result := fun A B k r =>
  match r with
  | Ok a => k a
  | Raise msg => Raise msg
  | OutOfFuel => OutOfFuel
  end.

(** ** Python values that travel as JSON *)

(** [VFloat] carries the IEEE-754 binary64 bit pattern: floats are only
    passed through and tested for truthiness. *)
Inductive value : Type :=
| VNone
| VBool (b : bool)
| VInt (z : Z)
| VFloat (bits : Z)
| VStr (s : string)
| VList (l : list value)
| VDict (kv : list (string * value)).

(** [type(v).__name__], as it appears in the text of an AttributeError. *)
Definition py_type_name (v : value) : string :=
  match v with
  | VNone => "NoneType"
  | VBool _ => "bool"
  | VInt _ => "int"
  | VFloat _ => "float"
  | VStr _ => "str"
  | VList _ => "list"
  | VDict _ => "dict"
  end.

Definition attribute_error {A : Type} (v : value) (attr : string) : result A :=
  Raise ("'" ++ py_type_name v ++ "' object has no attribute '" ++ attr ++ "'").

(** [bool(v)]: the truth value Python gives to [v] in [if v] and [not v]. *)
Definition truthy (v : value) : bool :=
  match v with
  | VNone => false
  | VBool b => b
  | VInt z => negb (z =? 0)
  | VFloat bits => negb (Z.land bits 9223372036854775807 =? 0)
  | VStr s => negb (String.eqb s "")
  | VList l => match l with [] => false | _ => true end
  | VDict kv => match kv with [] => false | _ => true end
  end.

(** [d.get(key)] on the items of a dict. *)
Fixpoint dict_get (key : string) (kv : list (string * value)) : option value :=
  match kv with
  | [] => None
  | (k, v) :: rest => if String.eqb k key then Some v else dict_get key rest
  end.

(** [d.get(key, default)]; [d.get(key)] is [dict_get_default key VNone]. *)
Definition dict_get_default (key : string) (default : value)
    (kv : list (string * value)) : value :=
  match dict_get key kv with
  | Some v => v
  | None => default
  end.

(** [d[key] = v]: replaces the value in place when the key is present and
    appends the item otherwise. *)
Fixpoint dict_set (key : string) (v : value) (kv : list (string * value))
    : list (string * value) :=
  match kv with
  | [] => [(key, v)]
  | (k, w) :: rest =>
      if String.eqb k key then (k, v) :: rest else (k, w) :: dict_set key v rest
  end.

(** [x in l] for a list of strings [l]: a value that is not a [str] is
    equal to none of its elements. *)
Definition value_in (x : value) (l : list string) : bool :=
  match x with
  | VStr s => bool_decide (s ∈ l)
  | _ => false
  end.

(** [v == s] for a string [s]. *)
Definition is_str (s : string) (v : value) : bool :=
  match v with
  | VStr s' => String.eqb s s'
  | _ => false
  end.

(** ** Python string primitives *)

Definition py_len (s : string) : Z := Z.of_nat (String.length s).

(** Index adjustment shared by slicing and by the [start]/[end] arguments
    of [str.rfind]: a negative index counts from the end, and the result
    is clamped to [0 .. len]. *)
Definition adjust_index (len i : Z) : Z :=
  if i <? 0 then Z.max 0 (i + len) else Z.min i len.

(** [s[start:stop]] *)
Definition py_slice (s : string) (start stop : Z) : string :=
  let a := adjust_index (py_len s) start in
  let b := adjust_index (py_len s) stop in
  if a <? b then substring (Z.to_nat a) (Z.to_nat (b - a)) s else "".

Fixpoint rfind_scan (c : ascii) (s : string) (i a b : Z) (found : Z) : Z :=
  match s with
  | EmptyString => found
  | String x rest =>
      rfind_scan c rest (i + 1) a b
        (if (a <=? i) && (i <? b) && Ascii.eqb x c then i else found)
  end.

(** [s.rfind(c, start, stop)] for a one-character needle: the highest index
    in the adjusted range holding [c], or [-1]. *)
Definition py_rfind (s : string) (c : ascii) (start stop : Z) : Z :=
  rfind_scan c s 0 (adjust_index (py_len s) start)
    (adjust_index (py_len s) stop) (-1).

(** [c.isspace()] in the ASCII range: TAB, LF, VT, FF, CR, FS, GS, RS, US
    and SPACE. *)
Definition is_space (c : ascii) : bool :=
  let n := Z.of_nat (nat_of_ascii c) in
  ((9 <=? n) && (n <=? 13)) || ((28 <=? n) && (n <=? 32)).

Fixpoint py_lstrip (s : string) : string :=
  match s with
  | EmptyString => EmptyString
  | String c rest => if is_space c then py_lstrip rest else s
  end.

Fixpoint py_rstrip (s : string) : string :=
  match s with
  | EmptyString => EmptyString
  | String c rest =>
      match py_rstrip rest with
      | EmptyString => if is_space c then EmptyString else String c EmptyString
      | r => String c r
      end
  end.

(** [s.strip()] *)
Definition py_strip (s : string) : string := py_rstrip (py_lstrip s).

Definition upper_char (c : ascii) : ascii :=
  let n := nat_of_ascii c in
  if ((97 <=? n) && (n <=? 122))%nat then ascii_of_nat (n - 32) else c.

Definition lower_char (c : ascii) : ascii :=
  let n := nat_of_ascii c in
  if ((65 <=? n) && (n <=? 90))%nat then ascii_of_nat (n + 32) else c.

Fixpoint string_map (f : ascii -> ascii) (s : string) : string :=
  match s with
  | EmptyString => EmptyString
  | String c rest => String (f c) (string_map f rest)
  end.

(** [s.upper()] and [s.lower()] *)
Definition py_upper (s : string) : string := string_map upper_char s.
Definition py_lower (s : string) : string := string_map lower_char s.

(** [s.startswith(p)] *)
Definition py_startswith (s p : string) : bool := String.prefix p s.

(** [sep.join(parts)] *)
Fixpoint py_join (sep : string) (parts : list string) : string :=
  match parts with
  | [] => ""
  | [p] => p
  | p :: rest => p ++ sep ++ py_join sep rest
  end.

(** [c * n] for a one-character string [c]; used to write long inputs. *)
Fixpoint repeat_char (c : ascii) (n : nat) : string :=
  match n with
  | O => EmptyString
  | S m => String c (repeat_char c m)
  end.

Definition newline : string := String (ascii_of_nat 10) EmptyString.

(** ** app/services/file_processor.py *)

Module file_processor.

(** The two attributes [FileProcessor.__init__] sets besides the vector
    service. *)
Record FileProcessor : Type := {
  chunk_size : Z;     (* characters per chunk *)
  overlap_size : Z    (* overlap between chunks *)
}.

Definition __init__ : FileProcessor :=
  {| chunk_size := 1000; overlap_size := 200 |}.

(** *** [_split_text] *)

(** The first half of the loop body: the window end, pulled back to the
    last space found in the window when there is one after [start]. *)
Definition window_end (self : FileProcessor) (text : string) (start : Z) : Z :=
  let end_ := start + chunk_size self in
  if end_ <? py_len text then
    let last_space := py_rfind text " "%char start end_ in
    if last_space >? start then last_space else end_
  else end_.

(** [start = end - self.overlap_size if end < len(text) else end] *)
Definition next_start (self : FileProcessor) (text : string) (end_ : Z) : Z :=
  if end_ <? py_len text then end_ - overlap_size self else end_.

(** [chunk = text[start:end].strip()] followed by [if chunk: chunks.append(chunk)] *)
Definition append_chunk (text : string) (start end_ : Z) (chunks : list string)
    : list string :=
  let chunk := py_strip (py_slice text start end_) in
  if String.eqb chunk "" then chunks else (chunks ++ [chunk])%list.

(** [while start < len(text)], unfolded at most [fuel] times. *)
Fixpoint split_loop (self : FileProcessor) (fuel : nat) (text : string)
    (start : Z) (chunks : list string) : result (list string) :=
  if start <? py_len text then
    match fuel with
    | O => OutOfFuel
    | S fuel' =>
        let end_ := window_end self text start in
        split_loop self fuel' text (next_start self text end_)
          (append_chunk text start end_ chunks)
    end
  else Ok chunks.

Definition _split_text (self : FileProcessor) (fuel : nat) (text : string)
    : result (list string) :=
  if py_len text <=? chunk_size self then Ok [text]
  else split_loop self fuel text 0 [].

(** *** [_create_chunks] *)

Record ChunkMetadata : Type := {
  record_index : Z;
  chunk_index : Z;
  source_type : value;
  original_record : value
}.

(** The dict built for each chunk, with its four keys. *)
Record Chunk : Type := {
  content : string;
  hash : string;
  index : Z;
  metadata : ChunkMetadata
}.

Section create_chunks.

(** [str(v)], used by the f-string and by [str(record)], and
    [hashlib.sha256(s.encode()).hexdigest()] belong to the Python runtime. *)
Variable py_str : value -> string.
Variable sha256_hexdigest : string -> string.

Definition _get_content_hash (content : string) : string :=
  sha256_hexdigest content.

(** The items [f"{k}: {v}"] of a record without a ['content'] key. *)
Fixpoint field_lines (kv : list (string * value)) : list string :=
  match kv with
  | [] => []
  | (k, v) :: rest =>
      if py_startswith k "_" then field_lines rest
      else (k ++ ": " ++ py_str v)%string :: field_lines rest
  end.

(** "Convert record to text": the value bound to [text]. *)
Definition record_text (record : value) : value :=
  match record with
  | VDict kv =>
      match dict_get "content" kv with
      | Some v => v
      | None => VStr (py_join newline (field_lines kv))
      end
  | _ => VStr (py_str record)
  end.

(** [self._split_text(text)] for whatever [text] is.  A ['content'] that is
    not a [str] never yields a chunk: a number, a boolean or [None] has no
    [len()]; a short list or dict is returned whole and fails in
    [_get_content_hash] at [.encode()]; a long one fails at [.rfind]. *)
Definition split_value (self : FileProcessor) (fuel : nat) (text : value)
    : result (list string) :=
  match text with
  | VStr s => _split_text self fuel s
  | VList l =>
      if Z.of_nat (length l) <=? chunk_size self
      then attribute_error text "encode" else attribute_error text "rfind"
  | VDict kv =>
      if Z.of_nat (length kv) <=? chunk_size self
      then attribute_error text "encode" else attribute_error text "rfind"
  | _ => Raise ("object of type '" ++ py_type_name text ++ "' has no len()")
  end.

(** [record.get('_source_type', 'unknown')] *)
Definition record_source_type (record : value) : result value :=
  match record with
  | VDict kv => Ok (dict_get_default "_source_type" (VStr "unknown") kv)
  | _ => attribute_error record "get"
  end.

(** The inner loop [for j, chunk_text in enumerate(text_chunks)], from
    position [j] on, appending to [chunks]. *)
Fixpoint append_record_chunks (record : value) (i j : Z)
    (text_chunks : list string) (chunks : list Chunk) : result (list Chunk) :=
  match text_chunks with
  | [] => Ok chunks
  | chunk_text :: rest =>
      st ← record_source_type record;
      append_record_chunks record i (j + 1) rest
        (chunks ++ [ {| content := chunk_text;
                        hash := _get_content_hash chunk_text;
                        index := Z.of_nat (length chunks);
                        metadata := {| record_index := i;
                                       chunk_index := j;
                                       source_type := st;
                                       original_record := record |} |} ])%list
  end.

(** The outer loop [for i, record in enumerate(data)], from position [i]. *)
Fixpoint create_chunks_loop (self : FileProcessor) (fuel : nat)
    (data : list value) (i : Z) (chunks : list Chunk) : result (list Chunk) :=
  match data with
  | [] => Ok chunks
  | record :: rest =>
      text_chunks ← split_value self fuel (record_text record);
      chunks' ← append_record_chunks record i 0 text_chunks chunks;
      create_chunks_loop self fuel rest (i + 1) chunks'
  end.

Definition _create_chunks (self : FileProcessor) (fuel : nat)
    (data : list value) (data_source_id business_id : string)
    : result (list Chunk) :=
  create_chunks_loop self fuel data 0 [].

End create_chunks.

(** *** [process_file] *)

(** The columns of a [DataSource] row that [process_file] reads or writes. *)
Record DataSource : Type := {
  ds_source_type : string;
  processing_status : string;
  processing_error : option string;
  records_count : Z;
  processed_at : option string;
  ds_metadata : list (string * value)
}.

(** A [DataChunk] row as [process_file] builds it. *)
Record DataChunk : Type := {
  dc_data_source_id : string;
  dc_business_id : string;
  dc_content : string;
  dc_content_hash : string;
  dc_metadata : ChunkMetadata;
  dc_chunk_index : Z
}.

(** The committed content of the two tables. *)
Record Database : Type := {
  data_sources : gmap string DataSource;
  data_chunks : list DataChunk
}.

(** The six format readers: they open the file and call pandas, PyPDF2 or
    docx; each re-raises what goes wrong. *)
Record Extractors : Type := {
  _process_excel : string -> result (list value);
  _process_csv : string -> result (list value);
  _process_json : string -> result (list value);
  _process_pdf : string -> result (list value);
  _process_text : string -> result (list value);
  _process_docx : string -> result (list value)
}.

Section process_file.

Variable py_str : value -> string.
Variable sha256_hexdigest : string -> string.
Variable extractors : Extractors.

(** [datetime.utcnow().isoformat()] at the n-th reading of the clock
    during a run. *)
Variable utcnow : nat -> string.

(** "Process based on file type" *)
Definition extract (file_extension file_path : string) : result (list value) :=
  if bool_decide (file_extension ∈ ["xlsx"; "xls"])
  then _process_excel extractors file_path
  else if String.eqb file_extension "csv" then _process_csv extractors file_path
  else if String.eqb file_extension "json" then _process_json extractors file_path
  else if String.eqb file_extension "pdf" then _process_pdf extractors file_path
  else if String.eqb file_extension "txt" then _process_text extractors file_path
  else if String.eqb file_extension "docx" then _process_docx extractors file_path
  else Raise ("Unsupported file type: " ++ file_extension).

(** [_index_chunks]: its [try] block writes one log line (the call to the
    vector service is a TODO comment) and its [except] clause logs; it
    returns [None] whatever happens. *)
Definition _index_chunks (chunks : list Chunk) (data_source_id : string) : unit :=
  tt.

(** The row [DataChunk(...)] added to the session for a chunk. *)
Definition db_chunk (data_source_id business_id : string) (chunk : Chunk)
    : DataChunk :=
  {| dc_data_source_id := data_source_id;
     dc_business_id := business_id;
     dc_content := content chunk;
     dc_content_hash := hash chunk;
     dc_metadata := metadata chunk;
     dc_chunk_index := index chunk |}.

(** "Update status to processing" *)
Definition mark_processing (data_source : DataSource) : DataSource :=
  {| ds_source_type := ds_source_type data_source;
     processing_status := "processing";
     processing_error := processing_error data_source;
     records_count := records_count data_source;
     processed_at := processed_at data_source;
     ds_metadata :=
       dict_set "processing_started_at" (VStr (utcnow 0))
         (ds_metadata data_source) |}.

(** "Update data source" *)
Definition mark_completed (data_source : DataSource) (chunks : list Chunk)
    : DataSource :=
  {| ds_source_type := ds_source_type data_source;
     processing_status := "completed";
     processing_error := processing_error data_source;
     records_count := Z.of_nat (length chunks);
     processed_at := Some (utcnow 1);
     ds_metadata :=
       dict_set "chunks_created" (VInt (Z.of_nat (length chunks)))
         (dict_set "processing_completed_at" (VStr (utcnow 2))
            (ds_metadata data_source)) |}.

(** "Update error status"; [reading] is the number of clock readings the
    run has made before. *)
Definition mark_error (reading : nat) (data_source : DataSource) (e : string)
    : DataSource :=
  {| ds_source_type := ds_source_type data_source;
     processing_status := "error";
     processing_error := Some e;
     records_count := records_count data_source;
     processed_at := processed_at data_source;
     ds_metadata :=
       dict_set "processing_error_at" (VStr (utcnow reading))
         (ds_metadata data_source) |}.

(** What a [db.commit()] that succeeds stores: the data source object as
    it is, and the rows added to the session and not stored yet. *)
Definition store (db : Database) (data_source_id : string)
    (data_source : DataSource) (added : list DataChunk) : Database :=
  {| data_sources := <[data_source_id := data_source]> (data_sources db);
     data_chunks := (data_chunks db ++ added)%list |}.

(** Whether the n-th [db.commit()] of the run raises, and with what
    message.  A commit that raises stores nothing. *)
Variable commit_raises : nat -> option string.

(** What the session holds after a [db.commit()] that raised is the
    session's business: the code never calls [db.rollback()].  Either the
    session has rolled the transaction back itself, so that the data
    source object shows the committed row again and the rows added are
    gone, or it still holds the object as the run set it and the rows
    added. *)
Variable session_rolls_back : bool.

Definition after_failed_commit (committed data_source : DataSource)
    (added : list DataChunk) : DataSource * list DataChunk :=
  if session_rolls_back then (committed, []) else (data_source, added).

(** The steps of the [try] block that read the file and create the
    chunks. *)
Definition extract_and_chunk (self : FileProcessor) (fuel : nat)
    (data_source : DataSource) (data_source_id file_path business_id : string)
    : result (list Chunk) :=
  data ← extract (py_lower (ds_source_type data_source)) file_path;
  _create_chunks py_str sha256_hexdigest self fuel data data_source_id business_id.

(** The [except Exception as e] clause, entered with the message [e] when
    the run has made [commits] commits and [reading] clock readings, the
    database holds [db], the session holds the rows [added] and the data
    source object is [data_source]: the error is written on the object and
    committed; if that commit raises too, [except: pass] drops the
    exception.  The clause returns [False]. *)
Definition handle_exception (commits reading : nat) (db : Database)
    (data_source_id : string) (data_source : DataSource)
    (added : list DataChunk) (e : string) : bool * Database :=
  match commit_raises commits with
  | None =>
      (false, store db data_source_id (mark_error reading data_source e) added)
  | Some _ => (false, db)
  end.

(** [process_file]: the value returned and the database afterwards. *)
Definition process_file (self : FileProcessor) (fuel : nat) (db : Database)
    (data_source_id file_path business_id : string) : result (bool * Database) :=
  match data_sources db !! data_source_id with
  | None => Ok (false, db)
  | Some data_source =>
      let processing := mark_processing data_source in
      match commit_raises 0 with
      | Some e =>
          let session := after_failed_commit data_source processing [] in
          Ok (handle_exception 1 1 db data_source_id (fst session)
                (snd session) e)
      | None =>
          let db1 := store db data_source_id processing [] in
          match extract_and_chunk self fuel processing data_source_id file_path
                  business_id with
          | Ok chunks =>
              let rows := map (db_chunk data_source_id business_id) chunks in
              let completed := mark_completed processing chunks in
              match commit_raises 1 with
              | Some e =>
                  let session := after_failed_commit processing completed rows in
                  Ok (handle_exception 2 3 db1 data_source_id (fst session)
                        (snd session) e)
              | None =>
                  let _ := _index_chunks chunks data_source_id in
                  Ok (true, store db1 data_source_id completed rows)
              end
          | Raise e =>
              Ok (handle_exception 1 1 db1 data_source_id processing [] e)
          | OutOfFuel => OutOfFuel
          end
      end
  end.

End process_file.

End file_processor.

(** ** app/services/vector_service.py *)

Module vector_service.

(** An embedding is a list of floats, each carried as its bit pattern. *)
Definition Embedding : Type := list Z.

(** [models.PointStruct] *)
Record PointStruct : Type := {
  id : string;
  vector : Embedding;
  payload : list (string * value)
}.

(** [models.FieldCondition(key=..., match=models.MatchValue(value=...))] *)
Record FieldCondition : Type := {
  key : string;
  match_value : string
}.

(** [models.Filter(must=[...])] *)
Record Filter : Type := {
  must : list FieldCondition
}.

(** The keyword arguments of [client.search]. *)
Record SearchRequest : Type := {
  collection_name : string;
  query_vector : Embedding;
  query_filter : Filter;
  limit : Z;
  score_threshold : Z
}.

(** A hit of [client.search]. *)
Record ScoredPoint : Type := {
  hit_score : Z;
  hit_payload : list (string * value)
}.

(** The two external services behind [VectorService]: the embedding model
    and the Qdrant client. *)
Record VectorService : Type := {
  self_collection_name : string;
  generate_embedding : string -> result Embedding;
  client_upsert : string -> list PointStruct -> result unit;
  client_search : SearchRequest -> result (list ScoredPoint)
}.

Definition metadata_value (m : file_processor.ChunkMetadata) : value :=
  VDict [ ("record_index", VInt (file_processor.record_index m));
          ("chunk_index", VInt (file_processor.chunk_index m));
          ("source_type", file_processor.source_type m);
          ("original_record", file_processor.original_record m) ].

(** The loop [for i, chunk in enumerate(chunks)] of [index_chunks], from
    position [i]. *)
Fixpoint build_points (self : VectorService) (data_source_id : string)
    (i : Z) (chunks : list file_processor.Chunk) (points : list PointStruct)
    : result (list PointStruct) :=
  match chunks with
  | [] => Ok points
  | chunk :: rest =>
      embedding ← generate_embedding self (file_processor.content chunk);
      build_points self data_source_id (i + 1) rest
        (points ++ [ {| id := (data_source_id ++ "_" ++ pretty i)%string;
                        vector := embedding;
                        payload :=
                          [ ("content", VStr (file_processor.content chunk));
                            ("data_source_id", VStr data_source_id);
                            ("chunk_index", VInt (file_processor.index chunk));
                            ("metadata",
                             metadata_value (file_processor.metadata chunk)) ]
                     |} ])%list
  end.

(** [index_chunks]: the points handed to [client.upsert] when every
    embedding and the upsert succeed; the [except] clause logs and
    re-raises. *)
Definition index_chunks (self : VectorService)
    (chunks : list file_processor.Chunk) (data_source_id : string)
    : result (list PointStruct) :=
  points ← build_points self data_source_id 0 chunks [];
  _ ← client_upsert self (self_collection_name self) points;
  Ok points.

(** The batches [index_chunks] hands to [client.upsert], in the order
    of the calls: it makes the one call after the loop, with all the
    points, and only when every embedding has been obtained. *)
Definition index_chunks_upserts (self : VectorService)
    (chunks : list file_processor.Chunk) (data_source_id : string)
    : list (list PointStruct) :=
  match build_points self data_source_id 0 chunks [] with
  | Ok points => [points]
  | _ => []
  end.

(** [d[k]] on a payload: a missing key is a KeyError, whose text is the
    quoted key. *)
Definition payload_item (k : string) (payload : list (string * value))
    : result value :=
  match dict_get k payload with
  | Some v => Ok v
  | None => Raise ("'" ++ k ++ "'")
  end.

(** One iteration of "Format results". *)
Definition format_hit (hit : ScoredPoint) : result value :=
  c ← payload_item "content" (hit_payload hit);
  d ← payload_item "data_source_id" (hit_payload hit);
  m ← payload_item "metadata" (hit_payload hit);
  Ok (VDict [ ("content", c); ("score", VFloat (hit_score hit));
              ("data_source_id", d); ("metadata", m) ]).

Fixpoint format_hits (hits : list ScoredPoint) : result (list value) :=
  match hits with
  | [] => Ok []
  | hit :: rest =>
      r ← format_hit hit;
      rs ← format_hits rest;
      Ok (r :: rs)
  end.

Definition business_filter (business_id : string) : Filter :=
  {| must := [ {| key := "metadata.business_id";
                  match_value := business_id |} ] |}.

(** [search_similar]; the [except] clause logs and re-raises. *)
Definition search_similar (self : VectorService) (query business_id : string)
    (limit : Z) (score_threshold : Z) : result (list value) :=
  query_embedding ← generate_embedding self query;
  search_result ← client_search self
    {| collection_name := self_collection_name self;
       query_vector := query_embedding;
       query_filter := business_filter business_id;
       limit := limit;
       score_threshold := score_threshold |};
  format_hits search_result.

(** *** What the filter means to the index *)

(** Splitting a payload key at its dots: ["metadata.business_id"] is the
    path [metadata], [business_id]. *)
Fixpoint split_dots (s : string) (cur : string) : list string :=
  match s with
  | EmptyString => [cur]
  | String c rest =>
      if Ascii.eqb c "."%char then cur :: split_dots rest ""
      else split_dots rest (cur ++ String c EmptyString)%string
  end.

Fixpoint lookup_path (path : list string) (v : value) : option value :=
  match path with
  | [] => Some v
  | k :: rest =>
      match v with
      | VDict kv =>
          match dict_get k kv with
          | Some w => lookup_path rest w
          | None => None
          end
      | _ => None
      end
  end.

(** A match-value condition holds of a payload when the field at the key
    is the value, or is an array holding it. *)
Definition condition_holds (c : FieldCondition) (payload : list (string * value))
    : bool :=
  match lookup_path (split_dots (key c) "") (VDict payload) with
  | Some (VList l) => existsb (is_str (match_value c)) l
  | Some v => is_str (match_value c) v
  | None => false
  end.

Definition filter_holds (f : Filter) (payload : list (string * value)) : bool :=
  forallb (fun c => condition_holds c payload) (must f).

(** An index that applies the filter it is given: every hit it returns
    satisfies the request's filter. *)
Definition applies_filter (search : SearchRequest -> result (list ScoredPoint))
    : Prop :=
  forall req hits, search req = Ok hits ->
    Forall (fun hit => filter_holds (query_filter req) (hit_payload hit) = true)
      hits.

(** A formatted result belongs to a business when its ["metadata"] carries
    that business id, the field the search filters on. *)
Definition belongs_to (business_id : string) (r : value) : bool :=
  match r with
  | VDict kv =>
      match dict_get "metadata" kv with
      | Some m =>
          match lookup_path ["business_id"] m with
          | Some (VList l) => existsb (is_str business_id) l
          | Some v => is_str business_id v
          | None => false
          end
      | None => false
      end
  | _ => false
  end.

End vector_service.

(** ** app/services/mcp_server.py *)

Module mcp_server.

(** What [handle_list_databases] reads of a database object; [db_id] is
    [str(db.id)]. *)
Record DatabaseInfo : Type := {
  db_id : string;
  db_name : value;
  db_description : value;
  db_schema_definition : value
}.

(** [DatabaseQueryService] and [VectorSearchService] live outside this
    module: the server only calls them.  [get_agent_bindings] gives the
    [database_id] of each binding it returns; [py_str] is Python's [str()],
    used by one f-string. *)
Record Services : Type := {
  py_str : value -> string;
  get_agent_bindings : value -> value -> result (list string);
  get_databases_info : list string -> result (list DatabaseInfo);
  execute_structured_query : value -> value -> result value;
  semantic_search : value -> list value -> value -> result value;
  get_database_schema : value -> result value;
  execute_raw_query : value -> string -> result value
}.

(** The calls a handler makes to the two services, in order. *)
Inductive Call : Type :=
| GetAgentBindings (agent_id business_id : value)
| GetDatabasesInfo (database_ids : list string)
| ExecuteStructuredQuery (database_id query : value)
| SemanticSearch (query_text : value) (database_ids : list value) (limit : value)
| GetDatabaseSchema (database_id : value)
| ExecuteRawQuery (database_id : value) (sql : string).

(** The two dictionaries of [MCPServer.__init__]; a websocket is known by
    its object identity. *)
Record MCPServer : Type := {
  connections : gmap string Z;
  agent_bindings : gmap string (list string)
}.

Definition __init__ : MCPServer :=
  {| connections := ∅; agent_bindings := ∅ |}.

(** A response under construction is a dict. *)
Definition Response : Type := list (string * value).

(** What a handler does: the calls it made, the server afterwards and the
    dict it returned or the exception it let through. *)
Record Handled : Type := {
  calls : list Call;
  server : MCPServer;
  returned : result Response
}.

Definition error_response (msg : string) : Response :=
  [ ("type", VStr "error"); ("error", VStr msg) ].

Definition returns (self : MCPServer) (r : Response) : Handled :=
  {| calls := []; server := self; returned := Ok r |}.

Definition not_authenticated : Response := error_response "Not authenticated".

Definition access_denied : Response :=
  error_response "Access denied to this database".

Definition only_select : Response :=
  error_response "Only SELECT queries are allowed".

Section handlers.

Variable services : Services.

Definition handle_authenticate (self : MCPServer) (data : Response)
    (connection_id : string) : Handled :=
  let agent_id := dict_get_default "agent_id" VNone data in
  let business_id := dict_get_default "business_id" VNone data in
  if negb (truthy agent_id) || negb (truthy business_id) then
    returns self (error_response "Missing agent_id or business_id")
  else
    match get_agent_bindings services agent_id business_id with
    | Ok bindings =>
        {| calls := [GetAgentBindings agent_id business_id];
           server := {| connections := connections self;
                        agent_bindings :=
                          <[connection_id := bindings]> (agent_bindings self) |};
           returned := Ok [ ("type", VStr "auth_success");
                            ("agent_id", agent_id);
                            ("available_databases",
                             VInt (Z.of_nat (length bindings))) ] |}
    | Raise msg =>
        {| calls := [GetAgentBindings agent_id business_id];
           server := self; returned := Raise msg |}
    | OutOfFuel =>
        {| calls := [GetAgentBindings agent_id business_id];
           server := self; returned := OutOfFuel |}
    end.

Definition database_entry (db : DatabaseInfo) : value :=
  VDict [ ("id", VStr (db_id db)); ("name", db_name db);
          ("description", db_description db);
          ("schema", db_schema_definition db) ].

Definition handle_list_databases (self : MCPServer) (data : Response)
    (connection_id : string) : Handled :=
  match agent_bindings self !! connection_id with
  | None => returns self not_authenticated
  | Some database_ids =>
      {| calls := [GetDatabasesInfo database_ids];
         server := self;
         returned :=
           databases ← get_databases_info services database_ids;
           Ok [ ("type", VStr "database_list");
                ("databases", VList (map database_entry databases)) ] |}
  end.

(** [try: ... except Exception as e: return error] around one service
    call: an exception becomes an error response with the given prefix. *)
Definition guarded (prefix : string) (r : result Response) : result Response :=
  match r with
  | Raise msg => Ok (error_response (prefix ++ msg))
  | other => other
  end.

Definition handle_query_database (self : MCPServer) (data : Response)
    (connection_id : string) : Handled :=
  match agent_bindings self !! connection_id with
  | None => returns self not_authenticated
  | Some bindings =>
      let database_id := dict_get_default "database_id" VNone data in
      let query := dict_get_default "query" VNone data in
      if negb (value_in database_id bindings) then returns self access_denied
      else
        {| calls := [ExecuteStructuredQuery database_id query];
           server := self;
           returned :=
             guarded "Query execution failed: "
               (results ← execute_structured_query services database_id query;
                Ok [ ("type", VStr "query_result");
                     ("database_id", database_id);
                     ("results", results) ]) |}
  end.

Definition handle_search_knowledge (self : MCPServer) (data : Response)
    (connection_id : string) : Handled :=
  match agent_bindings self !! connection_id with
  | None => returns self not_authenticated
  | Some bindings =>
      let query_text := dict_get_default "query" VNone data in
      let database_id := dict_get_default "database_id" VNone data in
      let limit := dict_get_default "limit" (VInt 5) data in
      if truthy database_id && negb (value_in database_id bindings)
      then returns self access_denied
      else
        let database_ids :=
          if truthy database_id then [database_id] else map VStr bindings in
        {| calls := [SemanticSearch query_text database_ids limit];
           server := self;
           returned :=
             guarded "Search failed: "
               (results ← semantic_search services query_text database_ids limit;
                Ok [ ("type", VStr "search_result");
                     ("query", query_text);
                     ("results", results) ]) |}
  end.

Definition handle_get_schema (self : MCPServer) (data : Response)
    (connection_id : string) : Handled :=
  match agent_bindings self !! connection_id with
  | None => returns self not_authenticated
  | Some bindings =>
      let database_id := dict_get_default "database_id" VNone data in
      if negb (value_in database_id bindings) then returns self access_denied
      else
        {| calls := [GetDatabaseSchema database_id];
           server := self;
           returned :=
             guarded "Schema retrieval failed: "
               (schema ← get_database_schema services database_id;
                Ok [ ("type", VStr "schema_info");
                     ("database_id", database_id);
                     ("schema", schema) ]) |}
  end.

(** The safety check [sql_query.strip().upper().startswith("SELECT")]. *)
Definition is_select (sql_query : string) : bool :=
  py_startswith (py_upper (py_strip sql_query)) "SELECT".

Definition handle_execute_query (self : MCPServer) (data : Response)
    (connection_id : string) : Handled :=
  match agent_bindings self !! connection_id with
  | None => returns self not_authenticated
  | Some bindings =>
      let database_id := dict_get_default "database_id" VNone data in
      let sql_query := dict_get_default "sql" VNone data in
      if negb (value_in database_id bindings) then returns self access_denied
      else
        match sql_query with
        | VStr sql =>
            if negb (is_select sql) then returns self only_select
            else
              {| calls := [ExecuteRawQuery database_id sql];
                 server := self;
                 returned :=
                   guarded "SQL execution failed: "
                     (results ← execute_raw_query services database_id sql;
                      Ok [ ("type", VStr "sql_result");
                           ("database_id", database_id);
                           ("query", sql_query);
                           ("results", results) ]) |}
        | _ =>
            (* [sql_query.strip] raises inside the [try] *)
            {| calls := []; server := self;
               returned :=
                 guarded "SQL execution failed: "
                   (attribute_error sql_query "strip") |}
        end
  end.

Definition process_operation (self : MCPServer) (data : Response)
    (connection_id : string) : Handled :=
  let operation := dict_get_default "operation" VNone data in
  if is_str "authenticate" operation then
    handle_authenticate self data connection_id
  else if is_str "list_databases" operation then
    handle_list_databases self data connection_id
  else if is_str "query_database" operation then
    handle_query_database self data connection_id
  else if is_str "search_knowledge" operation then
    handle_search_knowledge self data connection_id
  else if is_str "get_schema" operation then
    handle_get_schema self data connection_id
  else if is_str "execute_query" operation then
    handle_execute_query self data connection_id
  else
    returns self
      (error_response ("Unknown operation: " ++ py_str services operation)).

(** What [handle_message] does with one incoming message: the calls made,
    the server afterwards and the dict written to the websocket, if the
    handler comes back.  [message] is the outcome of [json.loads]: [None]
    for a JSONDecodeError. *)
Record Handling : Type := {
  made : list Call;
  after : MCPServer;
  sent : option Response
}.

(** [send_error] *)
Definition send_error (error_message : string) : Response :=
  error_response error_message.

Definition handle_message (self : MCPServer) (connection_id : string)
    (message : option value) : Handling :=
  match message with
  | None =>
      {| made := []; after := self;
         sent := Some (send_error "Invalid JSON format") |}
  | Some (VDict data) =>
      let request_id := dict_get_default "request_id" VNone data in
      let h := process_operation self data connection_id in
      {| made := calls h;
         after := server h;
         sent :=
           match returned h with
           | Ok response => Some (dict_set "request_id" request_id response)
           | Raise msg => Some (send_error ("Internal server error: " ++ msg))
           | OutOfFuel => None
           end |}
  | Some data =>
      (* [data.get] on a value that is not a dict *)
      {| made := []; after := self;
         sent :=
           Some (send_error
                   ("Internal server error: '" ++ py_type_name data
                      ++ "' object has no attribute 'get'")) |}
  end.

(** The loop [async for message in websocket] of [handle_connection]:
    every message is handled in turn on the server the previous one left. *)
Fixpoint message_loop (self : MCPServer) (connection_id : string)
    (messages : list (option value)) : MCPServer * list (option Response) :=
  match messages with
  | [] => (self, [])
  | message :: rest =>
      let h := handle_message self connection_id message in
      let '(self', out) := message_loop (after h) connection_id rest in
      (self', sent h :: out)
  end.

(** [send_welcome_message] *)
Definition welcome : Response :=
  [ ("type", VStr "welcome");
    ("server", VStr "AI Voice Agent MCP Server");
    ("version", VStr "1.0.0");
    ("capabilities",
     VDict [ ("database_query", VBool true); ("vector_search", VBool true);
             ("semantic_search", VBool true); ("data_retrieval", VBool true);
             ("schema_introspection", VBool true) ]);
    ("supported_operations",
     VList [ VStr "authenticate"; VStr "list_databases"; VStr "query_database";
             VStr "search_knowledge"; VStr "get_schema"; VStr "execute_query" ]) ].

(** [handle_connection] for a websocket that delivers [messages] and is
    then closed by the peer: registration, the message loop, and the
    [finally] clause, which removes the connection from [connections]. *)
Definition handle_connection (self : MCPServer) (websocket : Z)
    (messages : list (option value)) : MCPServer * list (option Response) :=
  let connection_id := ("conn_" ++ pretty websocket)%string in
  let registered :=
    {| connections := <[connection_id := websocket]> (connections self);
       agent_bindings := agent_bindings self |} in
  let '(self', out) := message_loop registered connection_id messages in
  ({| connections := delete connection_id (connections self');
      agent_bindings := agent_bindings self' |}, Some welcome :: out).

End handlers.

End mcp_server.

(** ** The readers of app/services/file_processor.py *)

Module readers.

(** The library calls of the readers ([open]/[read], [json.load],
    [pd.read_csv(...).to_dict('records')]) are taken as given: each
    delivers the content of the file or raises. *)

(** The records [_process_json] makes of the parsed document: a list is
    taken as it is, an object alone, anything else wrapped. *)
Definition json_records (py_str : value -> string) (data : value) : list value :=
  match data with
  | VList l => l
  | VDict _ => [data]
  | _ => [VDict [ ("content", VStr (py_str data)) ]]
  end.

(** One iteration of "Add metadata" in [_process_json]: a dict gets the
    tag; for anything else the loop variable is bound to a new dict, which
    leaves the element of the list as it was. *)
Definition tag_json (record : value) : value :=
  match record with
  | VDict kv => VDict (dict_set "_source_type" (VStr "json") kv)
  | _ => record
  end.

Definition _process_json (py_str : value -> string)
    (json_load : string -> result value) (file_path : string)
    : result (list value) :=
  data ← json_load file_path;
  Ok (map tag_json (json_records py_str data)).

Definition _process_text (read : string -> result string) (file_path : string)
    : result (list value) :=
  content ← read file_path;
  Ok [ VDict [ ("content", VStr content); ("_source_type", VStr "text") ] ].

(** [_process_csv]: the rows of the data frame, each tagged. *)
Definition _process_csv
    (read_csv : string -> result (list (list (string * value))))
    (file_path : string) : result (list value) :=
  records ← read_csv file_path;
  Ok (map (fun row => VDict (dict_set "_source_type" (VStr "csv") row)) records).

End readers.

(** ** app/api/v1/endpoints/files.py *)

Module files.

(** The keys of [ALLOWED_EXTENSIONS], in the order of the dict. *)
Definition ALLOWED_EXTENSIONS : list string :=
  [ "xlsx"; "xls"; "csv"; "json"; "pdf"; "txt"; "docx" ].

(** [s.rsplit('.', 1)[1]] when [s] holds a dot: what follows the last
    dot.  [None] when there is no dot. *)
Fixpoint after_last_dot (s : string) : option string :=
  match s with
  | EmptyString => None
  | String c rest =>
      match after_last_dot rest with
      | Some ext => Some ext
      | None => if Ascii.eqb c "."%char then Some rest else None
      end
  end.

Definition validate_file_extension (filename : string) : bool :=
  match after_last_dot filename with
  | None => false
  | Some extension => bool_decide (py_lower extension ∈ ALLOWED_EXTENSIONS)
  end.

(** The [source_type] that [upload_file] stores for an accepted file:
    [file.filename.rsplit('.', 1)[1].lower()]. *)
Definition upload_source_type (filename : string) : option string :=
  py_lower <$> after_last_dot filename.

End files.

(** ** app/api/v1/endpoints/search.py *)

Module search.

(** What an endpoint does: it returns its response model, raises an
    HTTPException, or is still waiting for a service. *)
Inductive reply (A : Type) : Type :=
| Respond (a : A)
| HTTPException (status_code : Z) (detail : string)
| Waiting.
Arguments Respond {A} a.
Arguments HTTPException {A} status_code detail.
Arguments Waiting {A}.

(** [schemas.search.SearchRequest] *)
Record SearchRequest : Type := {
  sr_query : string;
  sr_database_id : option string;
  sr_limit : Z;
  sr_score_threshold : Z
}.

(** [schemas.search.SearchResponse]; the execution time is read off the
    clock. *)
Record SearchResponse : Type := {
  resp_query : string;
  resp_results : list value;
  resp_total_count : Z;
  resp_execution_time_ms : Z
}.



(** [POST /search] for the business of the token. *)
Definition search_data (vector_service : vector_service.VectorService)
    (execution_time : Z) (search_request : SearchRequest) (business_id : string)
    : reply SearchResponse :=
  match vector_service.search_similar vector_service (sr_query search_request)
          business_id (sr_limit search_request)
          (sr_score_threshold search_request) with
  | Ok results =>
      Respond {| resp_query := sr_query search_request;
                 resp_results := results;
                 resp_total_count := Z.of_nat (length results);
                 resp_execution_time_ms := execution_time |}
  | Raise e => HTTPException 500 ("Search failed: " ++ e)
  | OutOfFuel => Waiting
  end.




End search.

(** * Predicates used in the statements *)

(** Every chunk of the list carries its own position as its ["index"]. *)
Definition indexed (chunks : list file_processor.Chunk) : Prop :=
  forall (k : nat) (c : file_processor.Chunk),
    chunks !! k = Some c -> file_processor.index c = Z.of_nat k.

(** The operations that return data, and the response types that carry
    it. *)
Definition data_operations : list string :=
  [ "list_databases"; "query_database"; "search_knowledge"; "get_schema";
    "execute_query" ].

Definition data_response_types : list string :=
  [ "database_list"; "query_result"; "search_result"; "schema_info";
    "sql_result" ].

(** The response of a search that was let through to the vector service. *)
Definition search_response (services : mcp_server.Services)
    (query_text : value) (database_ids : list value) (limit : value)
    : result mcp_server.Response :=
  mcp_server.guarded "Search failed: "
    (results ← mcp_server.semantic_search services query_text database_ids limit;
     Ok [ ("type", VStr "search_result");
          ("query", query_text);
          ("results", results) ]).

(** A chunk as the loop of [_split_text] appends them: not empty, and
    equal to its own [strip()]. *)
Definition trimmed_chunk (chunk : string) : Prop :=
  chunk <> "" /\ py_strip chunk = chunk.

(** [c in s] for a character [c]. *)
Fixpoint contains_char (c : ascii) (s : string) : bool :=
  match s with
  | EmptyString => false
  | String x rest => Ascii.eqb x c || contains_char c rest
  end.

(** Where a chunk comes from: it points back to a record of the data,
    its content is the piece of that record's text at its [chunk_index],
    its hash is the digest of its content and its [source_type] is the tag
    of the record. *)
Definition chunk_provenance (py_str : value -> string)
    (sha256_hexdigest : string -> string) (self : file_processor.FileProcessor)
    (fuel : nat) (data : list value) (c : file_processor.Chunk) : Prop :=
  let m := file_processor.metadata c in
  exists (kv : list (string * value)) (pieces : list string),
    0 <= file_processor.record_index m
    /\ data !! Z.to_nat (file_processor.record_index m) = Some (VDict kv)
    /\ file_processor.original_record m = VDict kv
    /\ file_processor.source_type m
         = dict_get_default "_source_type" (VStr "unknown") kv
    /\ file_processor.split_value self fuel
         (file_processor.record_text py_str (VDict kv)) = Ok pieces
    /\ 0 <= file_processor.chunk_index m
    /\ pieces !! Z.to_nat (file_processor.chunk_index m)
         = Some (file_processor.content c)
    /\ file_processor.hash c = sha256_hexdigest (file_processor.content c).

(** A record that fits in one chunk: a dict whose text is a string no
    longer than the window. *)
Definition short_record (py_str : value -> string)
    (self : file_processor.FileProcessor) (record : value) (text : string)
    : Prop :=
  (exists kv, record = VDict kv)
  /\ file_processor.record_text py_str record = VStr text
  /\ py_len text <= file_processor.chunk_size self.

(** The pieces a dict record is cut into. *)
Definition record_pieces (py_str : value -> string)
    (self : file_processor.FileProcessor) (fuel : nat) (record : value)
    (pieces : list string) : Prop :=
  (exists kv, record = VDict kv)
  /\ file_processor.split_value self fuel
       (file_processor.record_text py_str record) = Ok pieces.

(** A row persisted by a run for the given data source and business. *)
Definition row_of_run (data_source_id business_id : string)
    (row : file_processor.DataChunk) : Prop :=
  file_processor.dc_data_source_id row = data_source_id
  /\ file_processor.dc_business_id row = business_id.

(** The six reader calls [process_file] can make for a file. *)
Definition reader_calls (extractors : file_processor.Extractors)
    (file_path : string) : list (result (list value)) :=
  [ file_processor._process_excel extractors file_path;
    file_processor._process_csv extractors file_path;
    file_processor._process_json extractors file_path;
    file_processor._process_pdf extractors file_path;
    file_processor._process_text extractors file_path;
    file_processor._process_docx extractors file_path ].

(** The point [index_chunks] builds for the chunk at position [k]. *)
Definition point_of_chunk (data_source_id : string) (k : nat)
    (chunk : file_processor.Chunk) (p : vector_service.PointStruct) : Prop :=
  vector_service.id p = (data_source_id ++ "_" ++ pretty (Z.of_nat k))%string
  /\ dict_get "content" (vector_service.payload p)
       = Some (VStr (file_processor.content chunk))
  /\ dict_get "data_source_id" (vector_service.payload p)
       = Some (VStr data_source_id)
  /\ dict_get "chunk_index" (vector_service.payload p)
       = Some (VInt (file_processor.index chunk)).

(** A hit whose payload has the three fields [search_similar] reads. *)
Definition complete_hit (hit : vector_service.ScoredPoint) : bool :=
  match dict_get "content" (vector_service.hit_payload hit),
        dict_get "data_source_id" (vector_service.hit_payload hit),
        dict_get "metadata" (vector_service.hit_payload hit) with
  | Some _, Some _, Some _ => true
  | _, _, _ => false
  end.

(** A service call that stays within the databases bound to a
    connection. *)
Definition call_within (bindings : list string) (c : mcp_server.Call) : Prop :=
  match c with
  | mcp_server.GetAgentBindings _ _ => False
  | mcp_server.GetDatabasesInfo database_ids => database_ids = bindings
  | mcp_server.ExecuteStructuredQuery database_id _ =>
      value_in database_id bindings = true
  | mcp_server.SemanticSearch _ database_ids _ =>
      Forall (fun database_id => value_in database_id bindings = true)
        database_ids
  | mcp_server.GetDatabaseSchema database_id =>
      value_in database_id bindings = true
  | mcp_server.ExecuteRawQuery database_id _ =>
      value_in database_id bindings = true
  end.

(** The operations whose handler wraps its service call in [try]. *)
Definition guarded_operations : list string :=
  [ "query_database"; "search_knowledge"; "get_schema"; "execute_query" ].

(** The operations that take one database id and require it to be bound. *)
Definition database_operations : list string :=
  [ "query_database"; "get_schema"; "execute_query" ].

(** The six operations of the protocol. *)
Definition supported_operations : list string :=
  [ "authenticate"; "list_databases"; "query_database"; "search_knowledge";
    "get_schema"; "execute_query" ].

(** A message the server cannot dispatch: not JSON, not an object, or an
    object whose operation is none of the six. *)
Definition undispatchable (message : option value) : Prop :=
  match message with
  | None => True
  | Some (VDict data) =>
      forall op : string,
        dict_get_default "operation" VNone data = VStr op ->
        op ∉ supported_operations
  | Some _ => True
  end.

(** * Concrete inputs *)

Module inputs.

Import file_processor.

(** [str()] on the values the examples use. *)
Definition str_of_value (v : value) : string :=
  match v with
  | VStr s => s
  | VNone => "None"
  | VBool true => "True"
  | VBool false => "False"
  | VInt z => pretty z
  | _ => ""
  end.

(** A stand-in for SHA-256 in the examples, where the digest plays no
    part. *)
Definition plain_digest (s : string) : string := s.

Definition clock (n : nat) : string := "2024-05-01T12:00:00".

(** A JSON file holding three short records. *)
Definition three_records : list value :=
  [ VDict [ ("content", VStr "alpha"); ("_source_type", VStr "json") ];
    VDict [ ("content", VStr "beta"); ("_source_type", VStr "json") ];
    VDict [ ("content", VStr "gamma"); ("_source_type", VStr "json") ] ].

Definition three_record_file : Extractors :=
  {| _process_excel := fun _ => Ok three_records;
     _process_csv := fun _ => Ok three_records;
     _process_json := fun _ => Ok three_records;
     _process_pdf := fun _ => Ok three_records;
     _process_text := fun _ => Ok three_records;
     _process_docx := fun _ => Ok three_records |}.

(** A file that cannot be read. *)
Definition unreadable_file : Extractors :=
  {| _process_excel := fun _ => Raise "No such file";
     _process_csv := fun _ => Raise "No such file";
     _process_json := fun _ => Raise "No such file";
     _process_pdf := fun _ => Raise "No such file";
     _process_text := fun _ => Raise "No such file";
     _process_docx := fun _ => Raise "No such file" |}.

Definition pending_source : DataSource :=
  {| ds_source_type := "json";
     processing_status := "pending";
     processing_error := None;
     records_count := 0;
     processed_at := None;
     ds_metadata := [] |}.

Definition one_source_db : Database :=
  {| data_sources := {[ "ds1" := pending_source ]}; data_chunks := [] |}.

(** The chunks [_create_chunks] makes of [three_records]. *)
Definition three_chunks : list Chunk :=
  Eval vm_compute in
    match _create_chunks str_of_value plain_digest __init__ 0 three_records
            "ds1" "biz-A" with
    | Ok chunks => chunks
    | _ => []
    end.

(** An index whose embedding service fails on the second of the three
    chunks. *)
Definition failing_index : vector_service.VectorService :=
  {| vector_service.self_collection_name := "business_data";
     vector_service.generate_embedding := fun text =>
       if String.eqb text "beta" then Raise "IndexUpstreamError" else Ok [0];
     vector_service.client_upsert := fun _ _ => Ok tt;
     vector_service.client_search := fun _ => Ok [] |}.

(** A text whose only space sits 250 characters in: 250 letters, one
    space, 1000 letters. *)
Definition pathological_text : string :=
  (repeat_char "a" 250 ++ " " ++ repeat_char "b" 1000)%string.

(** A point indexed for business B. *)
Definition hit_of_business_b : vector_service.ScoredPoint :=
  {| vector_service.hit_score := 4606281698874543309;
     vector_service.hit_payload :=
       [ ("content", VStr "price list of B");
         ("data_source_id", VStr "ds-B");
         ("chunk_index", VInt 0);
         ("metadata", VDict [ ("business_id", VStr "biz-B") ]) ] |}.

(** A point indexed for business A. *)
Definition hit_of_business_a : vector_service.ScoredPoint :=
  {| vector_service.hit_score := 4606281698874543309;
     vector_service.hit_payload :=
       [ ("content", VStr "opening hours of A");
         ("data_source_id", VStr "ds-A");
         ("chunk_index", VInt 0);
         ("metadata", VDict [ ("business_id", VStr "biz-A") ]) ] |}.

(** An index holding both points that ignores the filter of the query. *)
Definition unfiltered_index : vector_service.VectorService :=
  {| vector_service.self_collection_name := "business_data";
     vector_service.generate_embedding := fun _ => Ok [0];
     vector_service.client_upsert := fun _ _ => Ok tt;
     vector_service.client_search := fun _ =>
       Ok [hit_of_business_a; hit_of_business_b] |}.

(** The same index applying the filter. *)
Definition filtering_index : vector_service.VectorService :=
  {| vector_service.self_collection_name := "business_data";
     vector_service.generate_embedding := fun _ => Ok [0];
     vector_service.client_upsert := fun _ _ => Ok tt;
     vector_service.client_search := fun req =>
       Ok (filter
             (fun hit =>
                vector_service.filter_holds (vector_service.query_filter req)
                  (vector_service.hit_payload hit) = true)
             [hit_of_business_a; hit_of_business_b]) |}.

(** A server with one connection that has not authenticated. *)
Definition fresh_server : mcp_server.MCPServer :=
  {| mcp_server.connections := {[ "conn_1" := 1 ]};
     mcp_server.agent_bindings := ∅ |}.

(** The same connection once authenticated, bound to two databases. *)
Definition authenticated_server : mcp_server.MCPServer :=
  {| mcp_server.connections := {[ "conn_1" := 1 ]};
     mcp_server.agent_bindings := {[ "conn_1" := ["db1"; "db2"] ]} |}.

(** Services that answer every call. *)
Definition working_services : mcp_server.Services :=
  {| mcp_server.py_str := str_of_value;
     mcp_server.get_agent_bindings := fun _ _ => Ok ["db1"; "db2"];
     mcp_server.get_databases_info := fun _ => Ok [];
     mcp_server.execute_structured_query := fun _ _ => Ok (VList []);
     mcp_server.semantic_search := fun _ _ _ => Ok (VList []);
     mcp_server.get_database_schema := fun _ => Ok (VDict []);
     mcp_server.execute_raw_query := fun _ _ => Ok (VList []) |}.

(** Services whose database cannot be reached. *)
Definition database_down : mcp_server.Services :=
  {| mcp_server.py_str := str_of_value;
     mcp_server.get_agent_bindings := fun _ _ => Raise "connection refused";
     mcp_server.get_databases_info := fun _ => Raise "connection refused";
     mcp_server.execute_structured_query := fun _ _ =>
       Raise "connection refused";
     mcp_server.semantic_search := fun _ _ _ => Raise "connection refused";
     mcp_server.get_database_schema := fun _ => Raise "connection refused";
     mcp_server.execute_raw_query := fun _ _ => Raise "connection refused" |}.

Definition list_databases_request : list (string * value) :=
  [ ("operation", VStr "list_databases"); ("request_id", VStr "req-1") ].

Definition query_unbound_request : list (string * value) :=
  [ ("operation", VStr "query_database"); ("request_id", VStr "req-2");
    ("database_id", VStr "db9"); ("query", VStr "orders") ].

Definition authenticate_request : list (string * value) :=
  [ ("operation", VStr "authenticate"); ("request_id", VStr "req-3");
    ("agent_id", VStr "agent-1"); ("business_id", VStr "biz-A") ].

Definition select_then_drop_request : list (string * value) :=
  [ ("operation", VStr "execute_query"); ("request_id", VStr "req-4");
    ("database_id", VStr "db1");
    ("sql", VStr "SELECT 1; DROP TABLE users") ].

Definition search_all_request : list (string * value) :=
  [ ("operation", VStr "search_knowledge"); ("request_id", VStr "req-5");
    ("query", VStr "order status") ].

Definition search_empty_id_request : list (string * value) :=
  [ ("operation", VStr "search_knowledge"); ("request_id", VStr "req-6");
    ("query", VStr "order status"); ("database_id", VStr "") ].

(** 60 lines of 49 letters, each ended by a space: 3000 characters. *)
Fixpoint lines_of_words (n : nat) : string :=
  match n with
  | O => EmptyString
  | S m => (repeat_char "w" 49 ++ " " ++ lines_of_words m)%string
  end.

Definition spaced_text : string := lines_of_words 60.

Definition spaced_chunks : list string :=
  Eval vm_compute in
    match _split_text __init__ 10 spaced_text with
    | Ok chunks => chunks
    | _ => []
    end.

(** 2500 letters without a space. *)
Definition unbroken_text : string := repeat_char "x" 2500.

(** A JSON array holding an object and a bare number. *)
Definition mixed_records : list value :=
  [ VDict [ ("content", VStr "alpha"); ("_source_type", VStr "json") ];
    VInt 7 ].

(** A file system holding one JSON document (an array with a number in
    it), one text file and one CSV file. *)
Definition json_load (file_path : string) : result value :=
  if String.eqb file_path "/uploads/mixed.json"
  then Ok (VList [ VDict [ ("content", VStr "alpha") ]; VInt 7 ])
  else Raise "No such file".

Definition read_text (file_path : string) : result string :=
  if String.eqb file_path "/uploads/notes.txt" then Ok spaced_text
  else Raise "No such file".

Definition read_csv (file_path : string)
    : result (list (list (string * value))) :=
  if String.eqb file_path "/uploads/prices.csv"
  then Ok [ [ ("item", VStr "tea"); ("price", VInt 3) ];
            [ ("item", VStr "coffee"); ("price", VInt 4) ] ]
  else Raise "No such file".

(** The readers over that file system; the three formats read through
    other libraries are absent from it. *)
Definition file_system : Extractors :=
  {| _process_excel := fun _ => Raise "No such file";
     _process_csv := readers._process_csv read_csv;
     _process_json := readers._process_json str_of_value json_load;
     _process_pdf := fun _ => Raise "No such file";
     _process_text := readers._process_text read_text;
     _process_docx := fun _ => Raise "No such file" |}.

Definition source_of_type (source_type : string) : DataSource :=
  {| ds_source_type := source_type;
     processing_status := "pending";
     processing_error := None;
     records_count := 0;
     processed_at := None;
     ds_metadata := [] |}.

(** A database with a JSON, a text, a CSV and a PNG data source, and one
    chunk row of an earlier run. *)
Definition earlier_row : DataChunk :=
  {| dc_data_source_id := "ds0";
     dc_business_id := "biz-A";
     dc_content := "earlier";
     dc_content_hash := "earlier";
     dc_metadata := {| record_index := 0; chunk_index := 0;
                       source_type := VStr "text";
                       original_record := VDict [] |};
     dc_chunk_index := 0 |}.

Definition four_source_db : Database :=
  {| data_sources :=
       <[ "ds-json" := source_of_type "JSON" ]>
         (<[ "ds-txt" := source_of_type "txt" ]>
            (<[ "ds-csv" := source_of_type "csv" ]>
               {[ "ds-png" := source_of_type "png" ]}));
     data_chunks := [earlier_row] |}.

(** An index whose services all answer. *)
Definition working_index : vector_service.VectorService :=
  {| vector_service.self_collection_name := "business_data";
     vector_service.generate_embedding := fun _ => Ok [0];
     vector_service.client_upsert := fun _ _ => Ok tt;
     vector_service.client_search := fun _ => Ok [] |}.

(** The points [index_chunks] makes of the three chunks. *)
Definition three_points : list vector_service.PointStruct :=
  Eval vm_compute in
    match vector_service.index_chunks working_index three_chunks "ds1" with
    | Ok points => points
    | _ => []
    end.

(** A hit without ["metadata"] in its payload. *)
Definition incomplete_hit : vector_service.ScoredPoint :=
  {| vector_service.hit_score := 4606281698874543309;
     vector_service.hit_payload :=
       [ ("content", VStr "no metadata"); ("data_source_id", VStr "ds-A") ] |}.

Definition index_with_incomplete_hit : vector_service.VectorService :=
  {| vector_service.self_collection_name := "business_data";
     vector_service.generate_embedding := fun _ => Ok [0];
     vector_service.client_upsert := fun _ _ => Ok tt;
     vector_service.client_search := fun _ =>
       Ok [hit_of_business_a; incomplete_hit] |}.

Definition get_schema_unbound_request : list (string * value) :=
  [ ("operation", VStr "get_schema"); ("request_id", VStr "req-7");
    ("database_id", VStr "db9") ].

Definition query_bound_request : list (string * value) :=
  [ ("operation", VStr "query_database"); ("request_id", VStr "req-8");
    ("database_id", VStr "db1"); ("query", VStr "orders") ].

Definition unknown_operation_request : list (string * value) :=
  [ ("operation", VStr "drop_everything"); ("request_id", VStr "req-9") ].

(** A database whose commits all succeed, and one that refuses the commit
    of the rows (the second commit of a run). *)
Definition commits_succeed (n : nat) : option string := None.

Definition rows_commit_fails (n : nat) : option string :=
  if Nat.eqb n 1 then Some "value too long for type" else None.

(** A database that is lost after the first commit of a run. *)
Definition database_lost (n : nat) : option string :=
  if Nat.eqb n 0 then None else Some "server closed the connection".

End inputs.

(** * Properties *)

(** ** The chunker: [_split_text] *)

Section split_text_properties.

Import file_processor inputs.

Lemma split_loop_unfold (self : FileProcessor) (fuel : nat) (text : string)
    (start : Z) (chunks : list string) :
  split_loop self fuel text start chunks =
    if start <? py_len text then
      match fuel with
      | O => OutOfFuel
      | S fuel' =>
          split_loop self fuel' text
            (next_start self text (window_end self text start))
            (append_chunk text start (window_end self text start) chunks)
      end
    else Ok chunks.
Proof. destruct fuel; reflexivity. Qed.

(** The early return of [_split_text]: a text no longer than the window is
    handed back as the only chunk, exactly as it came. *)
Lemma split_text_short (self : FileProcessor) (fuel : nat) (text : string) :
  py_len text <= chunk_size self ->
  _split_text self fuel text = Ok [text].
Proof.
  intros Hlen. unfold _split_text.
  destruct (Z.leb_spec (py_len text) (chunk_size self)) as [_ | Hgt]; [reflexivity | lia].
Qed.

(** C5. With the default window of 1000 characters, a short text with
    surrounding whitespace comes back as one chunk that is NOT trimmed
    (the text [" a"] gives the chunk [" a"], while its trimmed form is
    ["a"]), and a text that is empty or blank is not discarded: it comes
    back as one empty or blank chunk.  The trimming and the dropping of
    empty chunks only happen in the loop, which short texts never reach. *)
Theorem split_text_short_not_trimmed :
  forall fuel : nat,
    _split_text __init__ fuel " a" = Ok [" a"]
    /\ py_strip " a" = "a"
    /\ _split_text __init__ fuel "" = Ok [""]
    /\ _split_text __init__ fuel "  " = Ok ["  "]
    /\ py_strip "  " = "".
Proof.
  intros fuel. repeat split; try reflexivity;
    apply split_text_short; vm_compute; discriminate.
Qed.

Lemma pathological_len : py_len pathological_text = 1251.
Proof. vm_compute. reflexivity. Qed.

(** From offset 0 the window is pulled back to the space at 250, and the
    next window starts at 250 - 200 = 50. *)
Lemma pathological_first_window :
  window_end __init__ pathological_text 0 = 250
  /\ next_start __init__ pathological_text 250 = 50.
Proof. split; vm_compute; reflexivity. Qed.

(** From offset 50 the window [50, 1050) still holds the space at 250 and
    is pulled back to it again: the next window starts at 50 once more. *)
Lemma pathological_stuck_window :
  window_end __init__ pathological_text 50 = 250
  /\ next_start __init__ pathological_text 250 = 50.
Proof. split; vm_compute; reflexivity. Qed.

(** A window that does not move the start offset is entered again and
    again: from such an offset the loop never exits. *)
Lemma split_loop_stuck (self : FileProcessor) (text : string) (start : Z) :
  start < py_len text ->
  next_start self text (window_end self text start) = start ->
  forall (fuel : nat) (chunks : list string),
    split_loop self fuel text start chunks = OutOfFuel.
Proof.
  intros Hlt Hfix fuel.
  induction fuel as [| fuel IH]; intros chunks; rewrite split_loop_unfold;
    destruct (Z.ltb_spec start (py_len text)) as [_ | Hge]; try lia.
  - reflexivity.
  - rewrite Hfix. apply IH.
Qed.

Lemma pathological_loop_stuck (fuel : nat) (chunks : list string) :
  split_loop __init__ fuel pathological_text 50 chunks = OutOfFuel.
Proof.
  apply split_loop_stuck.
  - rewrite pathological_len. lia.
  - destruct pathological_stuck_window as [-> ->]. reflexivity.
Qed.

(** C6. The loop of [_split_text] does not terminate on every input.  On
    [pathological_text] the start offset goes 0, 50, 50, 50, ...: the
    next start [end - overlap_size] is not clamped, so once the word
    boundary pulls [end] back to within [overlap_size] of [start] the
    offset stops advancing.  Whatever the number of iterations allowed,
    the loop has not exited. *)
Theorem split_text_loops_forever :
  forall fuel : nat, _split_text __init__ fuel pathological_text = OutOfFuel.
Proof.
  intros fuel. unfold _split_text. rewrite pathological_len.
  change (1251 <=? chunk_size __init__) with false. cbv iota.
  rewrite split_loop_unfold, pathological_len. change (0 <? 1251) with true.
  cbv iota. destruct fuel as [| fuel]; [reflexivity |].
  destruct pathological_first_window as [-> ->].
  apply pathological_loop_stuck.
Qed.

End split_text_properties.

(** ** Chunk ordinals: [_create_chunks] *)

Section create_chunks_properties.

Import file_processor.

Variable py_str : value -> string.
Variable sha256_hexdigest : string -> string.

Lemma indexed_nil : indexed [].
Proof. intros k c Hk. rewrite lookup_nil in Hk. discriminate. Qed.

(** Appending a chunk whose index is [len(chunks)] keeps the invariant. *)
Lemma indexed_snoc (chunks : list Chunk) (c : Chunk) :
  indexed chunks ->
  index c = Z.of_nat (length chunks) ->
  indexed (chunks ++ [c]).
Proof.
  intros Hinv Hc k c' Hk.
  apply lookup_app_Some in Hk as [Hk | [Hge Hk]].
  - apply Hinv, Hk.
  - apply list_lookup_singleton_Some in Hk as [Hk <-].
    rewrite Hc. f_equal. lia.
Qed.

Lemma append_record_chunks_indexed (record : value) (i : Z)
    (text_chunks : list string) :
  forall (j : Z) (chunks chunks' : list Chunk),
    indexed chunks ->
    append_record_chunks sha256_hexdigest record i j text_chunks chunks
      = Ok chunks' ->
    indexed chunks'.
Proof.
  induction text_chunks as [| chunk_text rest IH]; intros j chunks chunks' Hinv H;
    simpl in H.
  - injection H as <-. exact Hinv.
  - destruct (record_source_type record) as [st | msg |]; simpl in H;
      try discriminate.
    eapply IH; [| exact H]. apply indexed_snoc; [exact Hinv | reflexivity].
Qed.

Lemma create_chunks_loop_indexed (self : FileProcessor) (fuel : nat)
    (data : list value) :
  forall (i : Z) (chunks chunks' : list Chunk),
    indexed chunks ->
    create_chunks_loop py_str sha256_hexdigest self fuel data i chunks
      = Ok chunks' ->
    indexed chunks'.
Proof.
  induction data as [| record rest IH]; intros i chunks chunks' Hinv H;
    simpl in H.
  - injection H as <-. exact Hinv.
  - destruct (split_value self fuel (record_text py_str record))
      as [text_chunks | msg |]; simpl in H; try discriminate.
    destruct (append_record_chunks sha256_hexdigest record i 0 text_chunks chunks)
      as [chunks1 | msg |] eqn:Happ; simpl in H; try discriminate.
    eapply IH; [| exact H].
    eapply append_record_chunks_indexed; [exact Hinv | exact Happ].
Qed.

(** C9. In the list returned by [_create_chunks], the chunk at position
    [k] has ["index"] [k]: ordinals start at 0, are contiguous and increase
    across all the records of the data source. *)
Theorem create_chunks_index_is_position (self : FileProcessor) (fuel : nat)
    (data : list value) (data_source_id business_id : string)
    (chunks : list Chunk) :
  _create_chunks py_str sha256_hexdigest self fuel data data_source_id
    business_id = Ok chunks ->
  forall (k : nat) (c : Chunk), chunks !! k = Some c -> index c = Z.of_nat k.
Proof.
  intros H. eapply create_chunks_loop_indexed; [apply indexed_nil | exact H].
Qed.

End create_chunks_properties.

(** C9 at a concrete input: the three chunks made of [three_records]. *)
Lemma create_chunks_index_is_position_witness :
  let chunks := inputs.three_chunks in
  length chunks = 3%nat
  /\ forall (k : nat) (c : file_processor.Chunk),
       chunks !! k = Some c -> file_processor.index c = Z.of_nat k.
Proof.
  split; [reflexivity |].
  apply (create_chunks_index_is_position inputs.str_of_value
           inputs.plain_digest file_processor.__init__ 0 inputs.three_records
           "ds1" "biz-A").
  vm_compute. reflexivity.
Defined.

(** ** The ingestion run: [process_file] *)

Section process_file_properties.

Import file_processor.

Variable py_str : value -> string.
Variable sha256_hexdigest : string -> string.
Variable extractors : Extractors.
Variable utcnow : nat -> string.
Variable commit_raises : nat -> option string.
Variable session_rolls_back : bool.

Lemma store_lookup (db : Database) (id : string) (ds : DataSource)
    (added : list DataChunk) :
  data_sources (store db id ds added) !! id = Some ds.
Proof. unfold store; simpl. apply lookup_insert_eq. Qed.

Lemma store_chunks (db : Database) (id : string) (ds : DataSource)
    (added : list DataChunk) :
  data_chunks (store db id ds added) = (data_chunks db ++ added)%list.
Proof. reflexivity. Qed.

(** The run up to the point where the file has been read and the chunks
    created, when the first commit succeeds. *)
Lemma process_file_unfold (self : FileProcessor) (fuel : nat) (db : Database)
    (id file_path business_id : string) (ds : DataSource) :
  data_sources db !! id = Some ds ->
  commit_raises 0 = None ->
  process_file py_str sha256_hexdigest extractors utcnow
    commit_raises session_rolls_back self fuel
    db id file_path business_id
  = match extract_and_chunk py_str sha256_hexdigest extractors self fuel ds id
            file_path business_id with
    | Ok chunks =>
        match commit_raises 1 with
        | Some e =>
            let session :=
              after_failed_commit session_rolls_back (mark_processing utcnow ds)
                (mark_completed utcnow (mark_processing utcnow ds) chunks)
                (map (db_chunk id business_id) chunks) in
            Ok (handle_exception utcnow commit_raises 2 3
                  (store db id (mark_processing utcnow ds) []) id
                  (fst session) (snd session) e)
        | None =>
            Ok (true,
                store (store db id (mark_processing utcnow ds) []) id
                  (mark_completed utcnow (mark_processing utcnow ds) chunks)
                  (map (db_chunk id business_id) chunks))
        end
    | Raise e =>
        Ok (handle_exception utcnow commit_raises 1 1
              (store db id (mark_processing utcnow ds) []) id
              (mark_processing utcnow ds) [] e)
    | OutOfFuel => OutOfFuel
    end.
Proof. intros Hds Hfirst. unfold process_file. rewrite Hds, Hfirst. reflexivity. Qed.

(** When reading the file and creating the chunks succeed and the two
    commits of the run succeed, the rows and the [completed] status are
    stored, and nothing after the second commit can fail the run. *)
Lemma process_file_completed (self : FileProcessor) (fuel : nat) (db : Database)
    (id file_path business_id : string) (ds : DataSource) (chunks : list Chunk) :
  data_sources db !! id = Some ds ->
  commit_raises 0 = None ->
  commit_raises 1 = None ->
  extract_and_chunk py_str sha256_hexdigest extractors self fuel ds id
    file_path business_id = Ok chunks ->
  exists db',
    process_file py_str sha256_hexdigest extractors utcnow
      commit_raises session_rolls_back self
      fuel db id file_path business_id = Ok (true, db')
    /\ processing_status <$> data_sources db' !! id = Some "completed"
    /\ records_count <$> data_sources db' !! id = Some (Z.of_nat (length chunks))
    /\ data_chunks db' = (data_chunks db ++ map (db_chunk id business_id) chunks)%list.
Proof.
  intros Hds Hfirst Hsecond Hsteps.
  rewrite (process_file_unfold _ _ _ _ _ _ _ Hds Hfirst), Hsteps, Hsecond.
  eexists. split; [reflexivity |].
  rewrite store_lookup, !store_chunks, app_nil_r. simpl. auto.
Qed.

(** When reading the file or creating the chunks raises and the commits
    of the two status writes succeed, the run is marked [error] with the
    message, and no row is added. *)
Lemma process_file_error (self : FileProcessor) (fuel : nat) (db : Database)
    (id file_path business_id : string) (ds : DataSource) (e : string) :
  data_sources db !! id = Some ds ->
  commit_raises 0 = None ->
  commit_raises 1 = None ->
  extract_and_chunk py_str sha256_hexdigest extractors self fuel ds id
    file_path business_id = Raise e ->
  exists db',
    process_file py_str sha256_hexdigest extractors utcnow
      commit_raises session_rolls_back self
      fuel db id file_path business_id = Ok (false, db')
    /\ processing_status <$> data_sources db' !! id = Some "error"
    /\ processing_error <$> data_sources db' !! id = Some (Some e)
    /\ data_chunks db' = data_chunks db.
Proof.
  intros Hds Hfirst Hsecond Hsteps.
  rewrite (process_file_unfold _ _ _ _ _ _ _ Hds Hfirst), Hsteps.
  unfold handle_exception. rewrite Hsecond.
  eexists. split; [reflexivity |].
  rewrite store_lookup, !store_chunks, !app_nil_r. simpl. auto.
Qed.

(** When the chunks are created but the commit of the rows raises, the
    run returns [False] and that commit has stored nothing.  If the commit
    of the error status succeeds the data source ends in the [error] state
    with the message of the failed commit; if it raises too, the exception
    is dropped and the data source is left [processing], with no row
    added. *)
Lemma process_file_rows_commit_raises (self : FileProcessor) (fuel : nat)
    (db : Database) (id file_path business_id : string) (ds : DataSource)
    (chunks : list Chunk) (e : string) :
  data_sources db !! id = Some ds ->
  commit_raises 0 = None ->
  commit_raises 1 = Some e ->
  extract_and_chunk py_str sha256_hexdigest extractors self fuel ds id
    file_path business_id = Ok chunks ->
  exists db',
    process_file py_str sha256_hexdigest extractors utcnow
      commit_raises session_rolls_back self
      fuel db id file_path business_id = Ok (false, db')
    /\ (commit_raises 2 = None ->
        processing_status <$> data_sources db' !! id = Some "error"
        /\ processing_error <$> data_sources db' !! id = Some (Some e))
    /\ (commit_raises 2 <> None ->
        processing_status <$> data_sources db' !! id = Some "processing"
        /\ data_chunks db' = data_chunks db).
Proof.
  intros Hds Hfirst Hsecond Hsteps.
  rewrite (process_file_unfold _ _ _ _ _ _ _ Hds Hfirst), Hsteps, Hsecond.
  unfold handle_exception, after_failed_commit.
  destruct (commit_raises 2) as [e' |]; eexists; (split; [reflexivity |]);
    split; intros H; try congruence.
  - rewrite store_lookup, store_chunks, app_nil_r. simpl. auto.
  - rewrite store_lookup. destruct session_rolls_back; simpl; auto.
Qed.

(** C4, as the code has it.  [process_file] commits the chunk rows and the
    [completed] status before [_index_chunks] runs, and [_index_chunks]
    neither calls the index nor lets an exception out: nothing that
    happens to the index can fail a run.  For a known data source whose
    first commit (the [processing] status) succeeds:
    - if reading the file and creating the chunks succeed and the commit
      of the rows succeeds, the run returns [True], ends [completed],
      records the chunk count and persists one row per chunk;
    - if reading the file or creating the chunks raises, and the commit of
      the error status succeeds, the run returns [False], ends in the
      [error] state with the message recorded, and persists no row;
    - if the commit of the rows raises, the run returns [False]; the data
      source ends in the [error] state with that message when the commit
      of the error status succeeds, and is left [processing] with no row
      persisted when it raises too. *)
Theorem process_file_outcomes (self : FileProcessor) (fuel : nat) (db : Database)
    (id file_path business_id : string) (ds : DataSource) :
  data_sources db !! id = Some ds ->
  commit_raises 0 = None ->
  (forall chunks : list Chunk,
     extract_and_chunk py_str sha256_hexdigest extractors self fuel ds id
       file_path business_id = Ok chunks ->
     commit_raises 1 = None ->
     exists db',
       process_file py_str sha256_hexdigest extractors utcnow
         commit_raises session_rolls_back self
         fuel db id file_path business_id = Ok (true, db')
       /\ processing_status <$> data_sources db' !! id = Some "completed"
       /\ records_count <$> data_sources db' !! id
            = Some (Z.of_nat (length chunks))
       /\ data_chunks db'
            = (data_chunks db ++ map (db_chunk id business_id) chunks)%list)
  /\ (forall e : string,
        extract_and_chunk py_str sha256_hexdigest extractors self fuel ds id
          file_path business_id = Raise e ->
        commit_raises 1 = None ->
        exists db',
          process_file py_str sha256_hexdigest extractors utcnow
            commit_raises session_rolls_back
            self fuel db id file_path business_id = Ok (false, db')
          /\ processing_status <$> data_sources db' !! id = Some "error"
          /\ processing_error <$> data_sources db' !! id = Some (Some e)
          /\ data_chunks db' = data_chunks db)
  /\ (forall (chunks : list Chunk) (e : string),
        extract_and_chunk py_str sha256_hexdigest extractors self fuel ds id
          file_path business_id = Ok chunks ->
        commit_raises 1 = Some e ->
        exists db',
          process_file py_str sha256_hexdigest extractors utcnow
            commit_raises session_rolls_back
            self fuel db id file_path business_id = Ok (false, db')
          /\ (commit_raises 2 = None ->
              processing_status <$> data_sources db' !! id = Some "error"
              /\ processing_error <$> data_sources db' !! id = Some (Some e))
          /\ (commit_raises 2 <> None ->
              processing_status <$> data_sources db' !! id = Some "processing"
              /\ data_chunks db' = data_chunks db)).
Proof.
  intros Hds Hfirst. split; [| split].
  - intros chunks Hsteps Hsecond.
    eapply process_file_completed; eassumption.
  - intros e Hsteps Hsecond.
    eapply process_file_error; eassumption.
  - intros chunks e Hsteps Hsecond.
    eapply process_file_rows_commit_raises; eassumption.
Qed.

End process_file_properties.

Lemma one_source_db_lookup :
  file_processor.data_sources inputs.one_source_db !! "ds1"
    = Some inputs.pending_source.
Proof. apply lookup_singleton_eq. Qed.

(** C4 at concrete inputs: the three-record file is ingested whole; the
    unreadable file leaves the data source in the [error] state with no
    row; and when the database is lost after the first commit, the run
    over the three-record file returns [False] and leaves the data source
    [processing] with no row. *)
Lemma process_file_outcomes_witness :
  (exists db',
     file_processor.process_file inputs.str_of_value inputs.plain_digest
       inputs.three_record_file inputs.clock inputs.commits_succeed true
       file_processor.__init__ 0 inputs.one_source_db "ds1" "/uploads/f.json"
       "biz-A" = Ok (true, db')
     /\ file_processor.processing_status <$>
          file_processor.data_sources db' !! "ds1" = Some "completed"
     /\ length (file_processor.data_chunks db') = 3%nat)
  /\ (exists db',
        file_processor.process_file inputs.str_of_value inputs.plain_digest
          inputs.unreadable_file inputs.clock inputs.commits_succeed true
          file_processor.__init__ 0 inputs.one_source_db "ds1" "/uploads/f.json"
          "biz-A" = Ok (false, db')
        /\ file_processor.processing_error <$>
             file_processor.data_sources db' !! "ds1"
             = Some (Some "No such file")
        /\ file_processor.data_chunks db' = [])
  /\ (exists db',
        file_processor.process_file inputs.str_of_value inputs.plain_digest
          inputs.three_record_file inputs.clock inputs.database_lost true
          file_processor.__init__ 0 inputs.one_source_db "ds1" "/uploads/f.json"
          "biz-A" = Ok (false, db')
        /\ file_processor.processing_status <$>
             file_processor.data_sources db' !! "ds1" = Some "processing"
        /\ file_processor.data_chunks db' = []).
Proof.
  split; [| split].
  - destruct (proj1 (process_file_outcomes inputs.str_of_value
                       inputs.plain_digest inputs.three_record_file inputs.clock
                       inputs.commits_succeed true file_processor.__init__ 0
                       inputs.one_source_db "ds1" "/uploads/f.json" "biz-A"
                       inputs.pending_source one_source_db_lookup eq_refl)
                inputs.three_chunks eq_refl eq_refl)
      as (db' & Hrun & Hstatus & _ & Hrows).
    exists db'. repeat split; [exact Hrun | exact Hstatus |].
    rewrite Hrows. reflexivity.
  - destruct (proj1 (proj2 (process_file_outcomes inputs.str_of_value
                              inputs.plain_digest inputs.unreadable_file
                              inputs.clock inputs.commits_succeed true
                              file_processor.__init__ 0 inputs.one_source_db
                              "ds1" "/uploads/f.json" "biz-A"
                              inputs.pending_source one_source_db_lookup eq_refl))
                "No such file" eq_refl eq_refl)
      as (db' & Hrun & _ & Herr & Hrows).
    exists db'. repeat split; [exact Hrun | exact Herr | exact Hrows].
  - destruct (proj2 (proj2 (process_file_outcomes inputs.str_of_value
                              inputs.plain_digest inputs.three_record_file
                              inputs.clock inputs.database_lost true
                              file_processor.__init__ 0 inputs.one_source_db
                              "ds1" "/uploads/f.json" "biz-A"
                              inputs.pending_source one_source_db_lookup eq_refl))
                inputs.three_chunks "server closed the connection" eq_refl
                eq_refl)
      as (db' & Hrun & _ & Hlost).
    destruct (Hlost ltac:(discriminate)) as [Hstatus Hrows].
    exists db'. repeat split; [exact Hrun | exact Hstatus | exact Hrows].
Defined.

(** C4 as stated fails.  The embedding service fails on the second of the
    three chunks of the file, so indexing these chunks raises
    IndexUpstreamError; yet, with a database whose commits all succeed,
    the run returns [True], the data source ends [completed] with no error
    recorded, and the three rows are persisted. *)
Lemma index_failure_leaves_job_completed :
  vector_service.index_chunks inputs.failing_index inputs.three_chunks "ds1"
    = Raise "IndexUpstreamError"
  /\ exists db',
       file_processor.process_file inputs.str_of_value inputs.plain_digest
         inputs.three_record_file inputs.clock inputs.commits_succeed true
         file_processor.__init__ 0 inputs.one_source_db "ds1" "/uploads/f.json"
         "biz-A" = Ok (true, db')
       /\ file_processor.processing_status <$>
            file_processor.data_sources db' !! "ds1" = Some "completed"
       /\ file_processor.processing_error <$>
            file_processor.data_sources db' !! "ds1" = Some None
       /\ length (file_processor.data_chunks db') = 3%nat.
Proof.
  split; [reflexivity |].
  eexists. split; [| split; [| split]].
  - unfold file_processor.process_file. rewrite one_source_db_lookup.
    reflexivity.
  - rewrite store_lookup. reflexivity.
  - rewrite store_lookup. reflexivity.
  - reflexivity.
Qed.

(** ** Semantic search: [search_similar] *)

Section search_similar_properties.

Import vector_service.

(** [search_similar] hands back the hits of the index, formatted one by
    one: nothing is added, dropped or reordered after the index query. *)
Lemma search_similar_formats_hits (self : VectorService)
    (query business_id : string) (limit score_threshold : Z)
    (results : list value) :
  search_similar self query business_id limit score_threshold = Ok results ->
  exists (embedding : Embedding) (hits : list ScoredPoint),
    generate_embedding self query = Ok embedding
    /\ client_search self
         {| collection_name := self_collection_name self;
            query_vector := embedding;
            query_filter := business_filter business_id;
            limit := limit;
            score_threshold := score_threshold |} = Ok hits
    /\ format_hits hits = Ok results.
Proof.
  unfold search_similar. intros H.
  destruct (generate_embedding self query) as [embedding | msg |]; simpl in H;
    try discriminate.
  destruct (client_search self _) as [hits | msg |] eqn:Hsearch; simpl in H;
    try discriminate.
  exists embedding, hits. auto.
Qed.

Lemma format_hits_length (hits : list ScoredPoint) :
  forall results, format_hits hits = Ok results -> length results = length hits.
Proof.
  induction hits as [| hit rest IH]; intros results H; simpl in H.
  - injection H as <-. reflexivity.
  - destruct (format_hit hit) as [r | msg |]; simpl in H; try discriminate.
    destruct (format_hits rest) as [rs | msg |]; simpl in H; try discriminate.
    injection H as <-. simpl. f_equal. apply IH. reflexivity.
Qed.

Lemma business_path :
  split_dots "metadata.business_id" "" = ["metadata"; "business_id"].
Proof. reflexivity. Qed.

(** A hit that satisfies the business filter formats to a result that
    belongs to the business. *)
Lemma format_hit_belongs (business_id : string) (hit : ScoredPoint) (r : value) :
  filter_holds (business_filter business_id) (hit_payload hit) = true ->
  format_hit hit = Ok r ->
  belongs_to business_id r = true.
Proof.
  unfold filter_holds, business_filter, condition_holds, format_hit,
    payload_item.
  cbn [must forallb key match_value]. rewrite business_path, andb_true_r.
  cbn [lookup_path].
  destruct (dict_get "content" (hit_payload hit)) as [c |]; simpl;
    [| discriminate].
  destruct (dict_get "data_source_id" (hit_payload hit)) as [d |]; simpl;
    [| discriminate].
  destruct (dict_get "metadata" (hit_payload hit)) as [m |]; simpl;
    [| discriminate].
  intros Hfilter H. injection H as <-. simpl.
  destruct m; try discriminate. exact Hfilter.
Qed.

Lemma format_hits_belong (business_id : string) (hits : list ScoredPoint) :
  forall results,
    Forall (fun hit =>
              filter_holds (business_filter business_id) (hit_payload hit) = true)
      hits ->
    format_hits hits = Ok results ->
    Forall (fun r => belongs_to business_id r = true) results.
Proof.
  induction hits as [| hit rest IH]; intros results Hall H; simpl in H.
  - injection H as <-. constructor.
  - destruct (format_hit hit) as [r | msg |] eqn:Hr; simpl in H; try discriminate.
    destruct (format_hits rest) as [rs | msg |]; simpl in H; try discriminate.
    injection H as <-. inversion Hall as [| ? ? Hhit Hrest]; subst.
    constructor.
    + eapply format_hit_belongs; [exact Hhit | exact Hr].
    + apply IH; [exact Hrest | reflexivity].
Qed.

(** The payload [index_chunks] writes for a chunk has no business id: its
    ["metadata"] holds the four fields of the chunk's metadata only.  A
    point indexed through [index_chunks] therefore satisfies the filter of
    no business. *)
Lemma build_points_unscoped (self : VectorService) (data_source_id business_id : string)
    (chunks : list file_processor.Chunk) :
  forall (i : Z) (points points' : list PointStruct),
    Forall (fun p => filter_holds (business_filter business_id) (payload p) = false)
      points ->
    build_points self data_source_id i chunks points = Ok points' ->
    Forall (fun p => filter_holds (business_filter business_id) (payload p) = false)
      points'.
Proof.
  induction chunks as [| chunk rest IH]; intros i points points' Hall H;
    simpl in H.
  - injection H as <-. exact Hall.
  - destruct (generate_embedding self (file_processor.content chunk))
      as [embedding | msg |]; simpl in H; try discriminate.
    eapply IH; [| exact H].
    apply Forall_app. split; [exact Hall |].
    constructor; [| constructor].
    unfold filter_holds, business_filter, condition_holds.
    cbn [must forallb key match_value payload]. rewrite business_path.
    reflexivity.
Qed.

Lemma index_chunks_unscoped (self : VectorService) (data_source_id business_id : string)
    (chunks : list file_processor.Chunk) (points : list PointStruct) :
  index_chunks self chunks data_source_id = Ok points ->
  Forall (fun p => filter_holds (business_filter business_id) (payload p) = false)
    points.
Proof.
  unfold index_chunks. intros H.
  destruct (build_points self data_source_id 0 chunks []) as [pts | msg |] eqn:Hb;
    simpl in H; try discriminate.
  destruct (client_upsert self (self_collection_name self) pts); simpl in H;
    try discriminate.
  injection H as <-.
  eapply build_points_unscoped; [| exact Hb]. constructor.
Qed.

(** C1, as the code has it.  [search_similar] puts the business filter in
    the query it sends to the index and returns the hits of the index as
    they come, one formatted result per hit, with no check of its own.
    Hence, when the index applies the filter it is given, every result
    returned belongs to the requesting business. *)
Theorem search_similar_scoped_by_index_filter (self : VectorService)
    (query business_id : string) (limit score_threshold : Z)
    (results : list value) :
  applies_filter (client_search self) ->
  search_similar self query business_id limit score_threshold = Ok results ->
  Forall (fun r => belongs_to business_id r = true) results
  /\ exists (embedding : Embedding) (hits : list ScoredPoint),
       client_search self
         {| collection_name := self_collection_name self;
            query_vector := embedding;
            query_filter := business_filter business_id;
            limit := limit;
            score_threshold := score_threshold |} = Ok hits
       /\ format_hits hits = Ok results
       /\ length results = length hits.
Proof.
  intros Hindex H.
  destruct (search_similar_formats_hits _ _ _ _ _ _ H)
    as (embedding & hits & _ & Hsearch & Hformat).
  split.
  - eapply format_hits_belong; [| exact Hformat].
    apply (Hindex _ _ Hsearch).
  - exists embedding, hits. repeat split; try assumption.
    apply format_hits_length, Hformat.
Qed.

End search_similar_properties.

Lemma filtering_index_applies_filter :
  vector_service.applies_filter
    (vector_service.client_search inputs.filtering_index).
Proof.
  intros req hits H. simpl in H. injection H as <-.
  apply list.Forall_forall. intros hit Hin.
  apply list_elem_of_filter in Hin. apply Hin.
Qed.

(** C1 at a concrete input: business A searching the index that applies
    the filter gets its own point only. *)
Lemma search_similar_scoped_by_index_filter_witness :
  exists results : list value,
    vector_service.search_similar inputs.filtering_index "opening hours"
      "biz-A" 10 4604480259023595110 = Ok results
    /\ length results = 1%nat
    /\ Forall (fun r => vector_service.belongs_to "biz-A" r = true) results.
Proof.
  eexists. split; [vm_compute; reflexivity |]. split; [reflexivity |].
  apply (search_similar_scoped_by_index_filter inputs.filtering_index
           "opening hours" "biz-A" 10 4604480259023595110).
  - apply filtering_index_applies_filter.
  - vm_compute. reflexivity.
Defined.

(** C1 as stated fails: nothing in [search_similar] filters the hits.
    When the index ignores the filter, business A receives the point
    indexed for business B. *)
Lemma search_similar_returns_foreign_hit :
  ~ (forall (self : vector_service.VectorService) (query business_id : string)
       (limit score_threshold : Z) (results : list value),
       vector_service.search_similar self query business_id limit
         score_threshold = Ok results ->
       Forall (fun r => vector_service.belongs_to business_id r = true) results).
Proof.
  intros Hclaim.
  specialize (Hclaim inputs.unfiltered_index "price list" "biz-A" 10
                4604480259023595110 _ eq_refl).
  inversion Hclaim as [| ? ? _ Hrest]; subst.
  inversion Hrest as [| ? ? Hb _]; subst.
  vm_compute in Hb. discriminate.
Qed.

(** ** The protocol server *)

Lemma dict_get_set (key : string) (v : value) (kv : list (string * value)) :
  dict_get key (dict_set key v kv) = Some v.
Proof.
  induction kv as [| [k w] rest IH]; simpl.
  - rewrite String.eqb_refl. reflexivity.
  - destruct (String.eqb k key) eqn:Hk; simpl; rewrite Hk; [reflexivity | exact IH].
Qed.

Lemma dict_get_default_Some (key : string) (default v : value)
    (kv : list (string * value)) :
  dict_get key kv = Some v -> dict_get_default key default kv = v.
Proof. unfold dict_get_default. intros ->. reflexivity. Qed.

Lemma dict_get_default_None (key : string) (default : value)
    (kv : list (string * value)) :
  dict_get key kv = None -> dict_get_default key default kv = default.
Proof. unfold dict_get_default. intros ->. reflexivity. Qed.

Section mcp_server_properties.

Import mcp_server.

Variable services : Services.

(** Each of the five data handlers starts with the same test. *)
Lemma unauthenticated_handlers (self : MCPServer) (data : Response)
    (connection_id : string) :
  agent_bindings self !! connection_id = None ->
  handle_list_databases services self data connection_id
    = returns self not_authenticated
  /\ handle_query_database services self data connection_id
       = returns self not_authenticated
  /\ handle_search_knowledge services self data connection_id
       = returns self not_authenticated
  /\ handle_get_schema services self data connection_id
       = returns self not_authenticated
  /\ handle_execute_query services self data connection_id
       = returns self not_authenticated.
Proof.
  intros Hnone.
  unfold handle_list_databases, handle_query_database, handle_search_knowledge,
    handle_get_schema, handle_execute_query.
  rewrite Hnone. repeat split.
Qed.

Lemma unauthenticated_process_operation (self : MCPServer) (data : Response)
    (connection_id op : string) :
  agent_bindings self !! connection_id = None ->
  op ∈ data_operations ->
  dict_get "operation" data = Some (VStr op) ->
  process_operation services self data connection_id
    = returns self not_authenticated.
Proof.
  intros Hnone Hop Hdata.
  destruct (unauthenticated_handlers self data connection_id Hnone)
    as (Hl & Hq & Hs & Hg & He).
  unfold process_operation.
  rewrite (dict_get_default_Some _ _ _ _ Hdata).
  unfold data_operations in Hop.
  repeat (apply elem_of_cons in Hop as [-> | Hop]; [simpl; assumption |]).
  apply elem_of_nil in Hop. contradiction.
Qed.

(** On a connection id that has no entry in [agent_bindings], each of
    [list_databases],
    [query_database], [search_knowledge], [get_schema] and [execute_query]
    is answered with the error "Not authenticated" (carrying the request
    id), whose type is none of the data response types; no service is
    called, the server (its open connections included) is left as it was,
    and the connection's message loop goes on with the next message. *)
Theorem unauthenticated_operation_rejected (self : MCPServer)
    (connection_id op : string) (data : Response)
    (rest : list (option value)) :
  agent_bindings self !! connection_id = None ->
  op ∈ data_operations ->
  dict_get "operation" data = Some (VStr op) ->
  let h := handle_message services self connection_id (Some (VDict data)) in
  sent h = Some [ ("type", VStr "error");
                  ("error", VStr "Not authenticated");
                  ("request_id", dict_get_default "request_id" VNone data) ]
  /\ (forall (r : Response) (t : string),
        sent h = Some r -> dict_get "type" r = Some (VStr t) ->
        t ∉ data_response_types)
  /\ made h = []
  /\ after h = self
  /\ message_loop services self connection_id (Some (VDict data) :: rest)
       = (let '(self', out) := message_loop services self connection_id rest in
          (self', sent h :: out)).
Proof.
  intros Hnone Hop Hdata h.
  assert (Hh : h = {| made := []; after := self;
                      sent := Some (dict_set "request_id"
                                      (dict_get_default "request_id" VNone data)
                                      not_authenticated) |}).
  { unfold h, handle_message.
    rewrite (unauthenticated_process_operation _ _ _ _ Hnone Hop Hdata).
    reflexivity. }
  assert (Hloop :
    message_loop services self connection_id (Some (VDict data) :: rest)
      = (let '(self', out) := message_loop services (after h) connection_id rest in
         (self', sent h :: out))) by reflexivity.
  rewrite Hloop, Hh. simpl. repeat split.
  intros r t Hr Ht. injection Hr as <-. simpl in Ht. injection Ht as <-.
  unfold data_response_types. intros Hin.
  repeat (apply elem_of_cons in Hin as [Hin | Hin]; [discriminate |]).
  apply elem_of_nil in Hin. contradiction.
Qed.

(** C2. On an authenticated connection, [query_database] for a database
    id outside the connection's bindings is answered with the error
    "Access denied to this database" (carrying the request id).  No service
    is called and the server is unchanged, so the answer is the same
    whatever the services hold: whether a database with that id exists for
    the business plays no part. *)
Theorem query_database_unbound_denied (self : MCPServer)
    (connection_id : string) (data : Response) (bindings : list string) :
  agent_bindings self !! connection_id = Some bindings ->
  dict_get "operation" data = Some (VStr "query_database") ->
  value_in (dict_get_default "database_id" VNone data) bindings = false ->
  handle_message services self connection_id (Some (VDict data))
    = {| made := []; after := self;
         sent := Some [ ("type", VStr "error");
                        ("error", VStr "Access denied to this database");
                        ("request_id",
                         dict_get_default "request_id" VNone data) ] |}
  /\ forall services' : Services,
       handle_message services' self connection_id (Some (VDict data))
         = handle_message services self connection_id (Some (VDict data)).
Proof.
  intros Hauth Hop Hout.
  assert (H : forall svc : Services,
            handle_message svc self connection_id (Some (VDict data))
              = {| made := []; after := self;
                   sent := Some [ ("type", VStr "error");
                                  ("error", VStr "Access denied to this database");
                                  ("request_id",
                                   dict_get_default "request_id" VNone data) ] |}).
  { intros svc. unfold handle_message, process_operation.
    rewrite (dict_get_default_Some _ _ _ _ Hop). simpl.
    unfold handle_query_database. rewrite Hauth, Hout. reflexivity. }
  split; [apply H |]. intros services'. rewrite !H. reflexivity.
Qed.

(** Only [handle_authenticate] writes to the server: the five data handlers
    and the fallback leave it as it is. *)
Lemma data_handlers_keep_server (self : MCPServer) (data : Response)
    (connection_id : string) :
  server (handle_list_databases services self data connection_id) = self
  /\ server (handle_query_database services self data connection_id) = self
  /\ server (handle_search_knowledge services self data connection_id) = self
  /\ server (handle_get_schema services self data connection_id) = self
  /\ server (handle_execute_query services self data connection_id) = self.
Proof.
  unfold handle_list_databases, handle_query_database, handle_search_knowledge,
    handle_get_schema, handle_execute_query.
  destruct (agent_bindings self !! connection_id) as [bindings |];
    [| repeat split].
  repeat split.
  - destruct (negb _); reflexivity.
  - destruct (truthy _ && negb _); reflexivity.
  - destruct (negb _); reflexivity.
  - destruct (negb _); [reflexivity |].
    destruct (dict_get_default "sql" VNone data); try reflexivity.
    destruct (negb _); reflexivity.
Qed.

(** A message that is not an [authenticate] request leaves the server,
    and so every connection's bindings, unchanged. *)
Lemma other_message_keeps_server (self : MCPServer) (connection_id : string)
    (message : option value) :
  (forall data : Response,
     message = Some (VDict data) ->
     is_str "authenticate" (dict_get_default "operation" VNone data) = false) ->
  after (handle_message services self connection_id message) = self.
Proof.
  intros Hop. destruct message as [[| | | | | | data] |]; try reflexivity.
  unfold handle_message; simpl. unfold process_operation.
  rewrite (Hop data eq_refl).
  destruct (data_handlers_keep_server self data connection_id)
    as (Hl & Hq & Hs & Hg & He).
  repeat (destruct (is_str _ _); [assumption |]). reflexivity.
Qed.

(** An [authenticate] on one connection does not touch the bindings of
    another. *)
Lemma message_keeps_other_bindings (self : MCPServer)
    (connection_id other : string) (message : option value) :
  connection_id <> other ->
  agent_bindings (after (handle_message services self connection_id message))
    !! other = agent_bindings self !! other.
Proof.
  intros Hne. destruct message as [[| | | | | | data] |]; try reflexivity.
  unfold handle_message; simpl. unfold process_operation.
  destruct (is_str "authenticate" _) eqn:Hauth.
  - unfold handle_authenticate.
    destruct (negb _ || negb _); [reflexivity |].
    destruct (get_agent_bindings services _ _); simpl; try reflexivity.
    apply lookup_insert_ne, Hne.
  - destruct (data_handlers_keep_server self data connection_id)
      as (Hl & Hq & Hs & Hg & He).
    repeat (destruct (is_str _ _); [congruence |]). reflexivity.
Qed.

End mcp_server_properties.

Lemma fresh_server_bindings :
  mcp_server.agent_bindings inputs.fresh_server !! "conn_1" = None.
Proof. apply lookup_empty. Qed.

Lemma authenticated_server_bindings :
  mcp_server.agent_bindings inputs.authenticated_server !! "conn_1"
    = Some ["db1"; "db2"].
Proof. apply lookup_singleton_eq. Qed.

(** [list_databases] on a fresh connection of a fresh server. *)
Lemma unauthenticated_operation_rejected_witness :
  mcp_server.sent
    (mcp_server.handle_message inputs.working_services inputs.fresh_server
       "conn_1" (Some (VDict inputs.list_databases_request)))
    = Some [ ("type", VStr "error"); ("error", VStr "Not authenticated");
             ("request_id", VStr "req-1") ].
Proof.
  apply (unauthenticated_operation_rejected inputs.working_services
           inputs.fresh_server "conn_1" "list_databases"
           inputs.list_databases_request []).
  - exact fresh_server_bindings.
  - unfold data_operations. apply list_elem_of_here.
  - reflexivity.
Defined.

(** C3 at the failing input.  A connection authenticates and is closed:
    [handle_connection] removes it from [connections] but leaves its entry
    in [agent_bindings].  A new connection whose websocket object has the
    same [id()], hence the same connection id, then sends [list_databases]
    and [query_database] without ever authenticating: it is answered
    [database_list] and [query_result] instead of "Not authenticated". *)
Theorem reused_connection_id_skips_authenticate :
  let closed :=
    fst (mcp_server.handle_connection inputs.working_services
           mcp_server.__init__ 1 [Some (VDict inputs.authenticate_request)]) in
  mcp_server.connections closed !! "conn_1" = None
  /\ snd (mcp_server.handle_connection inputs.working_services closed 1
            [ Some (VDict inputs.list_databases_request);
              Some (VDict inputs.query_bound_request) ])
     = [ Some mcp_server.welcome;
         Some [ ("type", VStr "database_list"); ("databases", VList []);
                ("request_id", VStr "req-1") ];
         Some [ ("type", VStr "query_result"); ("database_id", VStr "db1");
                ("results", VList []); ("request_id", VStr "req-8") ] ].
Proof. split; vm_compute; reflexivity. Qed.

(** C2 at a concrete input: [query_database] on [db9], which is not bound
    to the connection, with services that answer and with services that
    are down. *)
Lemma query_database_unbound_denied_witness :
  mcp_server.sent
    (mcp_server.handle_message inputs.working_services
       inputs.authenticated_server "conn_1"
       (Some (VDict inputs.query_unbound_request)))
    = Some [ ("type", VStr "error");
             ("error", VStr "Access denied to this database");
             ("request_id", VStr "req-2") ]
  /\ mcp_server.handle_message inputs.database_down
       inputs.authenticated_server "conn_1"
       (Some (VDict inputs.query_unbound_request))
     = mcp_server.handle_message inputs.working_services
         inputs.authenticated_server "conn_1"
         (Some (VDict inputs.query_unbound_request)).
Proof.
  destruct (query_database_unbound_denied inputs.working_services
              inputs.authenticated_server "conn_1" inputs.query_unbound_request
              ["db1"; "db2"] authenticated_server_bindings eq_refl eq_refl)
    as [Hsent Hsame].
  split.
  - rewrite Hsent. reflexivity.
  - apply Hsame.
Defined.

Section mcp_server_requests.

Import mcp_server.

Variable services : Services.

(** The part of the check of [execute_query] that holds: a statement that
    does not start with SELECT once stripped and upper-cased is answered
    with "Only SELECT queries are allowed" and is not passed on. *)
Lemma execute_query_rejects_non_select (self : MCPServer)
    (connection_id sql : string) (data : Response) (bindings : list string) :
  agent_bindings self !! connection_id = Some bindings ->
  value_in (dict_get_default "database_id" VNone data) bindings = true ->
  dict_get "sql" data = Some (VStr sql) ->
  is_select sql = false ->
  handle_execute_query services self data connection_id
    = returns self only_select.
Proof.
  intros Hauth Hin Hsql Hsel. unfold handle_execute_query.
  rewrite Hauth, Hin, (dict_get_default_Some _ _ _ _ Hsql), Hsel. reflexivity.
Qed.

(** A statement that passes the check is handed to [execute_raw_query]
    whole. *)
Lemma execute_query_passes_select (self : MCPServer)
    (connection_id sql : string) (data : Response) (bindings : list string) :
  agent_bindings self !! connection_id = Some bindings ->
  value_in (dict_get_default "database_id" VNone data) bindings = true ->
  dict_get "sql" data = Some (VStr sql) ->
  is_select sql = true ->
  calls (handle_execute_query services self data connection_id)
    = [ExecuteRawQuery (dict_get_default "database_id" VNone data) sql].
Proof.
  intros Hauth Hin Hsql Hsel. unfold handle_execute_query.
  rewrite Hauth, Hin, (dict_get_default_Some _ _ _ _ Hsql), Hsel. reflexivity.
Qed.

(** C7 at the failing input.  On a connection bound to [db1], the request
    [execute_query] with the text "SELECT 1; DROP TABLE users" passes the
    check, because the text starts with SELECT: the whole text, DROP
    included, is passed to [execute_raw_query], and the answer is the
    result of that call instead of a rejection. *)
Theorem execute_query_passes_appended_drop :
  made (handle_message services inputs.authenticated_server "conn_1"
          (Some (VDict inputs.select_then_drop_request)))
    = [ExecuteRawQuery (VStr "db1") "SELECT 1; DROP TABLE users"]
  /\ sent (handle_message inputs.working_services inputs.authenticated_server
             "conn_1" (Some (VDict inputs.select_then_drop_request)))
     = Some [ ("type", VStr "sql_result");
              ("database_id", VStr "db1");
              ("query", VStr "SELECT 1; DROP TABLE users");
              ("results", VList []);
              ("request_id", VStr "req-4") ].
Proof.
  split.
  - unfold handle_message, process_operation. simpl.
    apply (execute_query_passes_select inputs.authenticated_server "conn_1"
             "SELECT 1; DROP TABLE users" inputs.select_then_drop_request
             ["db1"; "db2"] authenticated_server_bindings);
      reflexivity.
  - unfold handle_message, process_operation. simpl.
    unfold handle_execute_query. rewrite authenticated_server_bindings.
    reflexivity.
Qed.

(** Whenever the handler returns a response, the reply carries the request
    id of the message. *)
Lemma returned_response_echoes_request_id (self : MCPServer)
    (connection_id : string) (data response : Response) :
  returned (process_operation services self data connection_id) = Ok response ->
  exists reply : Response,
    sent (handle_message services self connection_id (Some (VDict data)))
      = Some reply
    /\ dict_get "request_id" reply
         = Some (dict_get_default "request_id" VNone data).
Proof.
  intros H. unfold handle_message; simpl. rewrite H.
  eexists. split; [reflexivity |]. apply dict_get_set.
Qed.

(** When the handler lets an exception through, the reply is built by
    [send_error], which has no request id to put in. *)
Lemma raised_exception_reply (self : MCPServer) (connection_id : string)
    (data : Response) (msg : string) :
  returned (process_operation services self data connection_id) = Raise msg ->
  sent (handle_message services self connection_id (Some (VDict data)))
    = Some [ ("type", VStr "error");
             ("error", VStr ("Internal server error: " ++ msg)) ].
Proof. intros H. unfold handle_message; simpl. rewrite H. reflexivity. Qed.

End mcp_server_requests.

(** C8 at the failing input.  The message [authenticate] with request id
    "req-3" arrives while the bindings cannot be read: the reply is the
    error built by [send_error], and it has no ["request_id"] field. *)
Theorem failing_operation_reply_drops_request_id :
  forall self : mcp_server.MCPServer,
    dict_get "request_id" inputs.authenticate_request = Some (VStr "req-3")
    /\ mcp_server.sent
         (mcp_server.handle_message inputs.database_down self "conn_1"
            (Some (VDict inputs.authenticate_request)))
       = Some [ ("type", VStr "error");
                ("error",
                 VStr "Internal server error: connection refused") ]
    /\ dict_get "request_id"
         [ ("type", VStr "error");
           ("error", VStr "Internal server error: connection refused") ]
       = None.
Proof.
  intros self. split; [reflexivity |]. split; [| reflexivity].
  apply (raised_exception_reply inputs.database_down self "conn_1"
           inputs.authenticate_request "connection refused").
  reflexivity.
Qed.

(** ** [search_knowledge] *)

Section search_knowledge_properties.

Import mcp_server.

Variable services : Services.

(** C10, as the code has it.  On an authenticated connection, a
    [search_knowledge] request whose [database_id] is omitted, or is
    present but falsy (null, the empty string, 0, false, an empty list or
    object), is not rejected: it searches across all the database ids bound
    to the connection.  A [database_id] that is truthy restricts the search
    to exactly that database when it is bound to the connection, and is
    answered with "Access denied to this database", without any search,
    when it is not.  The limit passed on is the one of the request, and 5
    when the request has none. *)
Theorem search_knowledge_scope (self : MCPServer) (connection_id : string)
    (data : Response) (bindings : list string) :
  agent_bindings self !! connection_id = Some bindings ->
  let query_text := dict_get_default "query" VNone data in
  let database_id := dict_get_default "database_id" VNone data in
  let limit := dict_get_default "limit" (VInt 5) data in
  let h := handle_search_knowledge services self data connection_id in
  (dict_get "limit" data = None -> limit = VInt 5)
  /\ (dict_get "database_id" data = None -> truthy database_id = false)
  /\ (truthy database_id = false ->
      calls h = [SemanticSearch query_text (map VStr bindings) limit]
      /\ returned h = search_response services query_text (map VStr bindings) limit)
  /\ (truthy database_id = true ->
      value_in database_id bindings = true ->
      calls h = [SemanticSearch query_text [database_id] limit]
      /\ returned h = search_response services query_text [database_id] limit)
  /\ (truthy database_id = true ->
      value_in database_id bindings = false ->
      calls h = [] /\ returned h = Ok access_denied).
Proof.
  intros Hauth query_text database_id limit h.
  unfold h, handle_search_knowledge. rewrite Hauth.
  fold query_text database_id limit.
  split; [apply dict_get_default_None |].
  split; [intros Hnone; unfold database_id;
          rewrite (dict_get_default_None _ _ _ Hnone); reflexivity |].
  split; [| split].
  - intros ->. simpl. split; reflexivity.
  - intros -> ->. simpl. split; reflexivity.
  - intros -> ->. simpl. split; reflexivity.
Qed.

End search_knowledge_properties.

(** C10 at concrete inputs: a request without [database_id] and without
    [limit] searches both bound databases with limit 5. *)
Lemma search_knowledge_scope_witness :
  mcp_server.calls
    (mcp_server.handle_search_knowledge inputs.working_services
       inputs.authenticated_server inputs.search_all_request "conn_1")
    = [ mcp_server.SemanticSearch (VStr "order status")
          [VStr "db1"; VStr "db2"] (VInt 5) ].
Proof.
  destruct (search_knowledge_scope inputs.working_services
              inputs.authenticated_server "conn_1" inputs.search_all_request
              ["db1"; "db2"] authenticated_server_bindings)
    as (_ & _ & Hall & _).
  apply (proj1 (Hall eq_refl)).
Defined.

(** C10 as stated fails for a supplied [database_id] that is falsy: the
    request carrying the empty string as [database_id] is neither denied
    nor restricted to that id; it searches both bound databases. *)
Lemma search_knowledge_empty_id_not_restricted :
  ~ (forall (services : mcp_server.Services) (self : mcp_server.MCPServer)
       (connection_id : string) (data : mcp_server.Response)
       (bindings : list string) (database_id : value),
       mcp_server.agent_bindings self !! connection_id = Some bindings ->
       dict_get "database_id" data = Some database_id ->
       forall (query_text : value) (database_ids : list value) (limit : value),
         mcp_server.SemanticSearch query_text database_ids limit
           ∈ mcp_server.calls
               (mcp_server.handle_search_knowledge services self data
                  connection_id) ->
         database_ids = [database_id]).
Proof.
  intros Hclaim.
  specialize (Hclaim inputs.working_services inputs.authenticated_server
                "conn_1" inputs.search_empty_id_request ["db1"; "db2"]
                (VStr "") authenticated_server_bindings eq_refl
                (VStr "order status") [VStr "db1"; VStr "db2"] (VInt 5)).
  assert (Hcalls :
    mcp_server.calls
      (mcp_server.handle_search_knowledge inputs.working_services
         inputs.authenticated_server inputs.search_empty_id_request "conn_1")
    = [ mcp_server.SemanticSearch (VStr "order status")
          [VStr "db1"; VStr "db2"] (VInt 5) ]).
  { unfold mcp_server.handle_search_knowledge.
    rewrite authenticated_server_bindings. reflexivity. }
  rewrite Hcalls in Hclaim.
  specialize (Hclaim (list_elem_of_here _ _)). discriminate.
Qed.

(** * Further properties *)

(** ** Python string primitives *)

Lemma substring_length_le (s : string) :
  forall n m : nat, (String.length (substring n m s) <= m)%nat.
Proof.
  induction s as [| c rest IH]; intros n m; destruct n, m; simpl; try lia.
  - specialize (IH 0%nat m). lia.
  - apply IH.
  - apply IH.
Qed.

Lemma lstrip_length_le (s : string) :
  (String.length (py_lstrip s) <= String.length s)%nat.
Proof.
  induction s as [| c rest IH]; simpl; [lia |].
  destruct (is_space c); simpl; lia.
Qed.

Lemma rstrip_length_le (s : string) :
  (String.length (py_rstrip s) <= String.length s)%nat.
Proof.
  induction s as [| c rest IH]; simpl; [lia |].
  destruct (py_rstrip rest); destruct (is_space c); simpl in *; lia.
Qed.

Lemma strip_len_le (s : string) : py_len (py_strip s) <= py_len s.
Proof.
  unfold py_len, py_strip.
  pose proof (rstrip_length_le (py_lstrip s)). pose proof (lstrip_length_le s).
  lia.
Qed.

Lemma rstrip_idempotent (s : string) : py_rstrip (py_rstrip s) = py_rstrip s.
Proof.
  induction s as [| c rest IH]; simpl; [reflexivity |].
  destruct (py_rstrip rest) as [| d r] eqn:Hrest.
  - destruct (is_space c) eqn:Hc; simpl; [reflexivity |]. rewrite Hc. reflexivity.
  - change (py_rstrip (String c (String d r))) with
      (match py_rstrip (String d r) with
       | EmptyString => if is_space c then EmptyString else String c EmptyString
       | x => String c x
       end).
    rewrite IH. reflexivity.
Qed.

(** What [lstrip] leaves is empty or starts with a character that is not
    whitespace. *)
Lemma lstrip_head (s : string) :
  py_lstrip s = "" \/
  exists (c : ascii) (r : string), py_lstrip s = String c r /\ is_space c = false.
Proof.
  induction s as [| c rest IH]; simpl; [left; reflexivity |].
  destruct (is_space c) eqn:Hc; [exact IH |]. right. exists c, rest. auto.
Qed.

Lemma rstrip_keeps_head (c : ascii) (r : string) :
  is_space c = false -> exists r', py_rstrip (String c r) = String c r'.
Proof.
  intros Hc. simpl. destruct (py_rstrip r) as [| d r'']; [| eauto].
  rewrite Hc. eauto.
Qed.

Lemma strip_idempotent (s : string) : py_strip (py_strip s) = py_strip s.
Proof.
  unfold py_strip. destruct (lstrip_head s) as [-> | (c & r & -> & Hc)];
    [reflexivity |].
  destruct (rstrip_keeps_head c r Hc) as [r' Hr'].
  rewrite Hr'. simpl. rewrite Hc. rewrite <- Hr'. apply rstrip_idempotent.
Qed.

Lemma adjust_index_cases (len i : Z) :
  (i < 0 /\ adjust_index len i = Z.max 0 (i + len))
  \/ (0 <= i /\ adjust_index len i = Z.min i len).
Proof.
  unfold adjust_index. destruct (Z.ltb_spec i 0); [left | right]; auto.
Qed.

Lemma slice_len_le (s : string) (start stop : Z) :
  py_len (py_slice s start stop)
    <= Z.max 0 (adjust_index (py_len s) stop - adjust_index (py_len s) start).
Proof.
  unfold py_slice.
  destruct (Z.ltb_spec (adjust_index (py_len s) start)
              (adjust_index (py_len s) stop)) as [Hlt | Hge].
  - unfold py_len at 1.
    pose proof (substring_length_le s
                  (Z.to_nat (adjust_index (py_len s) start))
                  (Z.to_nat (adjust_index (py_len s) stop
                             - adjust_index (py_len s) start))).
    lia.
  - unfold py_len at 1. simpl. lia.
Qed.

(** [rfind] gives [-1] or an index of the adjusted range. *)
Lemma rfind_scan_range (c : ascii) (s : string) :
  forall i a b found : Z,
    rfind_scan c s i a b found = found
    \/ (a <= rfind_scan c s i a b found < b /\ i <= rfind_scan c s i a b found).
Proof.
  induction s as [| x rest IH]; intros i a b found; simpl; [left; reflexivity |].
  destruct ((a <=? i) && (i <? b) && Ascii.eqb x c) eqn:Hcond.
  - destruct (IH (i + 1) a b i) as [-> | [Hr Hi]].
    + right. apply andb_true_iff in Hcond as [Hcond _].
      apply andb_true_iff in Hcond as [Ha Hb]. lia.
    + right. lia.
  - destruct (IH (i + 1) a b found) as [-> | [Hr Hi]]; [left; reflexivity |].
    right. lia.
Qed.

Lemma rfind_range (s : string) (c : ascii) (start stop : Z) :
  py_rfind s c start stop = -1
  \/ (adjust_index (py_len s) start <= py_rfind s c start stop
        < adjust_index (py_len s) stop
      /\ 0 <= py_rfind s c start stop).
Proof. unfold py_rfind. apply rfind_scan_range. Qed.

Lemma rfind_scan_absent (c : ascii) (s : string) :
  contains_char c s = false ->
  forall i a b found : Z, rfind_scan c s i a b found = found.
Proof.
  induction s as [| x rest IH]; intros Habs i a b found; simpl; [reflexivity |].
  simpl in Habs. apply orb_false_iff in Habs as [Hx Hrest].
  rewrite Hx, andb_false_r. apply IH, Hrest.
Qed.

Lemma py_len_nonneg (s : string) : 0 <= py_len s.
Proof. unfold py_len. lia. Qed.

(** ** More on the chunker *)

Section split_text_more.

Import file_processor.

Variable self : FileProcessor.

Lemma append_chunk_trimmed (text : string) (start end_ : Z) (chunks : list string) :
  Forall trimmed_chunk chunks ->
  Forall trimmed_chunk (append_chunk text start end_ chunks).
Proof.
  intros Hall. unfold append_chunk.
  destruct (String.eqb (py_strip (py_slice text start end_)) "") eqn:Hempty;
    [exact Hall |].
  apply Forall_app. split; [exact Hall |]. constructor; [| constructor].
  split; [apply String.eqb_neq, Hempty | apply strip_idempotent].
Qed.

Lemma split_loop_trimmed (text : string) (fuel : nat) :
  forall (start : Z) (chunks chunks' : list string),
    Forall trimmed_chunk chunks ->
    split_loop self fuel text start chunks = Ok chunks' ->
    Forall trimmed_chunk chunks'.
Proof.
  induction fuel as [| fuel IH]; intros start chunks chunks' Hall H;
    rewrite split_loop_unfold in H;
    destruct (start <? py_len text); try discriminate;
    try (injection H as <-; exact Hall).
  eapply IH; [| exact H]. apply append_chunk_trimmed, Hall.
Qed.

(** X1. For a text longer than the window, every chunk [_split_text]
    returns is non-empty and has no leading or trailing whitespace (it is
    equal to its own [strip()]). *)
Theorem split_text_chunks_trimmed (fuel : nat) (text : string)
    (chunks : list string) :
  chunk_size self < py_len text ->
  _split_text self fuel text = Ok chunks ->
  Forall trimmed_chunk chunks.
Proof.
  intros Hlong H. unfold _split_text in H.
  destruct (Z.leb_spec (py_len text) (chunk_size self)); [lia |].
  eapply split_loop_trimmed; [| exact H]. constructor.
Qed.

(** The slice taken by one iteration holds at most [chunk_size]
    characters, as long as the start offset has not fallen below
    [- overlap_size - 1]. *)
Lemma window_len_le (text : string) (start : Z) :
  0 <= overlap_size self <= chunk_size self ->
  - overlap_size self - 1 <= start ->
  py_len (py_slice text start (window_end self text start)) <= chunk_size self.
Proof.
  intros Hcfg Hstart.
  pose proof (py_len_nonneg text) as Hlen.
  pose proof (slice_len_le text start (window_end self text start)) as Hslice.
  pose proof (adjust_index_cases (py_len text) start) as Ha.
  pose proof (adjust_index_cases (py_len text) (window_end self text start)) as Hb.
  unfold window_end in *.
  destruct (Z.ltb_spec (start + chunk_size self) (py_len text)) as [Hin | Hout].
  - pose proof (rfind_range text " "%char start (start + chunk_size self)) as Hr.
    pose proof (adjust_index_cases (py_len text) (start + chunk_size self)) as He.
    destruct (Z.gtb_spec (py_rfind text " "%char start (start + chunk_size self))
                start) as [Hback | Hkeep]; lia.
  - lia.
Qed.

(** The start offset never falls below [- overlap_size - 1]. *)
Lemma next_start_lower_bound (text : string) (start : Z) :
  0 <= overlap_size self <= chunk_size self ->
  - overlap_size self - 1 <= start ->
  - overlap_size self - 1
    <= next_start self text (window_end self text start).
Proof.
  intros Hcfg Hstart. unfold next_start, window_end.
  pose proof (rfind_range text " "%char start (start + chunk_size self)) as Hr.
  destruct (Z.ltb_spec (start + chunk_size self) (py_len text));
    [destruct (Z.gtb_spec (py_rfind text " "%char start (start + chunk_size self))
                 start) |];
    match goal with |- context [if ?b then _ else _] => destruct b end; lia.
Qed.

Lemma split_loop_chunk_len (text : string) (fuel : nat) :
  0 <= overlap_size self <= chunk_size self ->
  forall (start : Z) (chunks chunks' : list string),
    - overlap_size self - 1 <= start ->
    Forall (fun chunk => py_len chunk <= chunk_size self) chunks ->
    split_loop self fuel text start chunks = Ok chunks' ->
    Forall (fun chunk => py_len chunk <= chunk_size self) chunks'.
Proof.
  intros Hcfg.
  induction fuel as [| fuel IH]; intros start chunks chunks' Hstart Hall H;
    rewrite split_loop_unfold in H;
    destruct (start <? py_len text); try discriminate;
    try (injection H as <-; exact Hall).
  eapply IH; [| | exact H].
  - apply next_start_lower_bound; assumption.
  - unfold append_chunk.
    destruct (String.eqb _ ""); [exact Hall |].
    apply Forall_app. split; [exact Hall |]. constructor; [| constructor].
    pose proof (strip_len_le (py_slice text start (window_end self text start))).
    pose proof (window_len_le text start Hcfg Hstart). lia.
Qed.

(** X2. When the overlap is between 0 and the window size, no chunk
    returned by [_split_text] is longer than [chunk_size] characters. *)
Theorem split_text_chunk_len (fuel : nat) (text : string) (chunks : list string) :
  0 <= overlap_size self <= chunk_size self ->
  _split_text self fuel text = Ok chunks ->
  Forall (fun chunk => py_len chunk <= chunk_size self) chunks.
Proof.
  intros Hcfg H. unfold _split_text in H.
  destruct (Z.leb_spec (py_len text) (chunk_size self)) as [Hshort | Hlong].
  - injection H as <-. constructor; [exact Hshort | constructor].
  - eapply split_loop_chunk_len; [exact Hcfg | | | exact H]; [lia | constructor].
Qed.

(** On a text without a space no window is pulled back: from an offset
    that is not negative the loop ends within [len(text) - start]
    iterations. *)
Lemma split_loop_unbroken (text : string) :
  0 <= overlap_size self < chunk_size self ->
  contains_char " " text = false ->
  forall (fuel : nat) (start : Z) (chunks : list string),
    0 <= start ->
    (Z.to_nat (py_len text - start) <= fuel)%nat ->
    exists chunks', split_loop self fuel text start chunks = Ok chunks'.
Proof.
  intros Hcfg Habs.
  induction fuel as [| fuel IH]; intros start chunks Hstart Hfuel;
    rewrite split_loop_unfold;
    destruct (Z.ltb_spec start (py_len text)) as [Hlt | Hge]; eauto; try lia.
  assert (Hnext :
    next_start self text (window_end self text start)
      = if start + chunk_size self <? py_len text
        then start + chunk_size self - overlap_size self
        else start + chunk_size self).
  { unfold next_start, window_end, py_rfind.
    rewrite (rfind_scan_absent _ _ Habs).
    destruct (Z.ltb_spec (start + chunk_size self) (py_len text)) as [Hin | Hout].
    - destruct (Z.gtb_spec (-1) start); [lia |].
      destruct (Z.ltb_spec (start + chunk_size self) (py_len text)); [reflexivity | lia].
    - destruct (Z.ltb_spec (start + chunk_size self) (py_len text)); [lia | reflexivity]. }
  rewrite Hnext.
  destruct (Z.ltb_spec (start + chunk_size self) (py_len text));
    apply IH; lia.
Qed.

(** X3. When the overlap is smaller than the window, [_split_text]
    terminates on every text that holds no space character: [len(text)]
    iterations of the loop are enough. *)
Theorem split_text_unbroken_terminates (fuel : nat) (text : string) :
  0 <= overlap_size self < chunk_size self ->
  contains_char " " text = false ->
  (String.length text <= fuel)%nat ->
  exists chunks, _split_text self fuel text = Ok chunks.
Proof.
  intros Hcfg Habs Hfuel. unfold _split_text.
  destruct (py_len text <=? chunk_size self); [eauto |].
  apply split_loop_unbroken; try assumption; [lia |].
  unfold py_len. lia.
Qed.

End split_text_more.

Lemma split_text_chunks_trimmed_witness :
  length inputs.spaced_chunks = 4%nat
  /\ Forall trimmed_chunk inputs.spaced_chunks.
Proof.
  split; [reflexivity |].
  apply (split_text_chunks_trimmed file_processor.__init__ 10 inputs.spaced_text).
  - vm_compute. reflexivity.
  - vm_compute. reflexivity.
Defined.

Lemma split_text_chunk_len_witness :
  Forall (fun chunk => py_len chunk <= 1000) inputs.spaced_chunks.
Proof.
  apply (split_text_chunk_len file_processor.__init__ 10 inputs.spaced_text).
  - vm_compute. split; discriminate.
  - vm_compute. reflexivity.
Defined.

Lemma split_text_unbroken_terminates_witness :
  exists chunks,
    file_processor._split_text file_processor.__init__ 2500 inputs.unbroken_text
      = Ok chunks.
Proof.
  apply (split_text_unbroken_terminates file_processor.__init__ 2500
           inputs.unbroken_text).
  - vm_compute. split; [discriminate | reflexivity].
  - vm_compute. reflexivity.
  - vm_compute. repeat constructor.
Defined.

(** ** More on [_create_chunks] *)

Section create_chunks_more.

Import file_processor.

Variable py_str : value -> string.
Variable sha256_hexdigest : string -> string.
Variable self : FileProcessor.
Variable fuel : nat.

Lemma append_record_chunks_provenance (data : list value)
    (kv : list (string * value)) (i : Z) (pieces : list string) :
  0 <= i ->
  data !! Z.to_nat i = Some (VDict kv) ->
  split_value self fuel (record_text py_str (VDict kv)) = Ok pieces ->
  forall (rest done : list string) (chunks chunks' : list Chunk),
    pieces = (done ++ rest)%list ->
    Forall (chunk_provenance py_str sha256_hexdigest self fuel data) chunks ->
    append_record_chunks sha256_hexdigest (VDict kv) i (Z.of_nat (length done))
      rest chunks = Ok chunks' ->
    Forall (chunk_provenance py_str sha256_hexdigest self fuel data) chunks'.
Proof.
  intros Hi Hrec Hsplit.
  induction rest as [| piece rest IH]; intros done chunks chunks' Hpieces Hall H;
    simpl in H.
  - injection H as <-. exact Hall.
  - replace (Z.of_nat (length done) + 1)
      with (Z.of_nat (length (done ++ [piece]))) in H
      by (rewrite length_app; simpl; lia).
    eapply IH; [| | exact H].
    + rewrite <- app_assoc. exact Hpieces.
    + apply Forall_app. split; [exact Hall |]. constructor; [| constructor].
      exists kv, pieces. simpl. rewrite Nat2Z.id.
      repeat split; try assumption; try lia.
      rewrite Hpieces. apply list_lookup_middle. reflexivity.
Qed.

Lemma create_chunks_loop_provenance (rest : list value) :
  forall (seen : list value) (chunks chunks' : list Chunk),
    Forall (chunk_provenance py_str sha256_hexdigest self fuel (seen ++ rest))
      chunks ->
    create_chunks_loop py_str sha256_hexdigest self fuel rest
      (Z.of_nat (length seen)) chunks = Ok chunks' ->
    Forall (chunk_provenance py_str sha256_hexdigest self fuel (seen ++ rest))
      chunks'.
Proof.
  induction rest as [| record rest IH]; intros seen chunks chunks' Hall H;
    simpl in H.
  - injection H as <-. exact Hall.
  - destruct (split_value self fuel (record_text py_str record))
      as [pieces | msg |] eqn:Hsplit; simpl in H; try discriminate.
    destruct (append_record_chunks sha256_hexdigest record
                (Z.of_nat (length seen)) 0 pieces chunks)
      as [chunks1 | msg |] eqn:Happ; simpl in H; try discriminate.
    replace (Z.of_nat (length seen) + 1)
      with (Z.of_nat (length (seen ++ [record]))) in H
      by (rewrite length_app; simpl; lia).
    replace (seen ++ record :: rest)%list with ((seen ++ [record]) ++ rest)%list
      in * by (rewrite <- app_assoc; reflexivity).
    eapply IH; [| exact H].
    destruct pieces as [| piece pieces'].
    + simpl in Happ. injection Happ as <-. exact Hall.
    + destruct record as [| | | | | | kv];
        try (simpl in Happ; discriminate).
      assert (Hpos : 0 <= Z.of_nat (length seen)) by lia.
      assert (Hrec : ((seen ++ [VDict kv]) ++ rest)%list
                       !! Z.to_nat (Z.of_nat (length seen)) = Some (VDict kv)).
      { rewrite Nat2Z.id, <- app_assoc. apply list_lookup_middle. reflexivity. }
      exact (append_record_chunks_provenance _ kv _ (piece :: pieces')
               Hpos Hrec Hsplit (piece :: pieces') [] chunks chunks1
               eq_refl Hall Happ).
Qed.

(** X4. Every chunk returned by [_create_chunks] points back to where it
    comes from: [record_index] is the position of a dict record of the
    data, [original_record] is that record, [source_type] is its
    ['_source_type'] (or ['unknown']), the content is the piece at
    [chunk_index] of the record's text, and the hash is the digest of the
    content. *)
Theorem create_chunks_provenance (data : list value)
    (data_source_id business_id : string) (chunks : list Chunk) :
  _create_chunks py_str sha256_hexdigest self fuel data data_source_id
    business_id = Ok chunks ->
  Forall (chunk_provenance py_str sha256_hexdigest self fuel data) chunks.
Proof.
  intros H.
  apply (create_chunks_loop_provenance data [] [] chunks); [constructor | exact H].
Qed.

Lemma append_one_chunk (record : value) (kv : list (string * value)) (i : Z)
    (text : string) (chunks : list Chunk) :
  record = VDict kv ->
  exists c,
    append_record_chunks sha256_hexdigest record i 0 [text] chunks
      = Ok (chunks ++ [c])%list
    /\ content c = text
    /\ record_index (metadata c) = i
    /\ chunk_index (metadata c) = 0.
Proof. intros ->. simpl. eexists. split; [reflexivity |]. simpl. auto. Qed.

Lemma create_chunks_loop_cons (record : value) (rest : list value) (i : Z)
    (chunks : list Chunk) :
  create_chunks_loop py_str sha256_hexdigest self fuel (record :: rest) i chunks
    = (text_chunks ← split_value self fuel (record_text py_str record);
       chunks' ← append_record_chunks sha256_hexdigest record i 0 text_chunks
                   chunks;
       create_chunks_loop py_str sha256_hexdigest self fuel rest (i + 1) chunks').
Proof. reflexivity. Qed.

Lemma create_chunks_loop_short (rest : list value) :
  forall (texts : list string) (i : Z) (chunks : list Chunk),
    Forall2 (short_record py_str self) rest texts ->
    exists added,
      create_chunks_loop py_str sha256_hexdigest self fuel rest i chunks
        = Ok (chunks ++ added)%list
      /\ map content added = texts.
Proof.
  induction rest as [| record rest IH]; intros texts i chunks Hshort;
    inversion Hshort as [| ? text ? texts' ([kv Hkv] & Htext & Hlen) Hrest];
    subst.
  - exists []. rewrite app_nil_r. auto.
  - rewrite create_chunks_loop_cons, Htext.
    change (split_value self fuel (VStr text)) with (_split_text self fuel text).
    rewrite (split_text_short self fuel text Hlen).
    destruct (append_one_chunk (VDict kv) kv i text chunks eq_refl)
      as (c & Happ & Hc & _).
    change (Ok [text] ≫= _) with
      (chunks' ← append_record_chunks sha256_hexdigest (VDict kv) i 0 [text] chunks;
       create_chunks_loop py_str sha256_hexdigest self fuel rest (i + 1) chunks').
    rewrite Happ.
    destruct (IH texts' (i + 1) (chunks ++ [c])%list Hrest) as (added & Hloop & Hmap).
    exists (c :: added). split.
    + change (Ok (chunks ++ [c])%list ≫= _) with
        (create_chunks_loop py_str sha256_hexdigest self fuel rest (i + 1)
           (chunks ++ [c])%list).
      rewrite Hloop, <- app_assoc. reflexivity.
    + simpl. rewrite Hc, Hmap. reflexivity.
Qed.

(** X5. When every record is a dict whose text is a string that fits in
    the window, [_create_chunks] returns exactly one chunk per record, in
    the order of the records, and the content of each chunk is the text of
    its record as it is (no trimming). *)
Theorem create_chunks_one_per_short_record (data : list value)
    (texts : list string) (data_source_id business_id : string) :
  Forall2 (short_record py_str self) data texts ->
  exists chunks,
    _create_chunks py_str sha256_hexdigest self fuel data data_source_id
      business_id = Ok chunks
    /\ map content chunks = texts
    /\ length chunks = length data.
Proof.
  intros Hshort.
  destruct (create_chunks_loop_short data texts 0 [] Hshort) as (added & H & Hmap).
  exists added. unfold _create_chunks. rewrite H. repeat split; [exact Hmap |].
  rewrite <- (length_map content), Hmap. symmetry.
  eapply Forall2_length, Hshort.
Qed.

(** A record that is not a dict, whose [str()] fits in the window, stops
    the run: its text gives a chunk, and building the chunk calls
    [record.get]. *)
Lemma create_chunks_loop_scalar (record : value) (rest : list value) (i : Z)
    (chunks : list Chunk) :
  (forall kv, record <> VDict kv) ->
  py_len (py_str record) <= chunk_size self ->
  create_chunks_loop py_str sha256_hexdigest self fuel (record :: rest) i chunks
    = Raise ("'" ++ py_type_name record ++ "' object has no attribute 'get'").
Proof.
  intros Hscalar Hlen. rewrite create_chunks_loop_cons.
  assert (Htext : record_text py_str record = VStr (py_str record)).
  { destruct record; try reflexivity. exfalso. eapply Hscalar. reflexivity. }
  rewrite Htext.
  change (split_value self fuel (VStr (py_str record)))
    with (_split_text self fuel (py_str record)).
  rewrite (split_text_short self fuel _ Hlen).
  destruct record; try reflexivity. exfalso. eapply Hscalar. reflexivity.
Qed.

Lemma create_chunks_loop_not_ok (seen : list value) (record : value)
    (rest : list value) :
  (forall kv, record <> VDict kv) ->
  py_len (py_str record) <= chunk_size self ->
  forall (i : Z) (chunks chunks' : list Chunk),
    create_chunks_loop py_str sha256_hexdigest self fuel
      (seen ++ record :: rest) i chunks <> Ok chunks'.
Proof.
  intros Hscalar Hlen.
  induction seen as [| r seen IH]; intros i chunks chunks'.
  - rewrite app_nil_l, (create_chunks_loop_scalar _ _ _ _ Hscalar Hlen).
    discriminate.
  - simpl.
    destruct (split_value self fuel (record_text py_str r)); simpl;
      try discriminate.
    destruct (append_record_chunks sha256_hexdigest r i 0 a chunks); simpl;
      try discriminate.
    apply IH.
Qed.

(** X6. [_create_chunks] returns no chunk list for data that holds a
    record that is not a dict (a number, a string, a list, ...) whose
    [str()] fits in the window: the run raises, at the latest with the
    AttributeError of [record.get] on that record. *)
Theorem create_chunks_rejects_scalar_record (data : list value) (record : value)
    (data_source_id business_id : string) (chunks : list Chunk) :
  record ∈ data ->
  (forall kv, record <> VDict kv) ->
  py_len (py_str record) <= chunk_size self ->
  _create_chunks py_str sha256_hexdigest self fuel data data_source_id
    business_id <> Ok chunks.
Proof.
  intros Hin Hscalar Hlen.
  apply list_elem_of_split in Hin as (seen & rest & ->).
  apply create_chunks_loop_not_ok; assumption.
Qed.

End create_chunks_more.

Lemma create_chunks_provenance_witness :
  Forall (chunk_provenance inputs.str_of_value inputs.plain_digest
            file_processor.__init__ 0 inputs.three_records)
    inputs.three_chunks.
Proof.
  apply (create_chunks_provenance inputs.str_of_value inputs.plain_digest
           file_processor.__init__ 0 inputs.three_records "ds1" "biz-A").
  vm_compute. reflexivity.
Defined.

Lemma create_chunks_one_per_short_record_witness :
  exists chunks,
    file_processor._create_chunks inputs.str_of_value inputs.plain_digest
      file_processor.__init__ 0 inputs.three_records "ds1" "biz-A" = Ok chunks
    /\ map file_processor.content chunks = ["alpha"; "beta"; "gamma"]
    /\ length chunks = 3%nat.
Proof.
  apply (create_chunks_one_per_short_record inputs.str_of_value
           inputs.plain_digest file_processor.__init__ 0 inputs.three_records
           ["alpha"; "beta"; "gamma"] "ds1" "biz-A").
  unfold inputs.three_records.
  repeat (constructor;
          [split; [eexists; reflexivity
                  | split; [reflexivity | vm_compute; discriminate]] |]).
  constructor.
Defined.

Lemma create_chunks_rejects_scalar_record_witness :
  file_processor._create_chunks inputs.str_of_value inputs.plain_digest
    file_processor.__init__ 0 inputs.mixed_records "ds1" "biz-A" <> Ok [].
Proof.
  apply (create_chunks_rejects_scalar_record inputs.str_of_value
           inputs.plain_digest file_processor.__init__ 0 inputs.mixed_records
           (VInt 7)).
  - unfold inputs.mixed_records. apply list_elem_of_further, list_elem_of_here.
  - intros kv. discriminate.
  - vm_compute. discriminate.
Defined.

Section chunk_contents.

Import file_processor.

Variable py_str : value -> string.
Variable sha256_hexdigest : string -> string.
Variable self : FileProcessor.
Variable fuel : nat.

Lemma append_record_chunks_contents (kv : list (string * value)) (i : Z)
    (pieces : list string) :
  forall (j : Z) (chunks : list Chunk),
    exists added,
      append_record_chunks sha256_hexdigest (VDict kv) i j pieces chunks
        = Ok (chunks ++ added)%list
      /\ map content added = pieces.
Proof.
  induction pieces as [| piece rest IH]; intros j chunks; simpl.
  - exists []. rewrite app_nil_r. auto.
  - destruct (IH (j + 1) (chunks ++ [ {|
        content := piece;
        hash := _get_content_hash sha256_hexdigest piece;
        index := Z.of_nat (length chunks);
        metadata := {| record_index := i; chunk_index := j;
                       source_type := dict_get_default "_source_type"
                                        (VStr "unknown") kv;
                       original_record := VDict kv |} |} ])%list)
      as (added & Happ & Hmap).
    eexists (_ :: added). rewrite Happ, <- app_assoc. split; [reflexivity |].
    simpl. rewrite Hmap. reflexivity.
Qed.

Lemma create_chunks_loop_contents (data : list value) :
  forall (piecess : list (list string)) (i : Z) (chunks : list Chunk),
    Forall2 (record_pieces py_str self fuel) data piecess ->
    exists added,
      create_chunks_loop py_str sha256_hexdigest self fuel data i chunks
        = Ok (chunks ++ added)%list
      /\ map content added = concat piecess.
Proof.
  induction data as [| record rest IH]; intros piecess i chunks Hall;
    inversion Hall as [| ? pieces ? piecess' [[kv Hkv] Hsplit] Hrest]; subst.
  - exists []. rewrite app_nil_r. auto.
  - rewrite create_chunks_loop_cons, Hsplit.
    destruct (append_record_chunks_contents kv i pieces 0 chunks)
      as (added1 & Happ & Hmap1).
    change (Ok pieces ≫= _) with
      (chunks' ← append_record_chunks sha256_hexdigest (VDict kv) i 0 pieces chunks;
       create_chunks_loop py_str sha256_hexdigest self fuel rest (i + 1) chunks').
    rewrite Happ.
    destruct (IH piecess' (i + 1) (chunks ++ added1)%list Hrest)
      as (added2 & Hloop & Hmap2).
    exists (added1 ++ added2)%list. split.
    + change (Ok (chunks ++ added1)%list ≫= _) with
        (create_chunks_loop py_str sha256_hexdigest self fuel rest (i + 1)
           (chunks ++ added1)%list).
      rewrite Hloop, <- app_assoc. reflexivity.
    + rewrite map_app, Hmap1, Hmap2. reflexivity.
Qed.

(** X7. When every record is a dict and the text of each is cut into
    pieces by [_split_text], [_create_chunks] returns one chunk per piece:
    the contents of the chunks are the pieces of the first record, then
    those of the second, and so on, nothing dropped and nothing merged
    (equal pieces are not deduplicated). *)
Theorem create_chunks_contents (data : list value)
    (piecess : list (list string)) (data_source_id business_id : string) :
  Forall2 (record_pieces py_str self fuel) data piecess ->
  exists chunks,
    _create_chunks py_str sha256_hexdigest self fuel data data_source_id
      business_id = Ok chunks
    /\ map content chunks = concat piecess.
Proof.
  intros Hall.
  destruct (create_chunks_loop_contents data piecess 0 [] Hall)
    as (added & H & Hmap).
  exists added. split; [exact H | exact Hmap].
Qed.

End chunk_contents.

Lemma create_chunks_contents_witness :
  exists chunks,
    file_processor._create_chunks inputs.str_of_value inputs.plain_digest
      file_processor.__init__ 10
      [ VDict [ ("content", VStr inputs.spaced_text) ];
        VDict [ ("content", VStr "alpha") ];
        VDict [ ("content", VStr "alpha") ] ] "ds1" "biz-A" = Ok chunks
    /\ map file_processor.content chunks
       = concat [ inputs.spaced_chunks; ["alpha"]; ["alpha"] ].
Proof.
  apply (create_chunks_contents inputs.str_of_value inputs.plain_digest
           file_processor.__init__ 10).
  repeat (constructor;
          [split; [eexists; reflexivity | vm_compute; reflexivity] |]).
  constructor.
Defined.

(** ** More on [process_file] *)

Lemma lower_char_idempotent (c : ascii) : lower_char (lower_char c) = lower_char c.
Proof. destruct c as [[] [] [] [] [] [] [] []]; reflexivity. Qed.

Lemma py_lower_idempotent (s : string) : py_lower (py_lower s) = py_lower s.
Proof.
  unfold py_lower. induction s as [| c rest IH]; simpl; [reflexivity |].
  rewrite lower_char_idempotent, IH. reflexivity.
Qed.

Section process_file_more.

Import file_processor.

Variable py_str : value -> string.
Variable sha256_hexdigest : string -> string.
Variable extractors : Extractors.
Variable utcnow : nat -> string.
Variable commit_raises : nat -> option string.
Variable session_rolls_back : bool.

(** The dispatch on the file type: one of the seven known extensions goes
    to its reader, anything else is refused. *)
Lemma extract_supported (file_extension file_path : string) :
  file_extension ∈ files.ALLOWED_EXTENSIONS ->
  extract extractors file_extension file_path
    ∈ reader_calls extractors file_path.
Proof.
  unfold files.ALLOWED_EXTENSIONS, reader_calls. intros Hin.
  repeat (apply elem_of_cons in Hin as [-> | Hin];
          [unfold extract; simpl;
             eauto 10 using list_elem_of_here, list_elem_of_further |]).
  apply elem_of_nil in Hin. contradiction.
Qed.

Lemma extract_unsupported (file_extension file_path : string) :
  file_extension ∉ files.ALLOWED_EXTENSIONS ->
  extract extractors file_extension file_path
    = Raise ("Unsupported file type: " ++ file_extension).
Proof.
  unfold files.ALLOWED_EXTENSIONS. intros Hout. unfold extract.
  rewrite bool_decide_eq_false_2
    by (intros Hin; apply Hout;
        repeat (apply elem_of_cons in Hin as [-> | Hin];
                [eauto 10 using list_elem_of_here, list_elem_of_further |]);
        apply elem_of_nil in Hin; contradiction).
  repeat match goal with
         | |- context [String.eqb file_extension ?e] =>
             destruct (String.eqb_spec file_extension e) as [-> | _];
             [exfalso; apply Hout;
              eauto 10 using list_elem_of_here, list_elem_of_further |]
         end.
  reflexivity.
Qed.

(** Every path of a run, for a known data source: the outcome of the
    commits and of the reading and chunking steps decides it. *)
Ltac run_paths H Hds ds :=
  unfold process_file, handle_exception, after_failed_commit in H;
  rewrite Hds in H; cbv zeta in H;
  destruct (commit_raises 0) as [? |] eqn:?;
  [ destruct (commit_raises 1) as [? |] eqn:?
  | destruct (extract_and_chunk py_str sha256_hexdigest extractors _ _
                (mark_processing utcnow ds) _ _ _) as [? | ? |] eqn:?;
    [ destruct (commit_raises 1) as [? |] eqn:?;
      [ destruct (commit_raises 2) as [? |] eqn:? | ]
    | destruct (commit_raises 1) as [? |] eqn:?
    | ] ];
  try discriminate;
  destruct session_rolls_back; cbn [fst snd] in H;
  injection H as <- <-.

(** X8. A data source whose type, in lower case, is none of xlsx, xls,
    csv, json, pdf, txt and docx is not read at all: the run returns
    [False] and no row is added, whatever the commits do; when the two
    commits of the status writes succeed, the data source ends in the
    [error] state with the message "Unsupported file type: ...". *)
Theorem process_file_unsupported_type (self : FileProcessor) (fuel : nat)
    (db : Database) (id file_path business_id : string) (ds : DataSource) :
  data_sources db !! id = Some ds ->
  py_lower (ds_source_type ds) ∉ files.ALLOWED_EXTENSIONS ->
  exists db',
    process_file py_str sha256_hexdigest extractors utcnow
      commit_raises session_rolls_back self
      fuel db id file_path business_id = Ok (false, db')
    /\ data_chunks db' = data_chunks db
    /\ (commit_raises 0 = None ->
        commit_raises 1 = None ->
        processing_status <$> data_sources db' !! id = Some "error"
        /\ processing_error <$> data_sources db' !! id
           = Some (Some ("Unsupported file type: "
                           ++ py_lower (ds_source_type ds))%string)).
Proof.
  intros Hds Hout.
  assert (Hsteps :
    extract_and_chunk py_str sha256_hexdigest extractors self fuel
      (mark_processing utcnow ds) id file_path business_id
    = Raise ("Unsupported file type: " ++ py_lower (ds_source_type ds))).
  { unfold extract_and_chunk. simpl.
    rewrite (extract_unsupported _ _ Hout). reflexivity. }
  unfold process_file, handle_exception, after_failed_commit.
  rewrite Hds, Hsteps. destruct session_rolls_back; cbn [fst snd];
  destruct (commit_raises 0) as [e0 |]; destruct (commit_raises 1) as [e1 |];
    eexists; (split; [reflexivity |]);
    (split; [rewrite ?store_chunks, ?app_nil_r; reflexivity |]);
    intros H0 H1; try discriminate;
    rewrite store_lookup; simpl; auto.
Qed.

(** X9. Whatever the outcome, a run touches its own data source only:
    every other data source is as before, the rows that were there are
    still there in the same order, and every row added carries the id of
    the data source and the business id of the run. *)
Theorem process_file_frame (self : FileProcessor) (fuel : nat) (db db' : Database)
    (id file_path business_id : string) (b : bool) :
  process_file py_str sha256_hexdigest extractors utcnow
    commit_raises session_rolls_back self fuel
    db id file_path business_id = Ok (b, db') ->
  (forall other : string,
     other <> id -> data_sources db' !! other = data_sources db !! other)
  /\ exists rows,
       data_chunks db' = (data_chunks db ++ rows)%list
       /\ Forall (row_of_run id business_id) rows.
Proof.
  intros H.
  assert (Hrows : forall chunks : list Chunk,
            Forall (row_of_run id business_id)
              (map (db_chunk id business_id) chunks)).
  { intros chunks. apply Forall_map, Forall_true. intros c. split; reflexivity. }
  destruct (data_sources db !! id) as [ds |] eqn:Hds.
  - run_paths H Hds ds;
      (split;
       [ intros other Hne; unfold store; simpl;
         rewrite ?lookup_insert_ne by congruence; reflexivity
       | rewrite ?store_chunks, ?app_nil_r;
         first [ exists []; rewrite app_nil_r; split; [reflexivity | constructor]
               | eexists; split; [reflexivity | apply Hrows] ] ]).
  - unfold process_file in H. rewrite Hds in H. injection H as <- <-.
    split; [reflexivity |].
    exists []. rewrite app_nil_r. split; [reflexivity | constructor].
Qed.


(** X11. After a run that returns [True], the rows added for the data
    source are numbered by [chunk_index] from 0 in the order they were
    added, and [records_count] is their number. *)
Theorem process_file_rows_numbered (self : FileProcessor) (fuel : nat)
    (db db' : Database) (id file_path business_id : string) (ds : DataSource) :
  data_sources db !! id = Some ds ->
  process_file py_str sha256_hexdigest extractors utcnow
    commit_raises session_rolls_back self fuel
    db id file_path business_id = Ok (true, db') ->
  exists rows,
    data_chunks db' = (data_chunks db ++ rows)%list
    /\ (forall (k : nat) (row : DataChunk),
          rows !! k = Some row -> dc_chunk_index row = Z.of_nat k)
    /\ records_count <$> data_sources db' !! id = Some (Z.of_nat (length rows)).
Proof.
  intros Hds H.
  unfold process_file, handle_exception in H. rewrite Hds in H.
  cbv zeta in H.
  destruct (commit_raises 0); [destruct (commit_raises 1); discriminate |].
  destruct (extract_and_chunk py_str sha256_hexdigest extractors self fuel
              (mark_processing utcnow ds) id file_path business_id)
    as [chunks | e |] eqn:Hsteps; try discriminate.
  - destruct (commit_raises 1);
      [destruct (commit_raises 2); discriminate |].
    injection H as <-.
    exists (map (db_chunk id business_id) chunks). repeat split.
    + rewrite !store_chunks, app_nil_r. reflexivity.
    + intros k row Hk. rewrite list_lookup_fmap in Hk.
      destruct (chunks !! k) as [c |] eqn:Hc; simpl in Hk; [| discriminate].
      injection Hk as <-. simpl.
      unfold extract_and_chunk in Hsteps.
      destruct (extract extractors _ file_path) as [data | msg |];
        simpl in Hsteps; try discriminate.
      exact (create_chunks_loop_indexed py_str sha256_hexdigest self fuel data 0
               [] chunks indexed_nil Hsteps k c Hc).
    + rewrite store_lookup. simpl. rewrite length_map. reflexivity.
  - destruct (commit_raises 1); discriminate.
Qed.

(** X12. The upload check and the reader dispatch agree.  For a file name
    with an extension, the stored source type is the extension in lower
    case; if [validate_file_extension] accepts the name, [process_file]'s
    dispatch on that source type calls one of the six readers, and if it
    rejects the name the dispatch raises "Unsupported file type". *)
Theorem upload_check_matches_dispatch (filename source_type file_path : string) :
  files.upload_source_type filename = Some source_type ->
  (files.validate_file_extension filename = true ->
   extract extractors (py_lower source_type) file_path
     ∈ reader_calls extractors file_path)
  /\ (files.validate_file_extension filename = false ->
      extract extractors (py_lower source_type) file_path
        = Raise ("Unsupported file type: " ++ source_type)).
Proof.
  unfold files.upload_source_type, files.validate_file_extension.
  destruct (files.after_last_dot filename) as [extension |]; simpl;
    [| discriminate].
  intros H. injection H as <-. rewrite py_lower_idempotent. split.
  - intros Hok. apply bool_decide_eq_true in Hok.
    apply extract_supported, Hok.
  - intros Hbad. apply bool_decide_eq_false in Hbad.
    apply extract_unsupported, Hbad.
Qed.

End process_file_more.

Lemma process_file_unsupported_type_witness :
  exists db',
    file_processor.process_file inputs.str_of_value inputs.plain_digest
      inputs.file_system inputs.clock inputs.commits_succeed true
      file_processor.__init__ 10 inputs.four_source_db "ds-png"
      "/uploads/logo.png" "biz-A" = Ok (false, db')
    /\ file_processor.data_chunks db' = [inputs.earlier_row]
    /\ file_processor.processing_status <$>
         file_processor.data_sources db' !! "ds-png" = Some "error"
    /\ file_processor.processing_error <$>
         file_processor.data_sources db' !! "ds-png"
       = Some (Some "Unsupported file type: png").
Proof.
  destruct (process_file_unsupported_type inputs.str_of_value
              inputs.plain_digest inputs.file_system inputs.clock
              inputs.commits_succeed true file_processor.__init__ 10
              inputs.four_source_db "ds-png" "/uploads/logo.png" "biz-A"
              (inputs.source_of_type "png"))
    as (db' & Hrun & Hrows & Hstatus).
  - vm_compute. reflexivity.
  - vm_compute. intros Hin.
    repeat (apply elem_of_cons in Hin as [Hin | Hin]; [discriminate |]).
    apply elem_of_nil in Hin. contradiction.
  - exists db'. destruct (Hstatus eq_refl eq_refl) as [Hs He].
    repeat split; assumption.
Defined.

Lemma process_file_frame_witness :
  exists db',
    file_processor.process_file inputs.str_of_value inputs.plain_digest
      inputs.file_system inputs.clock inputs.commits_succeed true file_processor.__init__ 10
      inputs.four_source_db "ds-csv" "/uploads/prices.csv" "biz-A" = Ok (true, db')
    /\ file_processor.data_sources db' !! "ds-txt"
       = file_processor.data_sources inputs.four_source_db !! "ds-txt"
    /\ exists rows,
         file_processor.data_chunks db' = ([inputs.earlier_row] ++ rows)%list
         /\ Forall (row_of_run "ds-csv" "biz-A") rows.
Proof.
  eexists. split; [vm_compute; reflexivity |].
  destruct (process_file_frame inputs.str_of_value inputs.plain_digest
              inputs.file_system inputs.clock inputs.commits_succeed true file_processor.__init__ 10
              inputs.four_source_db _ "ds-csv" "/uploads/prices.csv" "biz-A" true
              ltac:(vm_compute; reflexivity)) as [Hothers Hrows].
  split; [apply Hothers; discriminate | exact Hrows].
Defined.


Lemma process_file_rows_numbered_witness :
  exists db' rows,
    file_processor.process_file inputs.str_of_value inputs.plain_digest
      inputs.file_system inputs.clock inputs.commits_succeed true file_processor.__init__ 10
      inputs.four_source_db "ds-txt" "/uploads/notes.txt" "biz-A" = Ok (true, db')
    /\ file_processor.data_chunks db' = ([inputs.earlier_row] ++ rows)%list
    /\ (forall (k : nat) (row : file_processor.DataChunk),
          rows !! k = Some row ->
          file_processor.dc_chunk_index row = Z.of_nat k)
    /\ file_processor.records_count <$>
         file_processor.data_sources db' !! "ds-txt"
       = Some (Z.of_nat (length rows)).
Proof.
  eexists.
  destruct (process_file_rows_numbered inputs.str_of_value inputs.plain_digest
              inputs.file_system inputs.clock inputs.commits_succeed true file_processor.__init__ 10
              inputs.four_source_db _ "ds-txt" "/uploads/notes.txt" "biz-A"
              (inputs.source_of_type "txt")
              ltac:(vm_compute; reflexivity) ltac:(vm_compute; reflexivity))
    as (rows & Hrows & Hnum & Hcount).
  exists rows. split; [vm_compute; reflexivity |]. auto.
Defined.

Lemma upload_check_matches_dispatch_witness :
  files.validate_file_extension "Report.PDF" = true
  /\ file_processor.extract inputs.three_record_file (py_lower "pdf")
       "/uploads/Report.PDF"
     ∈ reader_calls inputs.three_record_file "/uploads/Report.PDF".
Proof.
  split; [reflexivity |].
  apply (proj1 (upload_check_matches_dispatch inputs.three_record_file
                  "Report.PDF" "pdf" "/uploads/Report.PDF" eq_refl)).
  reflexivity.
Defined.

(** ** The readers, and runs that go through them *)

Lemma dict_get_set_other (key other : string) (v : value)
    (kv : list (string * value)) :
  other <> key -> dict_get other (dict_set key v kv) = dict_get other kv.
Proof.
  intros Hne. induction kv as [| [k w] rest IH]; simpl.
  - destruct (String.eqb_spec key other); [congruence | reflexivity].
  - destruct (String.eqb_spec k key) as [-> | Hk]; simpl.
    + destruct (String.eqb_spec key other); [congruence | reflexivity].
    + destruct (String.eqb k other); [reflexivity | exact IH].
Qed.

Section readers_properties.

Import file_processor.

Variable py_str : value -> string.
Variable sha256_hexdigest : string -> string.
Variable extractors : Extractors.
Variable utcnow : nat -> string.
Variable commit_raises : nat -> option string.
Variable session_rolls_back : bool.

Lemma field_lines_set_hidden (key : string) (v : value)
    (kv : list (string * value)) :
  py_startswith key "_" = true ->
  field_lines py_str (dict_set key v kv) = field_lines py_str kv.
Proof.
  intros Hhidden. induction kv as [| [k w] rest IH]; simpl.
  - rewrite Hhidden. reflexivity.
  - destruct (String.eqb_spec k key) as [-> | Hk]; simpl.
    + rewrite Hhidden. reflexivity.
    + rewrite IH. reflexivity.
Qed.

(** X13. The tag a reader adds to a record never reaches the text that
    is chunked: setting a field whose name starts with an underscore (as
    ['_source_type'] does) leaves the text of the record unchanged. *)
Theorem hidden_field_not_in_text (key : string) (v : value)
    (kv : list (string * value)) :
  py_startswith key "_" = true ->
  record_text py_str (VDict (dict_set key v kv)) = record_text py_str (VDict kv).
Proof.
  intros Hhidden. unfold record_text.
  rewrite dict_get_set_other
    by (intros <-; vm_compute in Hhidden; discriminate).
  rewrite (field_lines_set_hidden _ _ _ Hhidden). reflexivity.
Qed.

(** X14. A JSON document that is an array holding an element that is
    not an object (a number, a string, ...) is never ingested:
    [_process_json] hands such an element on unwrapped, chunk creation
    raises on it, and a run that returns has returned [False] and added
    no row, whatever the commits do; when the two commits of the status
    writes succeed the data source ends in the [error] state. *)
Theorem json_array_with_scalar_fails (json_load : string -> result value)
    (self : FileProcessor) (fuel : nat) (db db' : Database)
    (id file_path business_id : string) (ds : DataSource)
    (items : list value) (scalar : value) (b : bool) :
  _process_json extractors = readers._process_json py_str json_load ->
  data_sources db !! id = Some ds ->
  py_lower (ds_source_type ds) = "json" ->
  json_load file_path = Ok (VList items) ->
  scalar ∈ items ->
  (forall kv, scalar <> VDict kv) ->
  py_len (py_str scalar) <= chunk_size self ->
  process_file py_str sha256_hexdigest extractors utcnow
    commit_raises session_rolls_back self fuel
    db id file_path business_id = Ok (b, db') ->
  b = false
  /\ data_chunks db' = data_chunks db
  /\ (commit_raises 0 = None ->
      commit_raises 1 = None ->
      processing_status <$> data_sources db' !! id = Some "error").
Proof.
  intros Hreader Hds Htype Hload Hin Hscalar Hlen H.
  assert (Hnot : forall chunks,
            extract_and_chunk py_str sha256_hexdigest extractors self fuel
              (mark_processing utcnow ds) id file_path business_id
            <> Ok chunks).
  { intros chunks Hsteps. unfold extract_and_chunk in Hsteps. simpl in Hsteps.
    rewrite Htype in Hsteps. unfold extract in Hsteps. simpl in Hsteps.
    rewrite Hreader in Hsteps. unfold readers._process_json in Hsteps.
    rewrite Hload in Hsteps. simpl in Hsteps.
    assert (Hin' : scalar ∈ map readers.tag_json items).
    { apply list_elem_of_fmap. exists scalar. split; [| exact Hin].
      destruct scalar; try reflexivity. exfalso. eapply Hscalar. reflexivity. }
    apply list_elem_of_split in Hin' as (seen & rest & Hsplit).
    unfold _create_chunks in Hsteps. rewrite Hsplit in Hsteps.
    exact (create_chunks_loop_not_ok py_str sha256_hexdigest self fuel seen
             scalar rest Hscalar Hlen 0 [] chunks Hsteps). }
  unfold process_file, handle_exception, after_failed_commit in H.
  rewrite Hds in H. cbv zeta in H.
  destruct (commit_raises 0) as [e0 |] eqn:H0.
  - destruct (commit_raises 1); destruct session_rolls_back;
      cbn [fst snd] in H; injection H as <- <-;
      rewrite ?store_chunks, ?app_nil_r; repeat split; discriminate.
  - destruct (extract_and_chunk py_str sha256_hexdigest extractors self fuel
                (mark_processing utcnow ds) id file_path business_id)
      as [chunks | e |] eqn:Hsteps; try discriminate.
    + exfalso. eapply Hnot. reflexivity.
    + destruct (commit_raises 1) eqn:H1; injection H as <- <-;
        rewrite ?store_chunks, ?app_nil_r; repeat split; try discriminate.
      intros _ _. rewrite store_lookup. reflexivity.
Qed.

(** X15. A text file is stored as the pieces [_split_text] makes of its
    content: when the file can be read, the split returns and the two
    commits of the run succeed, the run returns [True], the rows added
    hold exactly those pieces in order, and [records_count] is their
    number. *)
Theorem text_file_stored_as_pieces (read : string -> result string)
    (self : FileProcessor) (fuel : nat) (db : Database)
    (id file_path business_id : string) (ds : DataSource)
    (content : string) (pieces : list string) :
  _process_text extractors = readers._process_text read ->
  data_sources db !! id = Some ds ->
  py_lower (ds_source_type ds) = "txt" ->
  read file_path = Ok content ->
  _split_text self fuel content = Ok pieces ->
  commit_raises 0 = None ->
  commit_raises 1 = None ->
  exists db' rows,
    process_file py_str sha256_hexdigest extractors utcnow
      commit_raises session_rolls_back self
      fuel db id file_path business_id = Ok (true, db')
    /\ data_chunks db' = (data_chunks db ++ rows)%list
    /\ map dc_content rows = pieces
    /\ records_count <$> data_sources db' !! id = Some (Z.of_nat (length pieces)).
Proof.
  intros Hreader Hds Htype Hread Hsplit Hfirst Hsecond.
  destruct (create_chunks_loop_contents py_str sha256_hexdigest self fuel
              [ VDict [ ("content", VStr content); ("_source_type", VStr "text") ] ]
              [pieces] 0 [])
    as (chunks & Hchunks & Hmap).
  { constructor; [| constructor]. split; [eexists; reflexivity | exact Hsplit]. }
  simpl in Hmap. rewrite app_nil_r in Hmap.
  destruct (process_file_completed py_str sha256_hexdigest extractors utcnow
              commit_raises session_rolls_back self fuel db id file_path
              business_id ds chunks Hds Hfirst Hsecond)
    as (db' & Hrun & _ & Hcount & Hrows).
  { unfold extract_and_chunk. rewrite Htype. unfold extract. simpl.
    rewrite Hreader. unfold readers._process_text. rewrite Hread. exact Hchunks. }
  exists db', (map (db_chunk id business_id) chunks).
  repeat split; try assumption.
  - rewrite <- Hmap, map_map. reflexivity.
  - rewrite Hcount, <- Hmap, length_map. reflexivity.
Qed.

End readers_properties.

Lemma hidden_field_not_in_text_witness :
  file_processor.record_text inputs.str_of_value
    (VDict (dict_set "_source_type" (VStr "csv")
              [ ("item", VStr "tea"); ("price", VInt 3) ]))
  = file_processor.record_text inputs.str_of_value
      (VDict [ ("item", VStr "tea"); ("price", VInt 3) ]).
Proof.
  apply (hidden_field_not_in_text inputs.str_of_value "_source_type").
  reflexivity.
Defined.

Lemma json_array_with_scalar_fails_witness :
  exists db',
    file_processor.process_file inputs.str_of_value inputs.plain_digest
      inputs.file_system inputs.clock inputs.commits_succeed true
      file_processor.__init__ 10 inputs.four_source_db "ds-json"
      "/uploads/mixed.json" "biz-A" = Ok (false, db')
    /\ file_processor.data_chunks db' = [inputs.earlier_row]
    /\ file_processor.processing_status <$>
         file_processor.data_sources db' !! "ds-json" = Some "error".
Proof.
  eexists. split; [vm_compute; reflexivity |].
  destruct (json_array_with_scalar_fails inputs.str_of_value inputs.plain_digest
              inputs.file_system inputs.clock inputs.commits_succeed true
              inputs.json_load file_processor.__init__ 10 inputs.four_source_db
              _ "ds-json" "/uploads/mixed.json" "biz-A"
              (inputs.source_of_type "JSON")
              [ VDict [ ("content", VStr "alpha") ]; VInt 7 ] (VInt 7) false
              eq_refl ltac:(vm_compute; reflexivity) eq_refl eq_refl
              ltac:(apply list_elem_of_further, list_elem_of_here)
              ltac:(intros kv; discriminate) ltac:(vm_compute; discriminate)
              ltac:(vm_compute; reflexivity))
    as (_ & Hrows & Hstatus).
  split; [exact Hrows | exact (Hstatus eq_refl eq_refl)].
Defined.

Lemma text_file_stored_as_pieces_witness :
  exists db' rows,
    file_processor.process_file inputs.str_of_value inputs.plain_digest
      inputs.file_system inputs.clock inputs.commits_succeed true
      file_processor.__init__ 10 inputs.four_source_db "ds-txt"
      "/uploads/notes.txt" "biz-A" = Ok (true, db')
    /\ file_processor.data_chunks db' = ([inputs.earlier_row] ++ rows)%list
    /\ map file_processor.dc_content rows = inputs.spaced_chunks
    /\ file_processor.records_count <$>
         file_processor.data_sources db' !! "ds-txt" = Some 4.
Proof.
  apply (text_file_stored_as_pieces inputs.str_of_value inputs.plain_digest
           inputs.file_system inputs.clock inputs.commits_succeed true
           inputs.read_text file_processor.__init__ 10 inputs.four_source_db
           "ds-txt" "/uploads/notes.txt" "biz-A" (inputs.source_of_type "txt")
           inputs.spaced_text inputs.spaced_chunks).
  - reflexivity.
  - vm_compute. reflexivity.
  - reflexivity.
  - reflexivity.
  - vm_compute. reflexivity.
  - reflexivity.
  - reflexivity.
Defined.

(** ** More on the vector service *)

Section vector_service_more.

Import vector_service.

Variable self : VectorService.

Lemma build_points_shape (data_source_id : string)
    (chunks : list file_processor.Chunk) :
  forall (seen : list file_processor.Chunk) (points points' : list PointStruct),
    Forall2 (fun p kc => point_of_chunk data_source_id (fst kc) (snd kc) p)
      points (imap (fun k c => (k, c)) seen) ->
    build_points self data_source_id (Z.of_nat (length seen)) chunks points
      = Ok points' ->
    Forall2 (fun p kc => point_of_chunk data_source_id (fst kc) (snd kc) p)
      points' (imap (fun k c => (k, c)) (seen ++ chunks)).
Proof.
  induction chunks as [| chunk rest IH]; intros seen points points' Hall H;
    simpl in H.
  - injection H as <-. rewrite app_nil_r. exact Hall.
  - destruct (generate_embedding self (file_processor.content chunk))
      as [embedding | msg |]; simpl in H; try discriminate.
    replace (Z.of_nat (length seen) + 1)
      with (Z.of_nat (length (seen ++ [chunk]))) in H
      by (rewrite length_app; simpl; lia).
    replace (seen ++ chunk :: rest)%list with ((seen ++ [chunk]) ++ rest)%list
      by (rewrite <- app_assoc; reflexivity).
    eapply IH; [| exact H].
    rewrite imap_app. apply Forall2_app; [exact Hall |].
    simpl. constructor; [| constructor].
    rewrite Nat.add_0_r. repeat split.
Qed.

(** X16. When [index_chunks] succeeds it has built one point per chunk,
    in order: the point of the chunk at position [k] has the id
    [<data_source_id>_<k>] and carries the chunk's content, the data source
    id and the chunk's index in its payload. *)
Theorem index_chunks_points (chunks : list file_processor.Chunk)
    (data_source_id : string) (points : list PointStruct) :
  index_chunks self chunks data_source_id = Ok points ->
  length points = length chunks
  /\ forall (k : nat) (chunk : file_processor.Chunk),
       chunks !! k = Some chunk ->
       exists p, points !! k = Some p /\ point_of_chunk data_source_id k chunk p.
Proof.
  unfold index_chunks. intros H.
  destruct (build_points self data_source_id 0 chunks []) as [pts | msg |] eqn:Hb;
    simpl in H; try discriminate.
  destruct (client_upsert self (self_collection_name self) pts); simpl in H;
    try discriminate.
  injection H as <-.
  pose proof (build_points_shape data_source_id chunks [] [] pts
                ltac:(constructor) Hb) as Hshape.
  simpl in Hshape. split.
  - rewrite (Forall2_length _ _ _ Hshape), length_imap. reflexivity.
  - intros k chunk Hk.
    assert (Hkc : imap (fun k c => (k, c)) chunks !! k = Some (k, chunk))
      by (rewrite list_lookup_imap, Hk; reflexivity).
    destruct (Forall2_lookup_r _ _ _ _ _ Hshape Hkc) as (p & Hp & Hpoint).
    exists p. split; [exact Hp | exact Hpoint].
Qed.

Lemma build_points_embedding_failure (data_source_id : string)
    (chunks : list file_processor.Chunk) (chunk : file_processor.Chunk)
    (e : string) :
  chunk ∈ chunks ->
  generate_embedding self (file_processor.content chunk) = Raise e ->
  forall (i : Z) (points points' : list PointStruct),
    build_points self data_source_id i chunks points <> Ok points'.
Proof.
  intros Hin Hfail.
  induction chunks as [| c rest IH]; intros i points points'.
  - apply elem_of_nil in Hin. contradiction.
  - simpl. apply elem_of_cons in Hin as [<- | Hin].
    + rewrite Hfail. discriminate.
    + destruct (generate_embedding self (file_processor.content c)); simpl;
        try discriminate.
      apply IH, Hin.
Qed.

(** X17. Indexing is all or nothing with respect to the embeddings: if
    the embedding of any one chunk fails, [index_chunks] hands nothing to
    [client.upsert] (no point, not even those whose embedding was
    obtained) and does not return, whatever the index client would do. *)
Theorem index_chunks_embedding_failure (chunks : list file_processor.Chunk)
    (data_source_id : string) (chunk : file_processor.Chunk) (e : string) :
  chunk ∈ chunks ->
  generate_embedding self (file_processor.content chunk) = Raise e ->
  index_chunks_upserts self chunks data_source_id = []
  /\ forall points : list PointStruct,
       index_chunks self chunks data_source_id <> Ok points.
Proof.
  intros Hin Hfail. unfold index_chunks_upserts, index_chunks.
  destruct (build_points self data_source_id 0 chunks []) as [pts | msg |] eqn:Hb.
  - exfalso.
    exact (build_points_embedding_failure data_source_id chunks chunk e Hin
             Hfail 0 [] pts Hb).
  - split; [reflexivity | discriminate].
  - split; [reflexivity | discriminate].
Qed.

(** X18. The payload [index_chunks] writes carries no business id, so a
    point indexed through it satisfies the business filter of
    [search_similar] for no business at all. *)
Theorem indexed_points_match_no_business (chunks : list file_processor.Chunk)
    (data_source_id business_id : string) (points : list PointStruct) :
  index_chunks self chunks data_source_id = Ok points ->
  Forall (fun p => filter_holds (business_filter business_id) (payload p) = false)
    points.
Proof.
  unfold index_chunks. intros H.
  destruct (build_points self data_source_id 0 chunks []) as [pts | msg |] eqn:Hb;
    simpl in H; try discriminate.
  destruct (client_upsert self (self_collection_name self) pts); simpl in H;
    try discriminate.
  injection H as <-.
  eapply build_points_unscoped; [| exact Hb]. constructor.
Qed.

Lemma format_hits_lookup (hits : list ScoredPoint) :
  forall (results : list value) (k : nat) (r : value),
    format_hits hits = Ok results ->
    results !! k = Some r ->
    exists hit, hits !! k = Some hit /\ format_hit hit = Ok r.
Proof.
  induction hits as [| hit rest IH]; intros results k r H Hk; simpl in H.
  - injection H as <-. rewrite lookup_nil in Hk. discriminate.
  - destruct (format_hit hit) as [r0 | msg |] eqn:Hr0; simpl in H; try discriminate.
    destruct (format_hits rest) as [rs | msg |] eqn:Hrs; simpl in H;
      try discriminate.
    injection H as <-. destruct k as [| k]; simpl in Hk.
    + injection Hk as <-. exists hit. auto.
    + apply (IH rs k r eq_refl Hk).
Qed.

(** X19. [search_similar] keeps the order of the index: the result at
    position [k] is the hit at position [k] of the index's answer, with its
    score and its payload's content, data source id and metadata. *)
Theorem search_similar_keeps_order (query business_id : string)
    (limit score_threshold : Z) (results : list value) (k : nat) (r : value) :
  search_similar self query business_id limit score_threshold = Ok results ->
  results !! k = Some r ->
  exists (embedding : Embedding) (hits : list ScoredPoint) (hit : ScoredPoint)
         (c d m : value),
    client_search self
      {| collection_name := self_collection_name self;
         query_vector := embedding;
         query_filter := business_filter business_id;
         limit := limit;
         score_threshold := score_threshold |} = Ok hits
    /\ hits !! k = Some hit
    /\ dict_get "content" (hit_payload hit) = Some c
    /\ dict_get "data_source_id" (hit_payload hit) = Some d
    /\ dict_get "metadata" (hit_payload hit) = Some m
    /\ r = VDict [ ("content", c); ("score", VFloat (hit_score hit));
                   ("data_source_id", d); ("metadata", m) ].
Proof.
  intros H Hk.
  destruct (search_similar_formats_hits _ _ _ _ _ _ H)
    as (embedding & hits & _ & Hsearch & Hformat).
  destruct (format_hits_lookup hits results k r Hformat Hk) as (hit & Hhit & Hr).
  unfold format_hit, payload_item in Hr.
  destruct (dict_get "content" (hit_payload hit)) as [c |] eqn:Hc; simpl in Hr;
    [| discriminate].
  destruct (dict_get "data_source_id" (hit_payload hit)) as [d |] eqn:Hd;
    simpl in Hr; [| discriminate].
  destruct (dict_get "metadata" (hit_payload hit)) as [m |] eqn:Hm; simpl in Hr;
    [| discriminate].
  injection Hr as <-. exists embedding, hits, hit, c, d, m.
  repeat split; assumption || reflexivity.
Qed.

Lemma format_hits_incomplete (hits : list ScoredPoint) :
  Exists (fun hit => complete_hit hit = false) hits ->
  forall results, format_hits hits <> Ok results.
Proof.
  induction 1 as [hit rest Hbad | hit rest _ IH]; intros results; simpl.
  - unfold format_hit, payload_item. unfold complete_hit in Hbad.
    destruct (dict_get "content" (hit_payload hit)); simpl; [| discriminate].
    destruct (dict_get "data_source_id" (hit_payload hit)); simpl;
      [| discriminate].
    destruct (dict_get "metadata" (hit_payload hit)); simpl; discriminate.
  - destruct (format_hit hit); simpl; try discriminate.
    destruct (format_hits rest) eqn:Hrest; simpl; try discriminate.
    exfalso. eapply IH. reflexivity.
Qed.

(** X20. [search_similar] gives no partial answer: if one of the hits
    the index returns lacks ["content"], ["data_source_id"] or
    ["metadata"] in its payload, the whole search fails and no result
    list is returned. *)
Theorem search_similar_incomplete_hit (query business_id : string)
    (limit score_threshold : Z) (embedding : Embedding)
    (hits : list ScoredPoint) (results : list value) :
  generate_embedding self query = Ok embedding ->
  client_search self
    {| collection_name := self_collection_name self;
       query_vector := embedding;
       query_filter := business_filter business_id;
       limit := limit;
       score_threshold := score_threshold |} = Ok hits ->
  Exists (fun hit => complete_hit hit = false) hits ->
  search_similar self query business_id limit score_threshold <> Ok results.
Proof.
  intros Hemb Hsearch Hbad. unfold search_similar.
  rewrite Hemb. simpl. rewrite Hsearch. simpl.
  apply format_hits_incomplete, Hbad.
Qed.

End vector_service_more.

Lemma index_chunks_points_witness :
  length inputs.three_points = length inputs.three_chunks
  /\ forall (k : nat) (chunk : file_processor.Chunk),
       inputs.three_chunks !! k = Some chunk ->
       exists p,
         inputs.three_points !! k = Some p /\ point_of_chunk "ds1" k chunk p.
Proof.
  apply (index_chunks_points inputs.working_index inputs.three_chunks "ds1").
  vm_compute. reflexivity.
Defined.

Lemma index_chunks_embedding_failure_witness :
  vector_service.index_chunks_upserts inputs.failing_index inputs.three_chunks
    "ds1" = []
  /\ forall points : list vector_service.PointStruct,
       vector_service.index_chunks inputs.failing_index inputs.three_chunks
         "ds1" <> Ok points.
Proof.
  eapply (index_chunks_embedding_failure inputs.failing_index
            inputs.three_chunks "ds1" _ "IndexUpstreamError").
  - unfold inputs.three_chunks. apply list_elem_of_further, list_elem_of_here.
  - reflexivity.
Defined.

Lemma indexed_points_match_no_business_witness :
  Forall (fun p =>
            vector_service.filter_holds (vector_service.business_filter "biz-A")
              (vector_service.payload p) = false)
    inputs.three_points.
Proof.
  apply (indexed_points_match_no_business inputs.working_index
           inputs.three_chunks "ds1" "biz-A").
  vm_compute. reflexivity.
Defined.

Lemma search_similar_keeps_order_witness :
  exists (embedding : vector_service.Embedding)
         (hits : list vector_service.ScoredPoint)
         (hit : vector_service.ScoredPoint) (c d m : value),
    vector_service.client_search inputs.unfiltered_index
      {| vector_service.collection_name := "business_data";
         vector_service.query_vector := embedding;
         vector_service.query_filter := vector_service.business_filter "biz-A";
         vector_service.limit := 10;
         vector_service.score_threshold := 4604480259023595110 |} = Ok hits
    /\ hits !! 1%nat = Some hit
    /\ dict_get "content" (vector_service.hit_payload hit) = Some c
    /\ dict_get "data_source_id" (vector_service.hit_payload hit) = Some d
    /\ dict_get "metadata" (vector_service.hit_payload hit) = Some m
    /\ VDict [ ("content", VStr "price list of B");
               ("score", VFloat 4606281698874543309);
               ("data_source_id", VStr "ds-B");
               ("metadata", VDict [ ("business_id", VStr "biz-B") ]) ]
       = VDict [ ("content", c); ("score", VFloat (vector_service.hit_score hit));
                 ("data_source_id", d); ("metadata", m) ].
Proof.
  eapply (search_similar_keeps_order inputs.unfiltered_index "price list"
            "biz-A" 10 4604480259023595110 _ 1%nat).
  - vm_compute. reflexivity.
  - reflexivity.
Defined.

Lemma search_similar_incomplete_hit_witness :
  vector_service.search_similar inputs.index_with_incomplete_hit "opening hours"
    "biz-A" 10 4604480259023595110 <> Ok [].
Proof.
  eapply (search_similar_incomplete_hit inputs.index_with_incomplete_hit
            "opening hours" "biz-A" 10 4604480259023595110).
  - reflexivity.
  - reflexivity.
  - apply Exists_cons_tl, Exists_cons_hd. reflexivity.
Defined.

(** ** The search endpoints *)

Section search_endpoint_properties.

Import search.

Variable service : vector_service.VectorService.

(** X21. A response of [POST /search] reports as [total_count] the
    number of results it carries, which is the number of hits the index
    returned for the query filtered on the caller's business; when the
    search raises, the endpoint answers 500 "Search failed: ...". *)
Theorem search_data_counts_hits (execution_time : Z) (request : SearchRequest)
    (business_id : string) :
  (forall response : SearchResponse,
     search_data service execution_time request business_id = Respond response ->
     resp_total_count response = Z.of_nat (length (resp_results response))
     /\ exists (embedding : vector_service.Embedding)
               (hits : list vector_service.ScoredPoint),
          vector_service.client_search service
            {| vector_service.collection_name :=
                 vector_service.self_collection_name service;
               vector_service.query_vector := embedding;
               vector_service.query_filter :=
                 vector_service.business_filter business_id;
               vector_service.limit := sr_limit request;
               vector_service.score_threshold := sr_score_threshold request |}
            = Ok hits
          /\ length (resp_results response) = length hits)
  /\ (forall e : string,
        vector_service.search_similar service (sr_query request) business_id
          (sr_limit request) (sr_score_threshold request) = Raise e ->
        search_data service execution_time request business_id
          = HTTPException 500 ("Search failed: " ++ e)).
Proof.
  unfold search_data. split.
  - intros response H.
    destruct (vector_service.search_similar service (sr_query request)
                business_id (sr_limit request) (sr_score_threshold request))
      as [results | e |] eqn:Hsearch; try discriminate.
    injection H as <-. simpl. split; [reflexivity |].
    destruct (search_similar_formats_hits _ _ _ _ _ _ Hsearch)
      as (embedding & hits & _ & Hhits & Hformat).
    exists embedding, hits. split; [exact Hhits |].
    apply format_hits_length, Hformat.
  - intros e ->. reflexivity.
Qed.


End search_endpoint_properties.

Lemma search_data_counts_hits_witness :
  exists response,
    search.search_data inputs.filtering_index 12
      {| search.sr_query := "opening hours"; search.sr_database_id := None;
         search.sr_limit := 10; search.sr_score_threshold := 4604480259023595110 |}
      "biz-A" = search.Respond response
    /\ search.resp_total_count response = 1.
Proof.
  eexists. split; [vm_compute; reflexivity |].
  destruct (proj1 (search_data_counts_hits inputs.filtering_index 12
                     {| search.sr_query := "opening hours";
                        search.sr_database_id := None;
                        search.sr_limit := 10;
                        search.sr_score_threshold := 4604480259023595110 |}
                     "biz-A") _ ltac:(vm_compute; reflexivity)) as [Hcount _].
  exact Hcount.
Defined.


(** ** More on the protocol server *)

Section mcp_server_more.

Import mcp_server.

Variable services : Services.

Lemma value_in_bound (bindings : list string) :
  Forall (fun database_id => value_in database_id bindings = true)
    (map VStr bindings).
Proof.
  apply Forall_map, list.Forall_forall. intros s Hs. simpl.
  apply bool_decide_eq_true_2, Hs.
Qed.

Lemma data_handlers_within (self : MCPServer) (data : Response)
    (connection_id : string) (bindings : list string) :
  agent_bindings self !! connection_id = Some bindings ->
  Forall (call_within bindings)
    (calls (handle_list_databases services self data connection_id))
  /\ Forall (call_within bindings)
       (calls (handle_query_database services self data connection_id))
  /\ Forall (call_within bindings)
       (calls (handle_search_knowledge services self data connection_id))
  /\ Forall (call_within bindings)
       (calls (handle_get_schema services self data connection_id))
  /\ Forall (call_within bindings)
       (calls (handle_execute_query services self data connection_id)).
Proof.
  intros Hauth.
  unfold handle_list_databases, handle_query_database, handle_search_knowledge,
    handle_get_schema, handle_execute_query.
  rewrite Hauth. repeat split.
  - repeat constructor.
  - destruct (value_in _ bindings) eqn:Hin; simpl; repeat constructor.
    exact Hin.
  - destruct (truthy _) eqn:Hgiven; simpl.
    + destruct (value_in _ bindings) eqn:Hin; simpl; repeat constructor.
      exact Hin.
    + repeat constructor. apply value_in_bound.
  - destruct (value_in _ bindings) eqn:Hin; simpl; repeat constructor.
    exact Hin.
  - destruct (value_in _ bindings) eqn:Hin; simpl; [| constructor].
    destruct (dict_get_default "sql" VNone data); simpl; try constructor.
    destruct (is_select s); simpl; repeat constructor. exact Hin.
Qed.

(** X23. Once a connection is authenticated, no message other than
    [authenticate] makes the server call a service about a database that
    is not bound to the connection: [query_database], [get_schema] and
    [execute_query] only pass on a bound database id, [search_knowledge]
    only searches bound ids, and [list_databases] asks for exactly the
    bound ids. *)
Theorem calls_stay_within_bindings (self : MCPServer) (connection_id : string)
    (message : option value) (bindings : list string) :
  agent_bindings self !! connection_id = Some bindings ->
  (forall data : Response,
     message = Some (VDict data) ->
     is_str "authenticate" (dict_get_default "operation" VNone data) = false) ->
  Forall (call_within bindings)
    (made (handle_message services self connection_id message)).
Proof.
  intros Hauth Hop. destruct message as [[| | | | | | data] |]; try constructor.
  unfold handle_message; simpl. unfold process_operation.
  rewrite (Hop data eq_refl).
  destruct (data_handlers_within self data connection_id bindings Hauth)
    as (Hl & Hq & Hs & Hg & He).
  repeat (destruct (is_str _ _); [assumption |]). constructor.
Qed.

Lemma guarded_never_raises (prefix : string) (r : result Response) (e : string) :
  guarded prefix r <> Raise e.
Proof. destruct r; discriminate. Qed.

Lemma guarded_handlers_never_raise (self : MCPServer) (data : Response)
    (connection_id : string) (e : string) :
  returned (handle_query_database services self data connection_id) <> Raise e
  /\ returned (handle_search_knowledge services self data connection_id)
       <> Raise e
  /\ returned (handle_get_schema services self data connection_id) <> Raise e
  /\ returned (handle_execute_query services self data connection_id) <> Raise e.
Proof.
  unfold handle_query_database, handle_search_knowledge, handle_get_schema,
    handle_execute_query.
  destruct (agent_bindings self !! connection_id) as [bindings |];
    [| repeat split; discriminate].
  repeat split.
  - destruct (negb _); [discriminate | apply guarded_never_raises].
  - destruct (truthy _ && negb _); [discriminate | apply guarded_never_raises].
  - destruct (negb _); [discriminate | apply guarded_never_raises].
  - destruct (negb _); [discriminate |].
    destruct (dict_get_default "sql" VNone data);
      try apply guarded_never_raises.
    destruct (negb _); [discriminate | apply guarded_never_raises].
Qed.

(** X24. For [query_database], [search_knowledge], [get_schema] and
    [execute_query], authenticated or not, every reply the server sends
    carries the request id of the message (null when the message has
    none), also when the service behind the operation raises: these four
    handlers turn the exception into an error response of their own. *)
Theorem guarded_operation_reply_echoes_request_id (self : MCPServer)
    (connection_id op : string) (data reply : Response) :
  op ∈ guarded_operations ->
  dict_get "operation" data = Some (VStr op) ->
  sent (handle_message services self connection_id (Some (VDict data)))
    = Some reply ->
  dict_get "request_id" reply = Some (dict_get_default "request_id" VNone data).
Proof.
  intros Hop Hdata. unfold handle_message; simpl.
  destruct (returned (process_operation services self data connection_id))
    as [response | e |] eqn:Hret.
  - intros H. injection H as <-. apply dict_get_set.
  - exfalso. unfold process_operation in Hret.
    rewrite (dict_get_default_Some _ _ _ _ Hdata) in Hret.
    destruct (guarded_handlers_never_raise self data connection_id e)
      as (Hq & Hs & Hg & He).
    unfold guarded_operations in Hop.
    repeat (apply elem_of_cons in Hop as [-> | Hop];
            [simpl in Hret; contradiction |]).
    apply elem_of_nil in Hop. contradiction.
  - discriminate.
Qed.

(** X25. A successful [authenticate] binds the connection to the database
    ids of the bindings the query service returned (replacing whatever was
    bound before) and reports their number; a [list_databases] that
    follows on the same connection asks the query service for exactly
    those ids. *)
Theorem authenticate_then_list_databases (self : MCPServer)
    (connection_id : string) (data data' : Response) (agent_id business_id : value)
    (bindings : list string) :
  dict_get "operation" data = Some (VStr "authenticate") ->
  dict_get "agent_id" data = Some agent_id ->
  dict_get "business_id" data = Some business_id ->
  truthy agent_id = true ->
  truthy business_id = true ->
  get_agent_bindings services agent_id business_id = Ok bindings ->
  dict_get "operation" data' = Some (VStr "list_databases") ->
  let h := handle_message services self connection_id (Some (VDict data)) in
  sent h = Some [ ("type", VStr "auth_success");
                  ("agent_id", agent_id);
                  ("available_databases", VInt (Z.of_nat (length bindings)));
                  ("request_id", dict_get_default "request_id" VNone data) ]
  /\ agent_bindings (after h) !! connection_id = Some bindings
  /\ connections (after h) = connections self
  /\ made (handle_message services (after h) connection_id (Some (VDict data')))
     = [GetDatabasesInfo bindings].
Proof.
  intros Hop Hagent Hbusiness Ha Hb Hbind Hop' h.
  assert (Hh : h = {| made := [GetAgentBindings agent_id business_id];
                      after := {| connections := connections self;
                                  agent_bindings :=
                                    <[connection_id := bindings]>
                                      (agent_bindings self) |};
                      sent := Some (dict_set "request_id"
                                      (dict_get_default "request_id" VNone data)
                                      [ ("type", VStr "auth_success");
                                        ("agent_id", agent_id);
                                        ("available_databases",
                                         VInt (Z.of_nat (length bindings))) ]) |}).
  { unfold h, handle_message, process_operation.
    rewrite (dict_get_default_Some _ _ _ _ Hop). simpl.
    unfold handle_authenticate.
    rewrite (dict_get_default_Some _ _ _ _ Hagent),
      (dict_get_default_Some _ _ _ _ Hbusiness), Ha, Hb, Hbind. reflexivity. }
  rewrite Hh. simpl. repeat split.
  - apply lookup_insert_eq.
  - unfold process_operation.
    rewrite (dict_get_default_Some _ _ _ _ Hop'). simpl.
    unfold handle_list_databases. simpl. rewrite lookup_insert_eq. reflexivity.
Qed.

(** X26. An [authenticate] that is not answered with [auth_success]
    (missing or empty agent or business id, or a query service that
    raises) leaves the server as it was: bindings the connection had from
    an earlier [authenticate] stay in force. *)
Theorem failed_authenticate_keeps_server (self : MCPServer)
    (connection_id : string) (data : Response) :
  dict_get "operation" data = Some (VStr "authenticate") ->
  (forall reply : Response,
     sent (handle_message services self connection_id (Some (VDict data)))
       = Some reply ->
     dict_get "type" reply <> Some (VStr "auth_success")) ->
  after (handle_message services self connection_id (Some (VDict data))) = self.
Proof.
  intros Hop. unfold handle_message, process_operation.
  rewrite (dict_get_default_Some _ _ _ _ Hop). simpl.
  unfold handle_authenticate.
  destruct (negb _ || negb _); [reflexivity |].
  destruct (get_agent_bindings services _ _) as [bindings | e |]; simpl;
    try reflexivity.
  intros Hreply. exfalso. eapply Hreply; reflexivity.
Qed.

(** X27. No message opens or closes a connection: whatever the messages
    and the services, the message loop of a connection leaves the
    [connections] registry as it found it, and it produces one reply slot
    per message. *)
Theorem message_loop_keeps_connections (connection_id : string)
    (messages : list (option value)) :
  forall self : MCPServer,
    connections (fst (message_loop services self connection_id messages))
      = connections self
    /\ length (snd (message_loop services self connection_id messages))
       = length messages.
Proof.
  induction messages as [| message rest IH]; intros self; simpl; [auto |].
  destruct (IH (after (handle_message services self connection_id message)))
    as [Hconn Hlen].
  destruct (message_loop services
              (after (handle_message services self connection_id message))
              connection_id rest) as [self' out] eqn:Hloop.
  simpl in *. split; [| congruence].
  rewrite Hconn. clear.
  destruct message as [[| | | | | | data] |]; try reflexivity.
  unfold handle_message; simpl. unfold process_operation.
  destruct (is_str "authenticate" _).
  - unfold handle_authenticate.
    destruct (negb _ || negb _); [reflexivity |].
    destruct (get_agent_bindings services _ _); reflexivity.
  - destruct (data_handlers_keep_server services self data connection_id)
      as (Hl & Hq & Hs & Hg & He).
    repeat (destruct (is_str _ _); [congruence |]). reflexivity.
Qed.

End mcp_server_more.

Section mcp_server_connections.

Import mcp_server.

Variable services : Services.

Lemma authenticate_success (self : MCPServer) (connection_id : string)
    (data : Response) (agent_id business_id : value) (bindings : list string) :
  dict_get "operation" data = Some (VStr "authenticate") ->
  dict_get "agent_id" data = Some agent_id ->
  dict_get "business_id" data = Some business_id ->
  truthy agent_id = true ->
  truthy business_id = true ->
  get_agent_bindings services agent_id business_id = Ok bindings ->
  after (handle_message services self connection_id (Some (VDict data)))
    = {| connections := connections self;
         agent_bindings := <[connection_id := bindings]> (agent_bindings self) |}.
Proof.
  intros Hop Hagent Hbusiness Ha Hb Hbind.
  unfold handle_message, process_operation.
  rewrite (dict_get_default_Some _ _ _ _ Hop). simpl.
  unfold handle_authenticate.
  rewrite (dict_get_default_Some _ _ _ _ Hagent),
    (dict_get_default_Some _ _ _ _ Hbusiness), Ha, Hb, Hbind. reflexivity.
Qed.

(** X28. Closing a connection removes it from [connections] but not from
    [agent_bindings].  After a connection that authenticated has been
    closed, its bindings are still registered under its connection id, and
    a later connection whose websocket has the same identity is answered
    [database_list] to [list_databases] without having authenticated. *)
Theorem closed_connection_keeps_bindings (self : MCPServer) (websocket : Z)
    (data data' : Response) (agent_id business_id : value)
    (bindings : list string) (databases : list DatabaseInfo) :
  dict_get "operation" data = Some (VStr "authenticate") ->
  dict_get "agent_id" data = Some agent_id ->
  dict_get "business_id" data = Some business_id ->
  truthy agent_id = true ->
  truthy business_id = true ->
  get_agent_bindings services agent_id business_id = Ok bindings ->
  dict_get "operation" data' = Some (VStr "list_databases") ->
  get_databases_info services bindings = Ok databases ->
  let connection_id := ("conn_" ++ pretty websocket)%string in
  let closed :=
    fst (handle_connection services self websocket [Some (VDict data)]) in
  connections closed !! connection_id = None
  /\ agent_bindings closed !! connection_id = Some bindings
  /\ snd (handle_connection services closed websocket [Some (VDict data')])
     = [ Some welcome;
         Some [ ("type", VStr "database_list");
                ("databases", VList (map database_entry databases));
                ("request_id", dict_get_default "request_id" VNone data') ] ].
Proof.
  intros Hop Hagent Hbusiness Ha Hb Hbind Hop' Hinfo connection_id closed.
  assert (Hclosed :
    closed = {| connections :=
                  delete connection_id
                    (<[connection_id := websocket]> (connections self));
                agent_bindings :=
                  <[connection_id := bindings]> (agent_bindings self) |}).
  { unfold closed, handle_connection. fold connection_id.
    cbn [message_loop fst].
    rewrite (authenticate_success _ connection_id data agent_id business_id
               bindings Hop Hagent Hbusiness Ha Hb Hbind).
    reflexivity. }
  rewrite Hclosed. cbn [connections agent_bindings]. repeat split.
  - apply lookup_delete_eq.
  - apply lookup_insert_eq.
  - unfold handle_connection. fold connection_id.
    cbn [message_loop snd connections agent_bindings].
    unfold handle_message, process_operation.
    rewrite (dict_get_default_Some _ _ _ _ Hop'). simpl.
    unfold handle_list_databases. simpl.
    rewrite lookup_insert_eq. simpl. rewrite Hinfo. reflexivity.
Qed.

Lemma is_str_eq (s : string) (v : value) : is_str s v = true -> v = VStr s.
Proof.
  destruct v; simpl; try discriminate. intros H.
  apply String.eqb_eq in H. congruence.
Qed.

(** X29. A message that cannot be dispatched (a payload that is not JSON,
    a JSON value that is not an object, or an object whose operation is
    missing or is none of the six supported ones) is answered with a
    response of type [error]; no service is called and the server is left
    as it was. *)
Theorem undispatchable_message_rejected (self : MCPServer)
    (connection_id : string) (message : option value) :
  undispatchable message ->
  let h := handle_message services self connection_id message in
  made h = []
  /\ after h = self
  /\ exists reply, sent h = Some reply /\ dict_get "type" reply = Some (VStr "error").
Proof.
  intros Hbad h. unfold h.
  destruct message as [[| | | | | | data] |];
    try (repeat split; eexists; split; reflexivity).
  simpl in Hbad.
  assert (Hno : forall op, op ∈ supported_operations ->
                  is_str op (dict_get_default "operation" VNone data) = false).
  { intros op Hin.
    destruct (is_str op (dict_get_default "operation" VNone data)) eqn:Hop;
      [| reflexivity].
    exfalso. apply (Hbad op); [apply is_str_eq, Hop | exact Hin]. }
  unfold handle_message; simpl. unfold process_operation.
  rewrite !Hno
    by (unfold supported_operations;
        eauto 10 using list_elem_of_here, list_elem_of_further).
  repeat split. eexists. split; reflexivity.
Qed.

(** X30. On an authenticated connection, each of [query_database],
    [get_schema] and [execute_query] for a database id that is not bound
    to the connection (or for no database id at all) is answered with
    "Access denied to this database"; no service is called, whatever the
    query or SQL text, and the server is unchanged. *)
Theorem unbound_database_denied (self : MCPServer) (connection_id op : string)
    (data : Response) (bindings : list string) :
  agent_bindings self !! connection_id = Some bindings ->
  op ∈ database_operations ->
  dict_get "operation" data = Some (VStr op) ->
  value_in (dict_get_default "database_id" VNone data) bindings = false ->
  handle_message services self connection_id (Some (VDict data))
    = {| made := []; after := self;
         sent := Some [ ("type", VStr "error");
                        ("error", VStr "Access denied to this database");
                        ("request_id",
                         dict_get_default "request_id" VNone data) ] |}.
Proof.
  intros Hauth Hop Hdata Hout.
  unfold handle_message, process_operation.
  rewrite (dict_get_default_Some _ _ _ _ Hdata).
  unfold database_operations in Hop.
  repeat (apply elem_of_cons in Hop as [-> | Hop];
          [simpl;
           unfold handle_query_database, handle_get_schema, handle_execute_query;
           rewrite Hauth, Hout; reflexivity |]).
  apply elem_of_nil in Hop. contradiction.
Qed.

End mcp_server_connections.

Lemma calls_stay_within_bindings_witness :
  Forall (call_within ["db1"; "db2"])
    (mcp_server.made
       (mcp_server.handle_message inputs.working_services
          inputs.authenticated_server "conn_1"
          (Some (VDict inputs.search_all_request)))).
Proof.
  apply (calls_stay_within_bindings inputs.working_services
           inputs.authenticated_server "conn_1"
           (Some (VDict inputs.search_all_request)) ["db1"; "db2"]).
  - exact authenticated_server_bindings.
  - intros data H. injection H as <-. reflexivity.
Defined.

Lemma guarded_operation_reply_echoes_request_id_witness :
  exists reply,
    mcp_server.sent
      (mcp_server.handle_message inputs.database_down
         inputs.authenticated_server "conn_1"
         (Some (VDict inputs.query_bound_request))) = Some reply
    /\ dict_get "type" reply = Some (VStr "error")
    /\ dict_get "request_id" reply = Some (VStr "req-8").
Proof.
  eexists. split; [vm_compute; reflexivity |]. split; [reflexivity |].
  apply (guarded_operation_reply_echoes_request_id inputs.database_down
           inputs.authenticated_server "conn_1" "query_database"
           inputs.query_bound_request).
  - unfold guarded_operations. apply list_elem_of_here.
  - reflexivity.
  - vm_compute. reflexivity.
Defined.

Lemma authenticate_then_list_databases_witness :
  let h := mcp_server.handle_message inputs.working_services inputs.fresh_server
             "conn_1" (Some (VDict inputs.authenticate_request)) in
  mcp_server.agent_bindings (mcp_server.after h) !! "conn_1"
    = Some ["db1"; "db2"]
  /\ mcp_server.made
       (mcp_server.handle_message inputs.working_services (mcp_server.after h)
          "conn_1" (Some (VDict inputs.list_databases_request)))
     = [mcp_server.GetDatabasesInfo ["db1"; "db2"]].
Proof.
  destruct (authenticate_then_list_databases inputs.working_services
              inputs.fresh_server "conn_1" inputs.authenticate_request
              inputs.list_databases_request (VStr "agent-1") (VStr "biz-A")
              ["db1"; "db2"] eq_refl eq_refl eq_refl eq_refl eq_refl eq_refl
              eq_refl) as (_ & Hbound & _ & Hlist).
  split; [exact Hbound | exact Hlist].
Defined.

Lemma failed_authenticate_keeps_server_witness :
  mcp_server.after
    (mcp_server.handle_message inputs.database_down inputs.authenticated_server
       "conn_1" (Some (VDict inputs.authenticate_request)))
  = inputs.authenticated_server.
Proof.
  apply (failed_authenticate_keeps_server inputs.database_down
           inputs.authenticated_server "conn_1" inputs.authenticate_request).
  - reflexivity.
  - intros reply H. simpl in H. injection H as <-. discriminate.
Defined.

Lemma closed_connection_keeps_bindings_witness :
  let closed :=
    fst (mcp_server.handle_connection inputs.working_services
           mcp_server.__init__ 1 [Some (VDict inputs.authenticate_request)]) in
  mcp_server.connections closed !! "conn_1" = None
  /\ mcp_server.agent_bindings closed !! "conn_1" = Some ["db1"; "db2"]
  /\ snd (mcp_server.handle_connection inputs.working_services closed 1
            [Some (VDict inputs.list_databases_request)])
     = [ Some mcp_server.welcome;
         Some [ ("type", VStr "database_list"); ("databases", VList []);
                ("request_id", VStr "req-1") ] ].
Proof.
  apply (closed_connection_keeps_bindings inputs.working_services
           mcp_server.__init__ 1 inputs.authenticate_request
           inputs.list_databases_request (VStr "agent-1") (VStr "biz-A")
           ["db1"; "db2"] []); reflexivity.
Defined.

Lemma undispatchable_message_rejected_witness :
  mcp_server.sent
    (mcp_server.handle_message inputs.working_services
       inputs.authenticated_server "conn_1"
       (Some (VDict inputs.unknown_operation_request)))
  = Some [ ("type", VStr "error");
           ("error", VStr "Unknown operation: drop_everything");
           ("request_id", VStr "req-9") ]
  /\ mcp_server.after
       (mcp_server.handle_message inputs.working_services
          inputs.authenticated_server "conn_1"
          (Some (VDict inputs.unknown_operation_request)))
     = inputs.authenticated_server.
Proof.
  split; [reflexivity |].
  apply (undispatchable_message_rejected inputs.working_services
           inputs.authenticated_server "conn_1"
           (Some (VDict inputs.unknown_operation_request))).
  intros op Hop. injection Hop as <-. unfold supported_operations. intros Hin.
  repeat (apply elem_of_cons in Hin as [Hin | Hin]; [discriminate |]).
  apply elem_of_nil in Hin. contradiction.
Defined.

Lemma unbound_database_denied_witness :
  mcp_server.handle_message inputs.database_down inputs.authenticated_server
    "conn_1" (Some (VDict inputs.get_schema_unbound_request))
  = {| mcp_server.made := [];
       mcp_server.after := inputs.authenticated_server;
       mcp_server.sent :=
         Some [ ("type", VStr "error");
                ("error", VStr "Access denied to this database");
                ("request_id", VStr "req-7") ] |}.
Proof.
  apply (unbound_database_denied inputs.database_down
           inputs.authenticated_server "conn_1" "get_schema"
           inputs.get_schema_unbound_request ["db1"; "db2"]).
  - exact authenticated_server_bindings.
  - unfold database_operations. apply list_elem_of_further, list_elem_of_here.
  - reflexivity.
  - reflexivity.
Defined.
